(** * Expense tracker: the expense model and its controller

    A shallow embedding of [backend/models/Expense.js] (the schema and its two
    aggregation statics), of [backend/controllers/expenseController.js] and of
    the error middleware of [backend/server.js].

    The model layer of the application is a schema handed to the object
    mapper of the document store; the operations of the mapper that the
    controller calls ([create], [find] and [sort], [findById],
    [findByIdAndUpdate], [aggregate]) are written out here as functions on
    the collection, with the schema's setters, defaults and validators
    applied where the mapper applies them.

    Conventions of the embedding:
    - text is [string], one [ascii] per code unit;
    - an instant ([Date]) is the number of milliseconds since the epoch, in
      [Z]; a [Date] object that may be invalid is an [option Z];
    - an amount is a whole number, in [Z].  The [Number] of the schema is a
      binary64 floating-point number; the sums of the code are written again
      over binary64 in [Double], where they are proved to be the sums of the
      embedding for whole amounts, none negative, that add up to less than
      2^53, and where amounts with a fractional part, whose sums are
      rounded, are treated;
    - the collection is the list of its documents in natural order;
    - the clock readings and the identifier of a new document are arguments
      of the operations that consume them;
    - what the store itself decides (which sort keys it refuses) and what the
      host decides (which texts are dates) are interfaces. *)

From Stdlib Require Import Floats.
From Stdlib Require Import ZArith List String Ascii Bool Lia.
From Stdlib Require Import Permutation Sorted DecimalString.
Import ListNotations.

Local Open Scope string_scope.
Local Open Scope Z_scope.

(* ------------------------------------------------------------------ *)
(** ** Host text primitives *)

Module Js.

(** White space removed by [String.prototype.trim], for code units below 256. *)
Definition isWhiteSpace (c : ascii) : bool :=
  let n := nat_of_ascii c in
  (Nat.eqb n 9 || Nat.eqb n 10 || Nat.eqb n 11 || Nat.eqb n 12
   || Nat.eqb n 13 || Nat.eqb n 32 || Nat.eqb n 160)%bool.

Fixpoint trimStart (s : string) : string :=
  match s with
  | EmptyString => EmptyString
  | String c r => if isWhiteSpace c then trimStart r else s
  end.

Fixpoint trimEnd (s : string) : string :=
  match s with
  | EmptyString => EmptyString
  | String c r =>
      match trimEnd r with
      | EmptyString => if isWhiteSpace c then EmptyString else String c EmptyString
      | r' => String c r'
      end
  end.

(** [s.trim()] *)
Definition trim (s : string) : string := trimEnd (trimStart s).

(** [s.split(sep)] for a one-character separator. *)
Fixpoint split (sep : ascii) (s : string) : list string :=
  match s with
  | EmptyString => [EmptyString]
  | String c r =>
      if Ascii.eqb c sep then EmptyString :: split sep r
      else match split sep r with
           | [] => [String c EmptyString]
           | h :: t => String c h :: t
           end
  end.

(** Truthiness of a text value that may be [undefined]: the empty text and
    [undefined] are falsy. *)
Definition truthy (v : option string) : bool :=
  match v with
  | None => false
  | Some s => negb (String.eqb s EmptyString)
  end.

(** [`${n}`] for an integer. *)
Definition numberToString (n : Z) : string :=
  NilZero.string_of_int (Z.to_int n).

End Js.

(* ------------------------------------------------------------------ *)
(** ** Calendar arithmetic behind [Date] and [$month] (proleptic Gregorian, UTC) *)

Module Calendar.

Definition msPerDay : Z := 86400000.

(** Day number, counted from 1970-01-01, of a civil date. *)
Definition daysFromCivil (y m d : Z) : Z :=
  let y' := if m <=? 2 then y - 1 else y in
  let era := y' / 400 in
  let yoe := y' - era * 400 in
  let mp := if 2 <? m then m - 3 else m + 9 in
  let doy := (153 * mp + 2) / 5 + d - 1 in
  let doe := yoe * 365 + yoe / 4 - yoe / 100 + doy in
  era * 146097 + doe - 719468.

(** Civil date (year, month, day) of a day number. *)
Definition civilFromDays (z : Z) : Z * Z * Z :=
  let z' := z + 719468 in
  let era := z' / 146097 in
  let doe := z' - era * 146097 in
  let yoe := (doe - doe / 1460 + doe / 36524 - doe / 146096) / 365 in
  let doy := doe - (365 * yoe + yoe / 4 - yoe / 100) in
  let mp := (5 * doy + 2) / 153 in
  let d := doy - (153 * mp + 2) / 5 + 1 in
  let m := if mp <? 10 then mp + 3 else mp - 9 in
  ((if m <=? 2 then yoe + era * 400 + 1 else yoe + era * 400), m, d).

(** [Date.UTC(y, m - 1, d, hh, mm, ss, ms)]. *)
Definition utc (y m d hh mm ss ms : Z) : Z :=
  daysFromCivil y m d * msPerDay + hh * 3600000 + mm * 60000 + ss * 1000 + ms.

(** The [$month] operator: month number 1..12 of an instant, in UTC. *)
Definition month (t : Z) : Z :=
  let '(_, m, _) := civilFromDays (t / msPerDay) in m.

Definition year (t : Z) : Z :=
  let '(y, _, _) := civilFromDays (t / msPerDay) in y.

Definition dayOfMonth (t : Z) : Z :=
  let '(_, _, d) := civilFromDays (t / msPerDay) in d.

Definition digit (c : ascii) : option Z :=
  let n := Z.of_nat (nat_of_ascii c) in
  if (48 <=? n) && (n <=? 57) then Some (n - 48) else None.

Fixpoint digits (acc : Z) (cs : list ascii) : option Z :=
  match cs with
  | [] => Some acc
  | c :: r =>
      match digit c with
      | Some v => digits (10 * acc + v) r
      | None => None
      end
  end.

(** The date-only ISO form [YYYY-MM-DD], which the language fixes to denote
    midnight UTC of that day. *)
Definition parseIsoDate (s : string) : option Z :=
  match list_ascii_of_string s with
  | [y1; y2; y3; y4; "-"%char; m1; m2; "-"%char; d1; d2] =>
      match digits 0 [y1; y2; y3; y4], digits 0 [m1; m2], digits 0 [d1; d2] with
      | Some y, Some m, Some d =>
          if (1 <=? m) && (m <=? 12) && (1 <=? d) && (d <=? 31)
          then Some (utc y m d 0 0 0 0)
          else None
      | _, _, _ => None
      end
  | _ => None
  end.

End Calendar.

(** The host's [Date] constructor on text: [Date_parse s] is the time value of
    [new Date(s)], [None] for an Invalid Date.  Which texts beyond the ISO
    forms are understood depends on the engine, so it is an interface. *)
Class DateHost := { Date_parse : string -> option Z }.

(** A host that understands the date-only ISO form and nothing else. *)
#[export] Instance isoHost : DateHost := {| Date_parse := Calendar.parseIsoDate |}.

(* ------------------------------------------------------------------ *)
(** ** Errors and results *)

(** The properties of a thrown error that the controller and the error
    middleware read. *)
Record JsError := {
  name : string;
  message : string;
  statusCode : option Z;
  errors : list (string * string)   (* path and message, for a ValidationError *)
}.

Inductive Result (A : Type) : Type :=
| Ok (a : A)
| Throw (e : JsError).
Arguments Ok {A} a.
Arguments Throw {A} e.

Definition joinWith (sep : string) (l : list string) : string := String.concat sep l.

(** A text between double quotes. *)
Definition quoted (s : string) : string :=
  String "034"%char (s ++ String "034"%char EmptyString).

(** The store's error for a value that cannot be cast to the type of [path].
    The value is a text of the request, except for a date bound of a query,
    where it is the [Date] made from the text. *)
Definition CastError (kind value path : string) : JsError :=
  {| name := "CastError";
     message := "Cast to " ++ kind ++ " failed for value " ++ quoted value
                ++ " (type " ++ (if String.eqb kind "date" then "Date" else "string")
                ++ ") at path " ++ quoted path ++ " for model " ++ quoted "Expense";
     statusCode := None;
     errors := [] |}.

(** The store's error for a document or update rejected by the schema. *)
Definition ValidationError (errs : list (string * string)) : JsError :=
  {| name := "ValidationError";
     message := "Validation failed: " ++ joinWith ", " (map (fun pm => fst pm ++ ": " ++ snd pm) errs);
     statusCode := None;
     errors := errs |}.

(** The server's error for an insert whose [_id] is already present. *)
Definition DuplicateKeyError (oid : string) : JsError :=
  {| name := "MongoServerError";
     message := "E11000 duplicate key error, _id: " ++ oid;
     statusCode := None;
     errors := [] |}.

(** The server's error for a query whose sort key it refuses (the wording
    for keys other than the empty one differs between versions). *)
Definition BadSortKeyError (key : string) : JsError :=
  {| name := "MongoServerError";
     message := if String.eqb key EmptyString
                then "FieldPath cannot be constructed with empty string"
                else "Bad sort specification: " ++ key;
     statusCode := None;
     errors := [] |}.

(* ------------------------------------------------------------------ *)
(** ** The Expense schema *)

Definition ObjectId := string.

Definition isHexDigit (c : ascii) : bool :=
  let n := nat_of_ascii c in
  ((Nat.leb 48 n && Nat.leb n 57) || (Nat.leb 65 n && Nat.leb n 70)
   || (Nat.leb 97 n && Nat.leb n 102))%bool.

Definition lowerHex (c : ascii) : ascii :=
  let n := nat_of_ascii c in
  if (Nat.leb 65 n && Nat.leb n 70)%bool then ascii_of_nat (n + 32) else c.

(** Cast of a text to an identifier: 24 hexadecimal digits, read without
    regard to case; an identifier prints in lower case. *)
Definition castObjectId (s : string) : option ObjectId :=
  let cs := list_ascii_of_string s in
  if (Nat.eqb (List.length cs) 24 && forallb isHexDigit cs)%bool
  then Some (string_of_list_ascii (map lowerHex cs))
  else None.

(** A stored document. *)
Record Expense := {
  _id : ObjectId;
  title : string;
  amount : Z;
  category : string;
  date : Z;
  description : option string;
  createdAt : Z;
  updatedAt : Z
}.

(** A request body: each schema path is absent or carries a value of the
    path's type. *)
Record Body := {
  b_title : option string;
  b_amount : option Z;
  b_category : option string;
  b_date : option Z;
  b_description : option string
}.

Definition categories : list string :=
  ["Food"; "Transportation"; "Entertainment"; "Shopping"; "Utilities"; "Housing";
   "Healthcare"; "Personal"; "Education"; "Gifts"; "Travel"; "Other"].

Definition inEnum (v : string) : bool := existsb (String.eqb v) categories.

(** Outcome of the validators of one path: the first validator that fails
    gives the path's message. *)
Inductive Checked (A : Type) : Type :=
| Valid (a : A)
| Invalid (msg : string).
Arguments Valid {A} a.
Arguments Invalid {A} msg.

Definition failure {A : Type} (path : string) (c : Checked A) : list (string * string) :=
  match c with
  | Valid _ => []
  | Invalid m => [(path, m)]
  end.

(** [title]: required, maxlength 100; the value is the one the [trim] setter
    left. *)
Definition validateTitle (v : option string) : Checked string :=
  match v with
  | None => Invalid "Please add a title"
  | Some s =>
      if String.eqb s EmptyString then Invalid "Please add a title"
      else if (100 <? String.length s)%nat
           then Invalid "Title cannot be more than 100 characters"
           else Valid s
  end.

(** [amount]: required, min 0. *)
Definition validateAmount (v : option Z) : Checked Z :=
  match v with
  | None => Invalid "Please add an amount"
  | Some a => if a <? 0 then Invalid "Amount must be a positive number" else Valid a
  end.

(** [category]: required, enum. *)
Definition validateCategory (v : option string) : Checked string :=
  match v with
  | None => Invalid "Please add a category"
  | Some c =>
      if String.eqb c EmptyString then Invalid "Please add a category"
      else if inEnum c then Valid c
           else Invalid ("`" ++ c ++ "` is not a valid enum value for path `category`.")
  end.

(** [description]: maxlength 500, on the trimmed value. *)
Definition validateDescription (v : option string) : Checked (option string) :=
  match v with
  | None => Valid None
  | Some s =>
      if (500 <? String.length s)%nat
      then Invalid "Description cannot be more than 500 characters"
      else Valid (Some s)
  end.

(* ------------------------------------------------------------------ *)
(** ** The collection *)

Definition Collection := list Expense.

Definition hasId (oid : ObjectId) (e : Expense) : bool := String.eqb (_id e) oid.

(** [v] when the path is present, the default [d] otherwise. *)
Definition orElse {A : Type} (v : option A) (d : A) : A :=
  match v with
  | Some x => x
  | None => d
  end.

(** [Expense.create(body)]: setters and defaults, validation, timestamps,
    insert.  [oid] is the identifier of the new document (the one the driver
    generates for it, or the [_id] the body brings along), [tDefault] the
    clock read by the [date] default and [tSave] the clock read for the
    timestamps.  The collection is indexed by [_id]: the server refuses an
    insert under an identifier it already holds. *)
Definition create (oid : ObjectId) (tDefault tSave : Z) (b : Body) (coll : Collection)
  : Result Expense * Collection :=
  let vt := validateTitle (option_map Js.trim (b_title b)) in
  let va := validateAmount (b_amount b) in
  let vc := validateCategory (Some (orElse (b_category b) "Other")) in
  let vd := validateDescription (option_map Js.trim (b_description b)) in
  match vt, va, vc, vd with
  | Valid t, Valid a, Valid c, Valid d =>
      if existsb (hasId oid) coll then (Throw (DuplicateKeyError oid), coll)
      else
        let e := {| _id := oid; title := t; amount := a; category := c;
                    date := orElse (b_date b) tDefault;
                    description := d; createdAt := tSave; updatedAt := tSave |} in
        (Ok e, (coll ++ [e])%list)
  | _, _, _, _ =>
      (Throw (ValidationError (failure "title" vt ++ failure "amount" va
                               ++ failure "category" vc ++ failure "description" vd)%list),
       coll)
  end.

(** [Expense.findById(id)] *)
Definition findById (id : string) (coll : Collection) : Result (option Expense) :=
  match castObjectId id with
  | None => Throw (CastError "ObjectId" id "_id")
  | Some oid => Ok (find (hasId oid) coll)
  end.

(** Update validators run on the paths present in the update only. *)
Definition updateErrors (b : Body) : list (string * string) :=
  ((match b_title b with
   | Some s => failure "title" (validateTitle (Some (Js.trim s)))
   | None => []
   end)
  ++ (match b_amount b with
      | Some a => failure "amount" (validateAmount (Some a))
      | None => []
      end)
  ++ (match b_category b with
      | Some c => failure "category" (validateCategory (Some c))
      | None => []
      end)
  ++ (match b_description b with
      | Some s => failure "description" (validateDescription (Some (Js.trim s)))
      | None => []
      end))%list.

(** The [$set] of the paths present in the body, and of [updatedAt]. *)
Definition applyUpdate (b : Body) (now : Z) (e : Expense) : Expense :=
  {| _id := _id e;
     title := orElse (option_map Js.trim (b_title b)) (title e);
     amount := orElse (b_amount b) (amount e);
     category := orElse (b_category b) (category e);
     date := orElse (b_date b) (date e);
     description := match b_description b with
                    | Some s => Some (Js.trim s)
                    | None => description e
                    end;
     createdAt := createdAt e;
     updatedAt := now |}.

Fixpoint updateOne (oid : ObjectId) (f : Expense -> Expense) (coll : Collection) : Collection :=
  match coll with
  | [] => []
  | e :: r => if hasId oid e then f e :: r else e :: updateOne oid f r
  end.

(** [Expense.findByIdAndUpdate(id, body, { new: true, runValidators: true })]:
    the identifier is cast, the update is validated, and only then is the
    collection consulted. *)
Definition findByIdAndUpdate (now : Z) (id : string) (b : Body) (coll : Collection)
  : Result (option Expense) * Collection :=
  match castObjectId id with
  | None => (Throw (CastError "ObjectId" id "_id"), coll)
  | Some oid =>
      match updateErrors b with
      | (_ :: _) as errs => (Throw (ValidationError errs), coll)
      | [] =>
          match find (hasId oid) coll with
          | None => (Ok None, coll)
          | Some e => (Ok (Some (applyUpdate b now e)), updateOne oid (applyUpdate b now) coll)
          end
      end
  end.

(* ------------------------------------------------------------------ *)
(** ** Queries: filter, sort *)

(** The [query] object the controller builds.  A date bound, when present,
    holds the [Date] made from the request text, which may be invalid. *)
Record Filter := {
  f_category : option string;
  f_gte : option (option Z);
  f_lte : option (option Z)
}.

Inductive Direction := Asc | Desc.   (* 1 and -1 *)

(** [sortOptions]: one key and its direction. *)
Definition SortOptions := (string * Direction)%type.

(** Values a path of an Expense document can hold. *)
Inductive Bson :=
| BNull                        (* a path the document does not have *)
| BNumber (n : Z)
| BString (s : string)
| BObjectId (o : ObjectId)
| BDate (t : Z).

(** Rank of the types in the store's comparison order. *)
Definition typeRank (v : Bson) : Z :=
  match v with
  | BNull => 1
  | BNumber _ => 2
  | BString _ => 3
  | BObjectId _ => 4
  | BDate _ => 5
  end.

Definition bsonLeb (a b : Bson) : bool :=
  match a, b with
  | BNumber x, BNumber y => x <=? y
  | BString x, BString y => String.leb x y
  | BObjectId x, BObjectId y => String.leb x y
  | BDate x, BDate y => x <=? y
  | _, _ => typeRank a <=? typeRank b
  end.

(** The value of a document at a path named in a sort key. *)
Definition getPath (field : string) (e : Expense) : Bson :=
  if String.eqb field "_id" then BObjectId (_id e)
  else if String.eqb field "title" then BString (title e)
  else if String.eqb field "amount" then BNumber (amount e)
  else if String.eqb field "category" then BString (category e)
  else if String.eqb field "date" then BDate (date e)
  else if String.eqb field "description" then
    match description e with
    | Some d => BString d
    | None => BNull
    end
  else if String.eqb field "createdAt" then BDate (createdAt e)
  else if String.eqb field "updatedAt" then BDate (updatedAt e)
  else if String.eqb field "__v" then BNumber 0   (* the version key *)
  else BNull.

Definition docLeb (o : SortOptions) (a b : Expense) : bool :=
  match snd o with
  | Asc => bsonLeb (getPath (fst o) a) (getPath (fst o) b)
  | Desc => bsonLeb (getPath (fst o) b) (getPath (fst o) a)
  end.

Fixpoint insertBy {A : Type} (leb : A -> A -> bool) (x : A) (l : list A) : list A :=
  match l with
  | [] => [x]
  | y :: r => if leb x y then x :: l else y :: insertBy leb x r
  end.

(** Sorting keeps documents with equal keys in their incoming order (the
    store leaves the order of ties open). *)
Definition sortBy {A : Type} (leb : A -> A -> bool) (l : list A) : list A :=
  fold_right (insertBy leb) [] l.

Definition matches (category_eq : option string) (gte lte : option Z) (e : Expense) : bool :=
  (match category_eq with
   | Some c => String.eqb (category e) c
   | None => true
   end)
  && (match gte with
      | Some lo => lo <=? date e
      | None => true
      end)
  && (match lte with
      | Some hi => date e <=? hi
      | None => true
      end).

(** Cast of one date bound of the filter: an Invalid Date is refused. *)
Definition castBound (b : option (option Z)) : Result (option Z) :=
  match b with
  | None => Ok None
  | Some (Some t) => Ok (Some t)
  | Some None => Throw (CastError "date" "Invalid Date" "date")
  end.

(** The paths of a stored document. *)
Definition schemaPaths : list string :=
  ["_id"; "title"; "amount"; "category"; "date"; "description"; "createdAt"; "updatedAt";
   "__v"].

(** The store checks the sort key of a query before it reads any document,
    and fails the query on a key it refuses.  Which keys it refuses has
    changed between versions of the store, so the check is an interface.
    Every store refuses the empty key and accepts the paths of the schema. *)
Class Store := {
  acceptsSortKey : string -> bool;
  refusesEmptyKey : acceptsSortKey EmptyString = false;
  acceptsSchemaPaths : forallb acceptsSortKey schemaPaths = true
}.

(** A store that takes a key apart at its dots and refuses it when one of
    the parts is empty. *)
Definition dottedKeyOk (key : string) : bool :=
  forallb (fun part => negb (String.eqb part EmptyString)) (Js.split "." key).

#[export] Instance dottedStore : Store :=
  {| acceptsSortKey := dottedKeyOk;
     refusesEmptyKey := eq_refl;
     acceptsSchemaPaths := eq_refl |}.

(** [Expense.find(query).sort(sortOptions)]: the filter is cast before the
    query is sent; the server then checks the sort key, filters and sorts. *)
Definition findSorted `{Store} (q : Filter) (o : SortOptions) (coll : Collection)
  : Result (list Expense) :=
  match castBound (f_gte q) with
  | Throw e => Throw e
  | Ok lo =>
      match castBound (f_lte q) with
      | Throw e => Throw e
      | Ok hi =>
          if acceptsSortKey (fst o)
          then Ok (sortBy (docLeb o) (filter (matches (f_category q) lo hi) coll))
          else Throw (BadSortKeyError (fst o))
      end
  end.

(* ------------------------------------------------------------------ *)
(** ** Aggregation stages *)

Fixpoint accumulate {K : Type} (eqb : K -> K -> bool) (k : K) (v : Z)
  (groups : list (K * Z)) : list (K * Z) :=
  match groups with
  | [] => [(k, v)]
  | (k', t) :: r =>
      if eqb k' k then (k', t + v) :: r else (k', t) :: accumulate eqb k v r
  end.

(** [{ $group: { _id: key, total: { $sum: '$amount' } } }] *)
Definition groupSum {K : Type} (eqb : K -> K -> bool) (key : Expense -> K)
  (docs : list Expense) : list (K * Z) :=
  fold_left (fun groups e => accumulate eqb (key e) (amount e) groups) docs [].

(** [ExpenseSchema.statics.getTotalByCategory] *)
Definition getTotalByCategory (coll : Collection) : list (string * Z) :=
  sortBy (fun a b => snd b <=? snd a) (groupSum String.eqb category coll).

(** [ExpenseSchema.statics.getMonthlyExpenses]; [None] when the host makes
    no valid [Date] of one of the two bounds. *)
Definition getMonthlyExpenses `{DateHost} (year : Z) (coll : Collection)
  : option (list (Z * Z)) :=
  match Date_parse (Js.numberToString year ++ "-01-01"),
        Date_parse (Js.numberToString year ++ "-12-31") with
  | Some lo, Some hi =>
      Some (sortBy (fun a b => fst a <=? fst b)
              (groupSum Z.eqb (fun e => Calendar.month (date e))
                 (filter (fun e => (lo <=? date e) && (date e <=? hi)) coll)))
  | _, _ => None
  end.

(** The third aggregate of [getExpenseStats]: one group for the whole
    collection, then [total.length > 0 ? total[0].total : 0]. *)
Definition grandTotal (coll : Collection) : Z :=
  match groupSum (fun _ _ : unit => true) (fun _ => tt) coll with
  | (_, t) :: _ => t
  | [] => 0
  end.

(* ------------------------------------------------------------------ *)
(** ** The sums over binary64

    The two kinds of sum the code takes, written again over the numbers the
    code adds: the [reduce] of the listing, and the [$sum] of a group stage,
    which adds the amount of each document to the total of its group as the
    documents are read.  A document is given by its key and its amount. *)

Module Double.

(** [expenses.reduce((sum, expense) => sum + expense.amount, 0)] *)
Definition total (amounts : list float) : float :=
  fold_left (fun sum amount => (sum + amount)%float) amounts 0%float.

Fixpoint accumulate {K : Type} (eqb : K -> K -> bool) (k : K) (v : float)
  (groups : list (K * float)) : list (K * float) :=
  match groups with
  | [] => [(k, v)]
  | (k', t) :: r =>
      if eqb k' k then (k', (t + v)%float) :: r else (k', t) :: accumulate eqb k v r
  end.

(** [{ $group: { _id: key, total: { $sum: '$amount' } } }] *)
Definition groupSum {K : Type} (eqb : K -> K -> bool) (docs : list (K * float))
  : list (K * float) :=
  fold_left (fun groups d => accumulate eqb (fst d) (snd d) groups) docs [].

(** [ExpenseSchema.statics.getTotalByCategory] *)
Definition getTotalByCategory (docs : list (string * float)) : list (string * float) :=
  sortBy (fun a b => (snd b <=? snd a)%float) (groupSum String.eqb docs).

(** The third aggregate of [getExpenseStats]. *)
Definition grandTotal (docs : list (string * float)) : float :=
  match groupSum (fun _ _ : unit => true) (map (fun d => (tt, snd d)) docs) with
  | (_, t) :: _ => t
  | [] => 0%float
  end.

(** The binary64 number that a whole number from 0 to 2^63 - 1 is read as. *)
Definition ofWhole (z : Z) : float := PrimFloat.of_uint63 (Uint63.of_Z z).

(** A group of whole total, as the group stage over binary64 holds it. *)
Definition ofWholeGroup {K : Type} (p : K * Z) : K * float := (fst p, ofWhole (snd p)).

(** A mantissa shifted left by [k] binary digits. *)
Definition shiftLeft (m : positive) (k : Z) : positive :=
  match k with
  | Zpos d => Pos.iter xO m d
  | _ => m
  end.

(** A mantissa with nothing lost to its right. *)
Definition exactly (m : Z) : shr_record := {| shr_m := m; shr_r := false; shr_s := false |}.

(** The binary64 form of a whole number below 2^53: its digits moved up to
    fill the 53 digits of the mantissa. *)
Definition canonical (n : positive) : spec_float :=
  S754_finite false (shiftLeft n (53 - Zpos (digits2_pos n))) (Zpos (digits2_pos n) - 53).

End Double.

(* ------------------------------------------------------------------ *)
(** ** Responses, error middleware, controller *)

Inductive Payload :=
| ExpenseList (count : nat) (total : Z) (data : list Expense)
| ExpenseData (data : Expense)
| EmptyData
| StatsData (total : Z) (byCategory : list (string * Z)) (byMonth : list (Z * Z))
| ErrorText (error : string)
| ErrorMessages (error : list string).

Record Response := {
  status : Z;
  success : bool;
  payload : Payload
}.

(** The error-handling middleware of the server (the stack trace it adds
    outside production is left out). *)
Definition errorHandler (err : JsError) : Response :=
  {| status := match statusCode err with
               | Some c => if c =? 0 then 500 else c
               | None => 500
               end;
     success := false;
     payload := ErrorText (if String.eqb (message err) EmptyString
                           then "Server Error" else message err) |}.

Definition notFound : Response :=
  {| status := 404; success := false; payload := ErrorText "Expense not found" |}.

(** The text parameters of [req.query]. *)
Record ReqQuery := {
  q_category : option string;
  q_startDate : option string;
  q_endDate : option string;
  q_sort : option string
}.

Definition dateBound `{DateHost} (v : option string) : option (option Z) :=
  match v with
  | Some s => if Js.truthy v then Some (Date_parse s) else None
  | None => None
  end.

Definition buildQuery `{DateHost} (r : ReqQuery) : Filter :=
  {| f_category := if Js.truthy (q_category r) then q_category r else None;
     f_gte := if Js.truthy (q_startDate r) || Js.truthy (q_endDate r)
              then dateBound (q_startDate r) else None;
     f_lte := if Js.truthy (q_startDate r) || Js.truthy (q_endDate r)
              then dateBound (q_endDate r) else None |}.

Definition buildSort (sort : option string) : SortOptions :=
  match sort with
  | Some s =>
      if Js.truthy sort then
        let parts := Js.split ":" s in
        (nth 0 parts EmptyString,
         match nth_error parts 1 with
         | Some order => if String.eqb order "asc" then Asc else Desc
         | None => Desc
         end)
      else ("date", Desc)
  | None => ("date", Desc)
  end.

(** [exports.getExpenses] *)
Definition getExpenses `{DateHost} `{Store} (r : ReqQuery) (coll : Collection) : Response :=
  match findSorted (buildQuery r) (buildSort (q_sort r)) coll with
  | Ok expenses =>
      {| status := 200; success := true;
         payload := ExpenseList (List.length expenses)
                      (fold_left (fun sum expense => sum + amount expense) expenses 0)
                      expenses |}
  | Throw error => errorHandler error
  end.

(** [exports.getExpense] *)
Definition getExpense (id : string) (coll : Collection) : Response :=
  match findById id coll with
  | Ok None => notFound
  | Ok (Some expense) => {| status := 200; success := true; payload := ExpenseData expense |}
  | Throw error => errorHandler error
  end.

Definition validationFailed (error : JsError) : Response :=
  {| status := 400; success := false; payload := ErrorMessages (map snd (errors error)) |}.

(** [exports.createExpense] *)
Definition createExpense (oid : ObjectId) (tDefault tSave : Z) (b : Body) (coll : Collection)
  : Response * Collection :=
  match create oid tDefault tSave b coll with
  | (Ok expense, coll') =>
      ({| status := 201; success := true; payload := ExpenseData expense |}, coll')
  | (Throw error, coll') =>
      if String.eqb (name error) "ValidationError"
      then (validationFailed error, coll')
      else (errorHandler error, coll')
  end.

(** [exports.updateExpense] *)
Definition updateExpense (now : Z) (id : string) (b : Body) (coll : Collection)
  : Response * Collection :=
  match findByIdAndUpdate now id b coll with
  | (Ok None, coll') => (notFound, coll')
  | (Ok (Some expense), coll') =>
      ({| status := 200; success := true; payload := ExpenseData expense |}, coll')
  | (Throw error, coll') =>
      if String.eqb (name error) "ValidationError"
      then (validationFailed error, coll')
      else (errorHandler error, coll')
  end.

Fixpoint deleteOne (oid : ObjectId) (coll : Collection) : Collection :=
  match coll with
  | [] => []
  | e :: r => if hasId oid e then r else e :: deleteOne oid r
  end.

(** [Expense.findByIdAndDelete(id)] *)
Definition findByIdAndDelete (id : string) (coll : Collection)
  : Result (option Expense) * Collection :=
  match castObjectId id with
  | None => (Throw (CastError "ObjectId" id "_id"), coll)
  | Some oid =>
      match find (hasId oid) coll with
      | None => (Ok None, coll)
      | Some e => (Ok (Some e), deleteOne oid coll)
      end
  end.

(** [exports.deleteExpense] *)
Definition deleteExpense (id : string) (coll : Collection) : Response * Collection :=
  match findByIdAndDelete id coll with
  | (Ok None, coll') => (notFound, coll')
  | (Ok (Some _), coll') => ({| status := 200; success := true; payload := EmptyData |}, coll')
  | (Throw error, coll') => (errorHandler error, coll')
  end.

(** [exports.getExpenseStats]; [currentYear] is the clock's year at the call. *)
Definition getExpenseStats `{DateHost} (currentYear : Z) (coll : Collection)
  : option Response :=
  let categoryStats := getTotalByCategory coll in
  match getMonthlyExpenses currentYear coll with
  | Some monthlyStats =>
      Some {| status := 200; success := true;
              payload := StatsData (grandTotal coll) categoryStats monthlyStats |}
  | None => None
  end.

(* ------------------------------------------------------------------ *)
(** ** Reference notions used in the statements *)

(** The arithmetic sum of a list of numbers. *)
Definition sumZ (l : list Z) : Z := fold_right Z.add 0 l.

(** The numbers of a list added one after the other, starting from 0. *)
Definition addUp (l : list Z) : Z := fold_left Z.add l 0.

(** Records whose amounts binary64 adds without rounding, in whatever
    order: whole numbers (as all amounts of the embedding are), none
    negative, adding up to less than 2^53. *)
Definition wholeAmounts (coll : Collection) : Prop :=
  Forall (fun e => 0 <= amount e) coll /\ sumZ (map amount coll) < 2 ^ 53.

(** Category and amount of the records, the amount as the binary64 number
    the code adds. *)
Definition asDouble (coll : Collection) : list (string * float) :=
  map (fun e => (category e, Double.ofWhole (amount e))) coll.

(** A text parameter that imposes a constraint: present and not empty. *)
Definition suppliedText (v : option string) : option string :=
  match v with
  | Some s => if String.eqb s EmptyString then None else Some s
  | None => None
  end.

(** The instant a supplied date parameter denotes on the host. *)
Definition suppliedDate `{DateHost} (v : option string) : option Z :=
  match suppliedText v with
  | Some s => Date_parse s
  | None => None
  end.

(** A supplied date parameter is readable when the host makes a valid date
    of it. *)
Definition readable `{DateHost} (v : option string) : Prop :=
  forall s, suppliedText v = Some s -> Date_parse s <> None.

(** A request the listing is answered for: the host reads a date from each
    date parameter that is supplied, and the store accepts the sort key. *)
Definition answerable `{DateHost} `{Store} (r : ReqQuery) : Prop :=
  readable (q_startDate r) /\ readable (q_endDate r)
  /\ acceptsSortKey (fst (buildSort (q_sort r))) = true.

(** The conjunction of the constraints of a typed filter. *)
Definition satisfies (cat : option string) (start finish : option Z) (e : Expense) : Prop :=
  (forall c, cat = Some c -> category e = c)
  /\ (forall lo, start = Some lo -> lo <= date e)
  /\ (forall hi, finish = Some hi -> date e <= hi).

(** The order relation of a boolean comparison. *)
Definition lebRel {A : Type} (leb : A -> A -> bool) (a b : A) : Prop := leb a b = true.

(** Documents ordered by one path, in one direction. *)
Definition ordered (o : SortOptions) (l : list Expense) : Prop :=
  Sorted (lebRel (docLeb o)) l.

(** Documents in the order of a number or an instant they carry, in one
    direction. *)
Definition inOrder (key : Expense -> Z) (d : Direction) (l : list Expense) : Prop :=
  Sorted (fun a b => match d with
                     | Asc => key a <= key b
                     | Desc => key b <= key a
                     end) l.

(** Documents in the order of a text they carry, code unit by code unit, in
    one direction. *)
Definition inTextOrder (key : Expense -> string) (d : Direction) (l : list Expense) : Prop :=
  Sorted (fun a b => match d with
                     | Asc => String.leb (key a) (key b) = true
                     | Desc => String.leb (key b) (key a) = true
                     end) l.

(** The total recorded for a key in a list of groups. *)
Definition totalOf {K : Type} (eqb : K -> K -> bool) (c : K) (g : list (K * Z)) : Z :=
  sumZ (map snd (filter (fun p => eqb (fst p) c) g)).

Fixpoint noColon (s : string) : bool :=
  match s with
  | EmptyString => true
  | String c r => negb (Ascii.eqb c ":") && noColon r
  end.

(** The record the words of the specification describe for an accepted
    draft: the draft as sent, the defaults, the identifier and timestamps. *)
Definition recordOfDraft (oid : ObjectId) (tDefault tSave : Z) (b : Body) : Expense :=
  {| _id := oid;
     title := orElse (b_title b) EmptyString;
     amount := orElse (b_amount b) 0;
     category := orElse (b_category b) "Other";
     date := orElse (b_date b) tDefault;
     description := b_description b;
     createdAt := tSave;
     updatedAt := tSave |}.

(** The record the schema stores for an accepted draft: as above, with
    [title] and [description] trimmed. *)
Definition storedOfDraft (oid : ObjectId) (tDefault tSave : Z) (b : Body) : Expense :=
  {| _id := oid;
     title := Js.trim (orElse (b_title b) EmptyString);
     amount := orElse (b_amount b) 0;
     category := orElse (b_category b) "Other";
     date := orElse (b_date b) tDefault;
     description := option_map Js.trim (b_description b);
     createdAt := tSave;
     updatedAt := tSave |}.

(** A draft the data model accepts, in the words of the specification. *)
Definition validDraft (b : Body) : Prop :=
  (exists t, b_title b = Some t /\ Js.trim t <> EmptyString
             /\ (String.length (Js.trim t) <= 100)%nat)
  /\ (exists a, b_amount b = Some a /\ 0 <= a)
  /\ (forall c, b_category b = Some c -> In c categories)
  /\ (forall d, b_description b = Some d -> (String.length d <= 500)%nat).

(** The schema paths a draft violates, lengths being taken after trimming. *)
Definition titleViolated (b : Body) : bool :=
  match b_title b with
  | Some t => String.eqb (Js.trim t) EmptyString || (100 <? String.length (Js.trim t))%nat
  | None => true
  end.

Definition amountViolated (b : Body) : bool :=
  match b_amount b with
  | Some a => a <? 0
  | None => true
  end.

Definition categoryViolated (b : Body) : bool :=
  match b_category b with
  | Some c => negb (inEnum c)
  | None => false
  end.

Definition descriptionViolated (b : Body) : bool :=
  match b_description b with
  | Some d => (500 <? String.length (Js.trim d))%nat
  | None => false
  end.

Definition violatedPaths (b : Body) : list string :=
  ((if titleViolated b then ["title"] else [])
   ++ (if amountViolated b then ["amount"] else [])
   ++ (if categoryViolated b then ["category"] else [])
   ++ (if descriptionViolated b then ["description"] else []))%list.

(** A draft that breaks a constraint when lengths are taken on the text as
    sent. *)
Definition violatesAsSent (b : Body) : Prop :=
  b_title b = None
  \/ (exists t, b_title b = Some t /\ (Js.trim t = EmptyString \/ (100 < String.length t)%nat))
  \/ b_amount b = None
  \/ (exists a, b_amount b = Some a /\ a < 0)
  \/ (exists c, b_category b = Some c /\ ~ In c categories)
  \/ (exists d, b_description b = Some d /\ (500 < String.length d)%nat).

(* ------------------------------------------------------------------ *)
(** ** Sample data *)

Definition emptyBody : Body :=
  {| b_title := None; b_amount := None; b_category := None;
     b_date := None; b_description := None |}.

Definition noQuery : ReqQuery :=
  {| q_category := None; q_startDate := None; q_endDate := None; q_sort := None |}.

Definition lunchId : ObjectId := "64b7f0c2a1d3e4f5a6b7c8d9".
Definition busId : ObjectId := "64b7f0c2a1d3e4f5a6b7c8da".
Definition freshId : ObjectId := "64b7f0c2a1d3e4f5a6b7c8db".

Definition lunch : Expense :=
  {| _id := lunchId; title := "Lunch"; amount := 100; category := "Food";
     date := Calendar.utc 2024 3 5 12 30 0 0; description := None;
     createdAt := Calendar.utc 2024 3 5 13 0 0 0;
     updatedAt := Calendar.utc 2024 3 5 13 0 0 0 |}.

Definition bus : Expense :=
  {| _id := busId; title := "Bus"; amount := 50; category := "Transportation";
     date := Calendar.utc 2024 4 1 8 0 0 0; description := Some "monthly pass";
     createdAt := Calendar.utc 2024 4 1 9 0 0 0;
     updatedAt := Calendar.utc 2024 4 1 9 0 0 0 |}.

(** An expense made at noon UTC on the last day of 2024. *)
Definition newYearsEve : Expense :=
  {| _id := freshId; title := "Fireworks"; amount := 10; category := "Entertainment";
     date := Calendar.utc 2024 12 31 12 0 0 0; description := None;
     createdAt := Calendar.utc 2024 12 31 12 0 0 0;
     updatedAt := Calendar.utc 2024 12 31 12 0 0 0 |}.

Definition sampleStore : Collection := [lunch; bus].

Definition mkQuery (c s e o : option string) : ReqQuery :=
  {| q_category := c; q_startDate := s; q_endDate := e; q_sort := o |}.

Definition foodSince2024 : ReqQuery :=
  mkQuery (Some "Food") (Some "2024-01-01") (Some EmptyString) (Some "amount:asc").

Definition byAmountUpperCase : ReqQuery :=
  mkQuery None None None (Some ("amount" ++ ":" ++ "ASC")).

Definition firstHalf2024ByAmount : ReqQuery :=
  mkQuery (Some EmptyString) (Some "2024-01-01") (Some "2024-06-30") (Some "amount:asc").

(** [sort=:desc] and [sort=:asc]: a direction and no field. *)
Definition noFieldDesc : ReqQuery := mkQuery None None None (Some ":desc").
Definition noFieldAsc : ReqQuery := mkQuery None None None (Some ":asc").

Definition sinceYesterday : ReqQuery := mkQuery None (Some "yesterday") None None.

(** Category and amount of three expenses whose amounts have a fractional
    part, in the order in which they are stored. *)
#[warnings="-inexact-float"]
Definition fractionalAmounts : list (string * float) :=
  [("Food", 0.1%float); ("Travel", 0.2%float); ("Food", 2.2%float)].

Definition tramUpdate : Body :=
  {| b_title := Some " Tram "; b_amount := None; b_category := None;
     b_date := None; b_description := None |}.

Definition negativeAmount : Body :=
  {| b_title := None; b_amount := Some (-1); b_category := None;
     b_date := None; b_description := None |}.

Definition lunchDraft : Body :=
  {| b_title := Some "Lunch"; b_amount := Some 100; b_category := Some "Food";
     b_date := None; b_description := Some " noon " |}.

(** 500 letters followed by one space: 501 characters as sent. *)
Definition paddedText : string :=
  string_of_list_ascii (repeat "a"%char 500) ++ " ".

Definition paddedDraft : Body :=
  {| b_title := Some "Lunch"; b_amount := Some 100; b_category := Some "Food";
     b_date := None; b_description := Some paddedText |}.

(* ------------------------------------------------------------------ *)
(** ** Notions for the collection as a whole *)

(** No two documents carry the same identifier. *)
Definition uniqueIds (coll : Collection) : Prop := NoDup (map _id coll).

(** A stored document within the constraints of the schema. *)
Definition validRecord (e : Expense) : Prop :=
  title e <> EmptyString
  /\ (String.length (title e) <= 100)%nat
  /\ 0 <= amount e
  /\ In (category e) categories
  /\ (forall d, description e = Some d -> (String.length d <= 500)%nat).

(** The paths an update supplies with a value its validators refuse. *)
Definition updateViolatedPaths (b : Body) : list string :=
  ((match b_title b with
    | Some t => if String.eqb (Js.trim t) EmptyString
                   || (100 <? String.length (Js.trim t))%nat then ["title"] else []
    | None => []
    end)
   ++ (match b_amount b with
       | Some a => if a <? 0 then ["amount"] else []
       | None => []
       end)
   ++ (match b_category b with
       | Some c => if inEnum c then [] else ["category"]
       | None => []
       end)
   ++ (match b_description b with
       | Some d => if (500 <? String.length (Js.trim d))%nat then ["description"] else []
       | None => []
       end))%list.

(* ------------------------------------------------------------------ *)
(** ** The client: the dashboard's charts *)

Definition monthNames : list string :=
  ["Jan"; "Feb"; "Mar"; "Apr"; "May"; "Jun"; "Jul"; "Aug"; "Sep"; "Oct"; "Nov"; "Dec"].

(** [array[i]] for a numeric index: [undefined] outside the array. *)
Definition arrayGet {A : Type} (l : list A) (i : Z) : option A :=
  if i <? 0 then None else nth_error l (Z.to_nat i).

(** [barChartData.labels] of the dashboard: [monthNames[month._id - 1]] for
    each row of [stats.byMonth]; [None] is [undefined]. *)
Definition barChartLabels (byMonth : list (Z * Z)) : list (option string) :=
  map (fun month => arrayGet monthNames (fst month - 1)) byMonth.

(* ------------------------------------------------------------------ *)
(** ** The client: the expense list, its sorting and its pages *)

(** The columns whose headers call [handleSort]: 'title', 'amount',
    'category' and 'date'; [sortField] starts as 'date' and takes no other
    value. *)
Inductive Column := ColTitle | ColAmount | ColCategory | ColDate.

Definition columnEqb (a b : Column) : bool :=
  match a, b with
  | ColTitle, ColTitle | ColAmount, ColAmount
  | ColCategory, ColCategory | ColDate, ColDate => true
  | _, _ => false
  end.

Record ListState := {
  sortField : Column;
  sortDirection : Direction;
  currentPage : nat
}.

Definition initialListState : ListState :=
  {| sortField := ColDate; sortDirection := Desc; currentPage := 1 |}.

Definition itemsPerPage : nat := 10.

(** [handleSort(field)] *)
Definition handleSort (field : Column) (s : ListState) : ListState :=
  if columnEqb (sortField s) field
  then {| sortField := sortField s;
          sortDirection := match sortDirection s with Asc => Desc | Desc => Asc end;
          currentPage := currentPage s |}
  else {| sortField := field; sortDirection := Asc; currentPage := currentPage s |}.

(** [handlePageChange(pageNumber)] *)
Definition handlePageChange (pageNumber : nat) (s : ListState) : ListState :=
  {| sortField := sortField s; sortDirection := sortDirection s; currentPage := pageNumber |}.

(** [c.toLowerCase()] on one code unit below 256. *)
Definition lowerChar (c : ascii) : ascii :=
  let n := nat_of_ascii c in
  if ((Nat.leb 65 n && Nat.leb n 90)
      || (Nat.leb 192 n && Nat.leb n 222 && negb (Nat.eqb n 215)))%bool
  then ascii_of_nat (n + 32) else c.

Fixpoint toLowerCase (s : string) : string :=
  match s with
  | EmptyString => EmptyString
  | String c r => String (lowerChar c) (toLowerCase r)
  end.

(** The value the comparator of the list works on: the time value of a
    date, a number as it is, a text in lower case. *)
Definition clientKey (field : Column) (e : Expense) : Bson :=
  match field with
  | ColTitle => BString (toLowerCase (title e))
  | ColAmount => BNumber (amount e)
  | ColCategory => BString (toLowerCase (category e))
  | ColDate => BNumber (date e)
  end.

(** [compare(a, b) <= 0] for the comparator handed to [sort]. *)
Definition clientLeb (s : ListState) (a b : Expense) : bool :=
  match sortDirection s with
  | Asc => bsonLeb (clientKey (sortField s) a) (clientKey (sortField s) b)
  | Desc => bsonLeb (clientKey (sortField s) b) (clientKey (sortField s) a)
  end.

(** [[...expenses].sort(compare)]; the sort of the language is stable. *)
Definition sortedExpenses (s : ListState) (expenses : list Expense) : list Expense :=
  sortBy (clientLeb s) expenses.

(** [array.slice(start, stop)] for [0 <= start]. *)
Definition slice {A : Type} (start stop : nat) (l : list A) : list A :=
  firstn (stop - start) (skipn start l).

(** The rows of page [page] of a list. *)
Definition pageOf {A : Type} (page : nat) (l : list A) : list A :=
  let indexOfLastItem := (page * itemsPerPage)%nat in
  let indexOfFirstItem := (indexOfLastItem - itemsPerPage)%nat in
  slice indexOfFirstItem indexOfLastItem l.

(** [currentExpenses] *)
Definition currentExpenses (s : ListState) (expenses : list Expense) : list Expense :=
  pageOf (currentPage s) (sortedExpenses s expenses).

(** [Math.ceil(expenses.length / itemsPerPage)] *)
Definition totalPages {A : Type} (expenses : list A) : nat :=
  ((List.length expenses + (itemsPerPage - 1)) / itemsPerPage)%nat.

(* ------------------------------------------------------------------ *)
(** ** The client: forms *)

(** The host's [Number] on text: [None] is NaN; numbers are the exact
    numbers of the embedding. *)
Class NumberHost := { Number_parse : string -> option Z }.

(** A host that reads the empty text as 0, unsigned decimal numerals as
    their value, and nothing else. *)
#[export] Instance decimalHost : NumberHost :=
  {| Number_parse := fun s => Calendar.digits 0 (list_ascii_of_string s) |}.

(** A form field that holds the text typed into it, or the number it was
    loaded with. *)
Inductive FormValue :=
| Text (s : string)
| Num (n : Z).

Record FormData := {
  fd_title : string;
  fd_amount : FormValue;
  fd_category : string;
  fd_date : string;
  fd_description : string
}.

(** [!v] *)
Definition isFalsy (v : FormValue) : bool :=
  match v with
  | Text s => String.eqb s EmptyString
  | Num n => n =? 0
  end.

(** [Number(v)], [None] for NaN *)
Definition toNumber `{NumberHost} (v : FormValue) : option Z :=
  match v with
  | Text s => Number_parse s
  | Num n => Some n
  end.

(** [validateForm] of the expense form and of the edit page: the entries of
    [newErrors], in the order they are set. *)
Definition validateForm `{NumberHost} (formData : FormData) : list (string * string) :=
  ((if String.eqb (Js.trim (fd_title formData)) EmptyString
    then [("title", "Title is required")]
    else if (100 <? String.length (fd_title formData))%nat
         then [("title", "Title cannot be more than 100 characters")]
         else [])
   ++ (if isFalsy (fd_amount formData)
       then [("amount", "Amount is required")]
       else match toNumber (fd_amount formData) with
            | None => [("amount", "Amount must be a positive number")]
            | Some n => if n <=? 0 then [("amount", "Amount must be a positive number")] else []
            end)
   ++ (if String.eqb (fd_category formData) EmptyString
       then [("category", "Category is required")] else [])
   ++ (if String.eqb (fd_date formData) EmptyString
       then [("date", "Date is required")] else [])
   ++ (if negb (String.eqb (fd_description formData) EmptyString)
          && (500 <? String.length (fd_description formData))%nat
       then [("description", "Description cannot be more than 500 characters")]
       else []))%list.

(** What a form hands on when it is submitted. *)
Record Submitted := {
  s_title : string;
  s_amount : option Z;       (* [Number(formData.amount)]; [None] is NaN *)
  s_category : string;
  s_date : string;
  s_description : string
}.

(** [handleSubmit]: nothing is handed on unless [validateForm] finds no
    error. *)
Definition handleSubmit `{NumberHost} (formData : FormData) : option Submitted :=
  match validateForm formData with
  | [] => Some {| s_title := fd_title formData;
                  s_amount := toNumber (fd_amount formData);
                  s_category := fd_category formData;
                  s_date := fd_date formData;
                  s_description := fd_description formData |}
  | _ :: _ => None
  end.

Definition digitChar (d : Z) : ascii := ascii_of_nat (48 + Z.to_nat d).

Definition twoDigits (n : Z) : string :=
  String (digitChar (n / 10 mod 10)) (String (digitChar (n mod 10)) EmptyString).

Definition threeDigits (n : Z) : string :=
  String (digitChar (n / 100 mod 10)) (twoDigits n).

Definition fourDigits (n : Z) : string :=
  String (digitChar (n / 1000 mod 10)) (threeDigits n).

(** [new Date(t).toISOString()] for an instant whose year has four digits
    (other years print in an expanded form, not modelled: [None]). *)
Definition toISOString (t : Z) : option string :=
  let '(y, m, d) := Calendar.civilFromDays (t / Calendar.msPerDay) in
  let r := t mod Calendar.msPerDay in
  if (0 <=? y) && (y <=? 9999)
  then Some (fourDigits y ++ "-" ++ twoDigits m ++ "-" ++ twoDigits d ++ "T"
             ++ twoDigits (r / 3600000) ++ ":" ++ twoDigits (r / 60000 mod 60) ++ ":"
             ++ twoDigits (r / 1000 mod 60) ++ "." ++ threeDigits (r mod 1000) ++ "Z")
  else None.

(** [new Date(expenseData.date).toISOString().split('T')[0]] *)
Definition formattedDate (t : Z) : option string :=
  match toISOString t with
  | Some iso => Some (nth 0 (Js.split "T" iso) EmptyString)
  | None => None
  end.

(** The form data the edit page loads from a fetched record. *)
Definition editFormData (expenseData : Expense) : option FormData :=
  match formattedDate (date expenseData) with
  | Some text =>
      Some {| fd_title := title expenseData;
              fd_amount := Num (amount expenseData);
              fd_category := category expenseData;
              fd_date := text;
              fd_description := orElse (description expenseData) EmptyString |}
  | None => None
  end.

(** The body the schema works on for a submitted form: every path is
    supplied; the date text is cast with the host's [Date] ([None] when it
    is no date, a body the schema refuses). *)
Definition bodyOfSubmitted `{DateHost} (p : Submitted) : option Body :=
  match Date_parse (s_date p) with
  | Some d => Some {| b_title := Some (s_title p);
                      b_amount := s_amount p;
                      b_category := Some (s_category p);
                      b_date := Some d;
                      b_description := Some (s_description p) |}
  | None => None
  end.

(* ------------------------------------------------------------------ *)
(** ** The client: the list held by the expense context *)

(** The server's collection and the list the context holds. *)
Record World := {
  server : Collection;
  expenses : list Expense
}.

(** A response the HTTP client resolves with (any other status makes it
    throw) and that says [success]. *)
Definition resolved (r : Response) : bool :=
  (200 <=? status r) && (status r <? 300) && success r.

(** The query the context sends: a filter with a falsy value is left out. *)
Definition queryOfFilters (filters : ReqQuery) : ReqQuery :=
  {| q_category := if Js.truthy (q_category filters) then q_category filters else None;
     q_startDate := if Js.truthy (q_startDate filters) then q_startDate filters else None;
     q_endDate := if Js.truthy (q_endDate filters) then q_endDate filters else None;
     q_sort := if Js.truthy (q_sort filters) then q_sort filters else None |}.

(** [getExpenses(filters)] of the context *)
Definition fetchExpenses `{DateHost} `{Store} (filters : ReqQuery) (w : World) : World :=
  let response := getExpenses (queryOfFilters filters) (server w) in
  {| server := server w;
     expenses := if resolved response
                 then match payload response with
                      | ExpenseList _ _ data => data
                      | _ => expenses w
                      end
                 else expenses w |}.

(** [addExpense(expenseData)] of the context *)
Definition addExpense (oid : ObjectId) (tDefault tSave : Z) (expenseData : Body) (w : World)
  : World :=
  let '(response, coll) := createExpense oid tDefault tSave expenseData (server w) in
  {| server := coll;
     expenses := if resolved response
                 then match payload response with
                      | ExpenseData e => e :: expenses w
                      | _ => expenses w
                      end
                 else expenses w |}.

(** [updateExpense(id, expenseData)] of the context *)
Definition updateExpenseInContext (now : Z) (id : string) (expenseData : Body) (w : World)
  : World :=
  let '(response, coll) := updateExpense now id expenseData (server w) in
  {| server := coll;
     expenses := if resolved response
                 then match payload response with
                      | ExpenseData e =>
                          map (fun expense => if String.eqb (_id expense) id then e else expense)
                            (expenses w)
                      | _ => expenses w
                      end
                 else expenses w |}.

(** [deleteExpense(id)] of the context *)
Definition deleteExpenseInContext (id : string) (w : World) : World :=
  let '(response, coll) := deleteExpense id (server w) in
  {| server := coll;
     expenses := if resolved response
                 then filter (fun expense => negb (String.eqb (_id expense) id)) (expenses w)
                 else expenses w |}.

(** The context's list holds the stored records, each once. *)
Definition inStep (w : World) : Prop :=
  uniqueIds (server w) /\ Permutation (expenses w) (server w).

(** A response with one of the given status codes, whose [success] flag
    says whether the status is below 300. *)
Definition answersWith (codes : list Z) (r : Response) : Prop :=
  In (status r) codes /\ success r = (status r <? 300).

(* ================================================================== *)
(** * Properties *)

(** ** Identifiers *)

Lemma find_none_iff (oid : ObjectId) (coll : Collection) :
  find (hasId oid) coll = None <-> forall e, In e coll -> _id e <> oid.
Proof.
  split.
  - intros Hnone e Hin Heq.
    pose proof (find_none _ _ Hnone e Hin) as Hf.
    unfold hasId in Hf. rewrite Heq, String.eqb_refl in Hf. discriminate.
  - intros Hall. induction coll as [|x r IH]; [reflexivity|].
    simpl. unfold hasId at 1.
    destruct (String.eqb_spec (_id x) oid) as [Heq|_].
    + exfalso. apply (Hall x); [left; reflexivity | exact Heq].
    + apply IH. intros e He. apply Hall. right. exact He.
Qed.

Lemma castError_message_nonempty (kind value path : string) :
  String.eqb (message (CastError kind value path)) EmptyString = false.
Proof. reflexivity. Qed.

Lemma getExpense_malformed (id : string) (coll : Collection) :
  castObjectId id = None ->
  getExpense id coll = errorHandler (CastError "ObjectId" id "_id").
Proof. intros H. unfold getExpense, findById. rewrite H. reflexivity. Qed.

Lemma getExpense_unknown (id : string) (oid : ObjectId) (coll : Collection) :
  castObjectId id = Some oid ->
  (forall e, In e coll -> _id e <> oid) ->
  getExpense id coll = notFound.
Proof.
  intros Hc Hall. unfold getExpense, findById. rewrite Hc.
  apply find_none_iff in Hall. rewrite Hall. reflexivity.
Qed.

(** C1, as amended: an id that is not a well-formed identifier makes the
    lookup raise a cast error, which the controller hands to the error
    middleware; the answer is HTTP 500 with the cast error's message, which
    is neither the 404 not-found answer nor a 400 validation answer.  Only a
    well-formed id that matches no record is answered 404 "Expense not
    found". *)
Theorem C1_malformed_id_is_server_error :
  forall (malformed unknown : string) (oid : ObjectId) (coll : Collection),
    castObjectId malformed = None ->
    castObjectId unknown = Some oid ->
    (forall e, In e coll -> _id e <> oid) ->
    getExpense malformed coll
      = {| status := 500; success := false;
           payload := ErrorText (message (CastError "ObjectId" malformed "_id")) |}
    /\ getExpense malformed coll <> notFound
    /\ status (getExpense malformed coll) <> 400
    /\ getExpense unknown coll
        = {| status := 404; success := false; payload := ErrorText "Expense not found" |}.
Proof.
  intros malformed unknown oid coll Hbad Hgood Hall.
  rewrite (getExpense_malformed _ _ Hbad).
  rewrite (getExpense_unknown _ _ _ Hgood Hall).
  unfold errorHandler. rewrite castError_message_nonempty. simpl statusCode.
  repeat split; try reflexivity.
  - intros Heq. apply (f_equal status) in Heq. simpl in Heq. discriminate.
  - simpl. discriminate.
Qed.

Lemma C1_malformed_id_witness :
  getExpense "abc" sampleStore
    = {| status := 500; success := false;
         payload := ErrorText (message (CastError "ObjectId" "abc" "_id")) |}
  /\ getExpense "abc" sampleStore <> notFound
  /\ status (getExpense "abc" sampleStore) <> 400
  /\ getExpense freshId sampleStore
      = {| status := 404; success := false; payload := ErrorText "Expense not found" |}.
Proof.
  apply (C1_malformed_id_is_server_error "abc" freshId freshId sampleStore).
  - reflexivity.
  - reflexivity.
  - intros e [He | [He | []]]; subst e; vm_compute; discriminate.
Defined.

(** C1 as stated fails: the id "abc" is not a well-formed identifier, and the
    answer is the generic failure with status 500, not the not-found answer. *)
Lemma C1_malformed_id_counterexample :
  castObjectId "abc" = None
  /\ status (getExpense "abc" sampleStore) = 500
  /\ getExpense "abc" sampleStore <> notFound.
Proof.
  repeat split; try reflexivity.
  intros Heq. apply (f_equal status) in Heq. vm_compute in Heq. discriminate.
Qed.

(** ** Monthly totals *)

(** C2, at the failing input: an expense dated noon UTC on 31 December 2024
    lies on the last day of 2024, yet the monthly totals of 2024 leave it
    out, because the upper bound of the match is midnight at the start of
    that day. *)
Theorem C2_december_31_is_left_out :
  Calendar.year (date newYearsEve) = 2024
  /\ Calendar.month (date newYearsEve) = 12
  /\ Calendar.dayOfMonth (date newYearsEve) = 31
  /\ Date_parse "2024-12-31" = Some (Calendar.utc 2024 12 31 0 0 0 0)
  /\ getMonthlyExpenses 2024 [newYearsEve] = Some []
  /\ getMonthlyExpenses 2024 [lunch; newYearsEve; bus] = Some [(3, 100); (4, 50)].
Proof. repeat split; vm_compute; reflexivity. Qed.

(** ** Sorting *)

Lemma Sorted_weaken {A : Type} (R R' : A -> A -> Prop) (l : list A) :
  (forall a b, R a b -> R' a b) -> Sorted R l -> Sorted R' l.
Proof.
  intros Himp. induction 1 as [|a l Hs IH Hhd]; constructor; [exact IH|].
  destruct Hhd; constructor. apply Himp. assumption.
Qed.

Section SortBy.
Context {A : Type} (leb : A -> A -> bool).

Lemma insertBy_perm (x : A) (l : list A) : Permutation (insertBy leb x l) (x :: l).
Proof.
  induction l as [|y r IH]; simpl.
  - apply Permutation_refl.
  - destruct (leb x y).
    + apply Permutation_refl.
    + eapply Permutation_trans; [apply perm_skip, IH | apply perm_swap].
Qed.

Lemma sortBy_perm (l : list A) : Permutation (sortBy leb l) l.
Proof.
  induction l as [|x r IH]; simpl.
  - apply perm_nil.
  - eapply Permutation_trans; [apply insertBy_perm | apply perm_skip, IH].
Qed.

Hypothesis leb_total : forall a b, leb a b = true \/ leb b a = true.

Local Abbreviation R := (lebRel leb).

Lemma insertBy_hd (x a : A) (l : list A) :
  R a x -> HdRel R a l -> HdRel R a (insertBy leb x l).
Proof.
  intros Hax Hl. destruct l as [|y r]; simpl.
  - constructor. exact Hax.
  - destruct (leb x y); constructor; [exact Hax|].
    inversion Hl; assumption.
Qed.

Lemma insertBy_sorted (x : A) (l : list A) : Sorted R l -> Sorted R (insertBy leb x l).
Proof.
  induction l as [|y r IH]; intros Hs; simpl.
  - repeat constructor.
  - destruct (leb x y) eqn:Hxy.
    + constructor; [exact Hs | constructor; exact Hxy].
    + inversion Hs as [|? ? Hr Hhd]; subst.
      constructor; [apply IH; exact Hr|].
      apply insertBy_hd; [|exact Hhd].
      destruct (leb_total x y) as [H|H]; [congruence | exact H].
Qed.

Lemma sortBy_sorted (l : list A) : Sorted R (sortBy leb l).
Proof.
  induction l as [|x r IH]; simpl.
  - constructor.
  - apply insertBy_sorted, IH.
Qed.
End SortBy.

Lemma typeRank_cases (a b : Bson) :
  (typeRank a <=? typeRank b) = true \/ (typeRank b <=? typeRank a) = true.
Proof. rewrite !Z.leb_le. lia. Qed.

Lemma bsonLeb_total (a b : Bson) : bsonLeb a b = true \/ bsonLeb b a = true.
Proof.
  destruct a, b; simpl;
    try (rewrite !Z.leb_le; lia);
    try apply String.leb_total;
    try (left; reflexivity); try (right; reflexivity).
Qed.

Lemma docLeb_total (o : SortOptions) (a b : Expense) :
  docLeb o a b = true \/ docLeb o b a = true.
Proof. unfold docLeb. destruct (snd o); apply bsonLeb_total. Qed.

(** ** Sums *)

Lemma fold_left_amount (l : list Expense) (acc : Z) :
  fold_left (fun sum expense => sum + amount expense) l acc = acc + sumZ (map amount l).
Proof.
  revert acc. induction l as [|e r IH]; intros acc; simpl.
  - lia.
  - rewrite IH. lia.
Qed.

Lemma addUp_from (l : list Z) (acc : Z) : fold_left Z.add l acc = acc + sumZ l.
Proof.
  revert acc. induction l as [|x r IH]; intros acc; simpl.
  - lia.
  - rewrite IH. lia.
Qed.

(** In whole numbers the order of the additions does not matter. *)
Lemma addUp_sum (l : list Z) : addUp l = sumZ l.
Proof. unfold addUp. rewrite addUp_from. reflexivity. Qed.

Lemma sumZ_perm (l l' : list Z) : Permutation l l' -> sumZ l = sumZ l'.
Proof. induction 1; simpl; lia. Qed.

Lemma sumZ_amount_perm (l l' : list Expense) :
  Permutation l l' -> sumZ (map amount l) = sumZ (map amount l').
Proof. intros H. apply sumZ_perm, Permutation_map, H. Qed.

(** ** Binary64 on whole numbers

    Whole numbers from 0 up to 2^53 are binary64 numbers; binary64 adds two
    of them without rounding when the sum is below 2^53, and compares them
    as whole numbers.  Proved from the specification of the primitive
    floating-point operations. *)

Lemma iter_xO_value (m d : positive) : Zpos (Pos.iter xO m d) = Zpos m * 2 ^ Zpos d.
Proof.
  induction d as [|d IH] using Pos.peano_ind.
  - simpl. lia.
  - rewrite Pos.iter_succ, Pos2Z.inj_succ, Z.pow_succ_r by lia.
    rewrite (Pos2Z.inj_xO (Pos.iter xO m d)), IH. lia.
Qed.

Lemma shiftLeft_value (m : positive) (k : Z) :
  0 <= k -> Zpos (Double.shiftLeft m k) = Zpos m * 2 ^ k.
Proof.
  intros Hk. destruct k as [|d|d]; simpl Double.shiftLeft.
  - lia.
  - apply iter_xO_value.
  - lia.
Qed.

Lemma digits_bounds (p : positive) :
  2 ^ (Zpos (digits2_pos p) - 1) <= Zpos p < 2 ^ Zpos (digits2_pos p).
Proof.
  induction p as [p IH|p IH|]; simpl digits2_pos.
  - rewrite Pos2Z.inj_succ, (Pos2Z.inj_xI p).
    replace (Z.succ (Zpos (digits2_pos p)) - 1) with (Z.succ (Zpos (digits2_pos p) - 1)) by lia.
    rewrite !Z.pow_succ_r by lia.
    generalize dependent (2 ^ (Zpos (digits2_pos p) - 1)).
    generalize (2 ^ Zpos (digits2_pos p)). intros; lia.
  - rewrite Pos2Z.inj_succ, (Pos2Z.inj_xO p).
    replace (Z.succ (Zpos (digits2_pos p)) - 1) with (Z.succ (Zpos (digits2_pos p) - 1)) by lia.
    rewrite !Z.pow_succ_r by lia.
    generalize dependent (2 ^ (Zpos (digits2_pos p) - 1)).
    generalize (2 ^ Zpos (digits2_pos p)). intros; lia.
  - simpl. lia.
Qed.

Lemma digits_iter_xO (m d : positive) :
  Zpos (digits2_pos (Pos.iter xO m d)) = Zpos (digits2_pos m) + Zpos d.
Proof.
  induction d as [|d IH] using Pos.peano_ind.
  - simpl. lia.
  - rewrite Pos.iter_succ. simpl digits2_pos. rewrite !Pos2Z.inj_succ, IH. lia.
Qed.

Lemma digits_shiftLeft (m : positive) (k : Z) :
  0 <= k -> Zpos (digits2_pos (Double.shiftLeft m k)) = Zpos (digits2_pos m) + k.
Proof.
  intros Hk. destruct k as [|d|d]; simpl Double.shiftLeft.
  - lia.
  - apply digits_iter_xO.
  - lia.
Qed.

Lemma digits_le (p : positive) (n : Z) :
  0 <= n -> Zpos p < 2 ^ n -> Zpos (digits2_pos p) <= n.
Proof.
  intros Hn Hp. pose proof (digits_bounds p) as [Hlo _].
  destruct (Z.le_gt_cases (Zpos (digits2_pos p)) n) as [H|H]; [exact H|exfalso].
  assert (2 ^ n <= 2 ^ (Zpos (digits2_pos p) - 1)) by (apply Z.pow_le_mono_r; lia).
  lia.
Qed.

Lemma iter_pos_iter {A : Type} (f : A -> A) (p : positive) (x : A) :
  SpecFloat.iter_pos f p x = Pos.iter f x p.
Proof.
  revert x. induction p as [p IH|p IH|]; intros x; simpl.
  - rewrite !IH. rewrite <- !Pos.iter_swap. reflexivity.
  - rewrite !IH. reflexivity.
  - reflexivity.
Qed.

(** Shifting right what was shifted left loses nothing. *)
Lemma shr_iter_xO (m : positive) (p : positive) :
  Pos.iter shr_1 (Double.exactly (Zpos (Pos.iter xO m p))) p = Double.exactly (Zpos m).
Proof.
  induction p as [|p IH] using Pos.peano_ind.
  - reflexivity.
  - rewrite !Pos.iter_succ, <- Pos.iter_swap.
    change (shr_1 (Double.exactly (Zpos (Pos.iter xO m p)~0)))
      with (Double.exactly (Zpos (Pos.iter xO m p))).
    exact IH.
Qed.

Lemma shiftLeft_twice (m : positive) (j k : Z) :
  0 <= j -> 0 <= k ->
  Double.shiftLeft (Double.shiftLeft m j) k = Double.shiftLeft m (j + k).
Proof.
  intros Hj Hk. destruct j as [|j|j], k as [|k|k]; try lia; simpl; try reflexivity.
  rewrite Pos.add_comm. symmetry. apply Pos.iter_add.
Qed.

Lemma shr_shiftLeft (m : positive) (k : Z) (e : Z) :
  0 <= k ->
  shr (Double.exactly (Zpos (Double.shiftLeft m k))) e k
  = (Double.exactly (Zpos m), e + k).
Proof.
  intros Hk. destruct k as [|p|p]; try lia; simpl Double.shiftLeft; unfold shr.
  - rewrite Z.add_0_r. reflexivity.
  - rewrite iter_pos_iter, shr_iter_xO. reflexivity.
Qed.

Lemma shl_align_shiftLeft (m : positive) (e e' : Z) :
  e' <= e -> shl_align m e e' = (Double.shiftLeft m (e - e'), e').
Proof.
  intros He. unfold shl_align.
  destruct (e' - e) as [|d|d] eqn:Hd; try lia.
  - replace (e - e') with 0 by lia. simpl. f_equal. lia.
  - replace (e - e') with (Zpos d) by lia. reflexivity.
Qed.

Lemma shl_align_keep (m : positive) (e e' : Z) :
  e <= e' -> shl_align m e e' = (m, e).
Proof.
  intros He. unfold shl_align. destruct (e' - e) as [|d|d] eqn:Hd; try lia; reflexivity.
Qed.

(** A mantissa of 53 digits is kept as it is. *)
Lemma round_aux_canonical (m : positive) (e : Z) :
  Zpos (digits2_pos m) = 53 -> -1074 <= e <= 971 ->
  binary_round_aux prec emax false (Zpos m) e loc_Exact = S754_finite false m e.
Proof.
  intros Hd He. unfold binary_round_aux.
  assert (Hshift : shr_fexp prec emax (Zpos m) e loc_Exact = (Double.exactly (Zpos m), e)).
  { unfold shr_fexp, fexp, emin, prec, emax. cbn [Zdigits2]. rewrite Hd.
    replace (Z.max (53 + e - 53) (3 - 1024 - 53) - e) with 0 by lia. reflexivity. }
  rewrite Hshift.
  cbn [shr_m Double.exactly loc_of_shr_record round_nearest_even shr_r shr_s].
  rewrite Hshift. cbn [shr_m Double.exactly].
  unfold emax, prec. destruct (Z.leb_spec e (1024 - 53)); [reflexivity | lia].
Qed.

(** Rounding a whole number below 2^53, however it is scaled, gives its
    canonical form. *)
Lemma round_whole (n : positive) (k : Z) :
  Zpos n < 2 ^ 53 -> 0 <= k ->
  binary_round prec emax false (Double.shiftLeft n k) (- k) = Double.canonical n.
Proof.
  intros Hn Hk.
  pose proof (digits_le n 53 ltac:(lia) Hn) as Hd.
  assert (Hd1 : 1 <= Zpos (digits2_pos n)) by lia.
  set (d := Zpos (digits2_pos n)) in *.
  unfold binary_round. rewrite (digits_shiftLeft n k Hk). fold d.
  assert (Hfexp : fexp prec emax (d + k + - k) = d - 53).
  { unfold fexp, emin, prec, emax. lia. }
  rewrite Hfexp.
  destruct (Z.le_gt_cases (d - 53) (- k)) as [Hle | Hgt].
  - (* the mantissa is shifted left, or kept *)
    rewrite (shl_align_shiftLeft _ _ _ Hle).
    rewrite shiftLeft_twice by lia.
    replace (k + (- k - (d - 53))) with (53 - d) by lia.
    apply round_aux_canonical.
    + rewrite digits_shiftLeft by lia. fold d. lia.
    + lia.
  - (* the mantissa is shifted right, by zeros *)
    rewrite shl_align_keep by lia.
    unfold binary_round_aux.
    assert (Hshift : shr_fexp prec emax (Zpos (Double.shiftLeft n k)) (- k) loc_Exact
                     = (Double.exactly (Zpos (Double.shiftLeft n (53 - d))), d - 53)).
    { unfold shr_fexp. cbn [Zdigits2]. rewrite (digits_shiftLeft n k Hk). fold d.
      rewrite Hfexp. simpl shr_record_of_loc.
      fold (Double.exactly (Zpos (Double.shiftLeft n k))).
      replace (Double.shiftLeft n k)
        with (Double.shiftLeft (Double.shiftLeft n (53 - d)) (d - 53 - - k)).
      - rewrite shr_shiftLeft by lia. f_equal. lia.
      - rewrite shiftLeft_twice by lia. f_equal. lia. }
    rewrite Hshift.
    cbn [shr_m Double.exactly loc_of_shr_record round_nearest_even shr_r shr_s].
    assert (Hkeep : shr_fexp prec emax (Zpos (Double.shiftLeft n (53 - d))) (d - 53) loc_Exact
                    = (Double.exactly (Zpos (Double.shiftLeft n (53 - d))), d - 53)).
    { unfold shr_fexp, fexp, emin, prec, emax. cbn [Zdigits2].
      rewrite digits_shiftLeft by lia. fold d.
      replace (Z.max (d + (53 - d) + (d - 53) - 53) (3 - 1024 - 53) - (d - 53)) with 0 by lia.
      reflexivity. }
    rewrite Hkeep. cbn [shr_m Double.exactly]. unfold Double.canonical. fold d.
    unfold emax, prec. destruct (Z.leb_spec (d - 53) (1024 - 53)); [reflexivity | lia].
Qed.

Lemma to_Z_of_Z (z : Z) : 0 <= z < 2 ^ 53 -> Uint63.to_Z (Uint63.of_Z z) = z.
Proof.
  intros Hz. symmetry. apply Uint63.is_int.
  change (Uint63.to_Z Uint63.digits) with 63.
  assert (2 ^ 53 < 2 ^ 63) by (apply Z.pow_lt_mono_r; lia). lia.
Qed.

Lemma prim_ofWhole_zero : Prim2SF (Double.ofWhole 0) = S754_zero false.
Proof. reflexivity. Qed.

Lemma prim_ofWhole_pos (n : positive) :
  Zpos n < 2 ^ 53 -> Prim2SF (Double.ofWhole (Zpos n)) = Double.canonical n.
Proof.
  intros Hn. unfold Double.ofWhole. rewrite of_uint63_spec, to_Z_of_Z by lia.
  cbn [binary_normalize].
  exact (round_whole n 0 Hn (Z.le_refl 0)).
Qed.

(** Binary64 adds whole numbers exactly, below 2^53. *)
Lemma ofWhole_add (a b : Z) :
  0 <= a -> 0 <= b -> a + b < 2 ^ 53 ->
  (Double.ofWhole a + Double.ofWhole b)%float = Double.ofWhole (a + b).
Proof.
  intros Ha Hb Hsum. apply Prim2SF_inj. rewrite add_spec. unfold SF64add.
  destruct a as [|a|a]; [| |lia].
  { rewrite prim_ofWhole_zero. rewrite Z.add_0_l.
    destruct b as [|b|b]; [reflexivity | | lia].
    rewrite prim_ofWhole_pos by lia. reflexivity. }
  destruct b as [|b|b]; [| |lia].
  { rewrite prim_ofWhole_zero, Z.add_0_r, prim_ofWhole_pos by lia. reflexivity. }
  change (Zpos a + Zpos b) with (Zpos (a + b)) in *.
  rewrite (prim_ofWhole_pos (a + b) Hsum).
  rewrite (prim_ofWhole_pos a), (prim_ofWhole_pos b) by lia.
  unfold Double.canonical at 1 2. unfold SFadd.
  pose proof (digits_le a 53 ltac:(lia) ltac:(lia)) as Hda.
  pose proof (digits_le b 53 ltac:(lia) ltac:(lia)) as Hdb.
  set (da := Zpos (digits2_pos a)) in *. set (db := Zpos (digits2_pos b)) in *.
  set (ez := Z.min (da - 53) (db - 53)).
  rewrite !shl_align_shiftLeft by lia. cbn [fst cond_Zopp].
  rewrite !shiftLeft_twice by lia.
  replace (53 - da + (da - 53 - ez)) with (- ez) by lia.
  replace (53 - db + (db - 53 - ez)) with (- ez) by lia.
  assert (Hez : 0 <= - ez) by lia.
  assert (Hm : Zpos (Double.shiftLeft a (- ez)) + Zpos (Double.shiftLeft b (- ez))
               = Zpos (Double.shiftLeft (a + b) (- ez))).
  { rewrite !shiftLeft_value by exact Hez. rewrite Pos2Z.inj_add. lia. }
  rewrite Hm. cbn [binary_normalize].
  replace ez with (- - ez) at 2 by lia.
  apply (round_whole (a + b) (- ez)); [exact Hsum | exact Hez].
Qed.

Lemma shiftLeft_compare (a b : positive) (k : Z) :
  0 <= k -> Pos.compare (Double.shiftLeft a k) (Double.shiftLeft b k) = Pos.compare a b.
Proof.
  intros Hk. rewrite !Pos2Z.inj_compare, !shiftLeft_value by exact Hk.
  assert (2 ^ k > 0) by (apply Z.lt_gt, Z.pow_pos_nonneg; lia).
  symmetry. apply Zmult_compare_compat_r. assumption.
Qed.

Lemma canonical_leb (a b : positive) :
  Zpos a < 2 ^ 53 -> Zpos b < 2 ^ 53 ->
  SFleb (Double.canonical a) (Double.canonical b) = (Zpos a <=? Zpos b).
Proof.
  intros Ha Hb. unfold SFleb, Double.canonical, SFcompare.
  pose proof (digits_bounds a) as Hba. pose proof (digits_bounds b) as Hbb.
  pose proof (digits_le a 53 ltac:(lia) Ha) as Hda.
  pose proof (digits_le b 53 ltac:(lia) Hb) as Hdb.
  set (da := Zpos (digits2_pos a)) in *. set (db := Zpos (digits2_pos b)) in *.
  destruct (Z.compare_spec (da - 53) (db - 53)) as [Heq | Hlt | Hgt].
  - assert (da = db) by lia.
    replace (53 - db) with (53 - da) by lia.
    rewrite Pos.compare_cont_spec. cbn [Pos.switch_Eq].
    rewrite shiftLeft_compare by lia.
    rewrite Pos2Z.inj_compare.
    destruct (Z.compare_spec (Zpos a) (Zpos b)); destruct (Z.leb_spec (Zpos a) (Zpos b));
      try reflexivity; lia.
  - assert (2 ^ da <= 2 ^ (db - 1)) by (apply Z.pow_le_mono_r; lia).
    destruct (Z.leb_spec (Zpos a) (Zpos b)); [reflexivity | lia].
  - assert (2 ^ db <= 2 ^ (da - 1)) by (apply Z.pow_le_mono_r; lia).
    destruct (Z.leb_spec (Zpos a) (Zpos b)); [lia | reflexivity].
Qed.

(** Binary64 compares whole numbers below 2^53 as whole numbers. *)
Lemma ofWhole_leb (a b : Z) :
  0 <= a < 2 ^ 53 -> 0 <= b < 2 ^ 53 ->
  (Double.ofWhole a <=? Double.ofWhole b)%float = (a <=? b).
Proof.
  intros Ha Hb. rewrite leb_spec.
  destruct a as [|a|a]; [| |lia]; destruct b as [|b|b]; try lia.
  - reflexivity.
  - rewrite prim_ofWhole_zero, prim_ofWhole_pos by lia. reflexivity.
  - rewrite prim_ofWhole_zero, prim_ofWhole_pos by lia. reflexivity.
  - rewrite !prim_ofWhole_pos by lia. apply canonical_leb; lia.
Qed.

Lemma sumZ_nonneg (l : list Z) : Forall (fun x => 0 <= x) l -> 0 <= sumZ l.
Proof. induction 1 as [|x r Hx _ IH]; simpl; lia. Qed.

Lemma sumZ_member (l : list Z) (x : Z) :
  Forall (fun x => 0 <= x) l -> In x l -> 0 <= x <= sumZ l.
Proof.
  induction 1 as [|y r Hy Hr IH]; simpl; [contradiction|].
  pose proof (sumZ_nonneg r Hr). intros [<- | Hin]; [lia|].
  specialize (IH Hin). lia.
Qed.

Lemma double_total_from (l : list Z) (acc : Z) :
  0 <= acc -> Forall (fun x => 0 <= x) l -> acc + sumZ l < 2 ^ 53 ->
  fold_left (fun sum amount => (sum + amount)%float) (map Double.ofWhole l) (Double.ofWhole acc)
  = Double.ofWhole (acc + sumZ l).
Proof.
  intros Hacc Hl. revert acc Hacc. induction Hl as [|x r Hx Hr IH]; intros acc Hacc Hsum; simpl.
  - rewrite Z.add_0_r. reflexivity.
  - simpl in Hsum. pose proof (sumZ_nonneg r Hr).
    rewrite ofWhole_add by lia. rewrite IH by lia. f_equal. lia.
Qed.

(** The [reduce] of a listing. *)
Lemma double_total_whole (l : list Z) :
  Forall (fun x => 0 <= x) l -> sumZ l < 2 ^ 53 ->
  Double.total (map Double.ofWhole l) = Double.ofWhole (addUp l).
Proof.
  intros Hl Hsum. unfold Double.total. rewrite addUp_sum.
  change 0%float with (Double.ofWhole 0). rewrite double_total_from by (assumption || lia).
  reflexivity.
Qed.

(** ** Listing *)

Lemma suppliedText_truthy (v : option string) :
  (if Js.truthy v then v else None) = suppliedText v.
Proof.
  destruct v as [s|]; simpl; [|reflexivity].
  destruct (String.eqb s EmptyString); reflexivity.
Qed.

Lemma truthy_supplied (v : option string) :
  Js.truthy v = match suppliedText v with Some _ => true | None => false end.
Proof.
  destruct v as [s|]; simpl; [|reflexivity].
  destruct (String.eqb s EmptyString); reflexivity.
Qed.

(** ** Sort keys *)

Lemma accepts_schema_path `{Store} (path : string) :
  In path schemaPaths -> acceptsSortKey path = true.
Proof. apply (proj1 (forallb_forall _ _) acceptsSchemaPaths). Qed.

Lemma accepts_date `{Store} : acceptsSortKey "date" = true.
Proof. apply accepts_schema_path. simpl. tauto. Qed.

Lemma buildSort_default (sort : option string) :
  suppliedText sort = None -> buildSort sort = ("date", Desc).
Proof.
  intros Hnone. unfold buildSort. rewrite truthy_supplied, Hnone.
  destruct sort; reflexivity.
Qed.

Section Listing.
Context `{DateHost} `{Store}.

Lemma dateBound_supplied (v : option string) :
  dateBound v = option_map Date_parse (suppliedText v).
Proof.
  destruct v as [s|]; simpl; [|reflexivity].
  destruct (String.eqb s EmptyString); reflexivity.
Qed.

Lemma castBound_readable (v : option string) :
  readable v -> castBound (dateBound v) = Ok (suppliedDate v).
Proof.
  intros Hr. rewrite dateBound_supplied. unfold suppliedDate, readable in *.
  destruct (suppliedText v) as [s|]; simpl; [|reflexivity].
  specialize (Hr s eq_refl). destruct (Date_parse s); [reflexivity | congruence].
Qed.

Lemma buildQuery_gte (r : ReqQuery) : f_gte (buildQuery r) = dateBound (q_startDate r).
Proof.
  unfold buildQuery; simpl. rewrite !truthy_supplied, dateBound_supplied.
  destruct (suppliedText (q_startDate r)); simpl; [reflexivity|].
  destruct (suppliedText (q_endDate r)); reflexivity.
Qed.

Lemma buildQuery_lte (r : ReqQuery) : f_lte (buildQuery r) = dateBound (q_endDate r).
Proof.
  unfold buildQuery; simpl. rewrite !truthy_supplied, dateBound_supplied.
  destruct (suppliedText (q_endDate r)); simpl.
  - destruct (suppliedText (q_startDate r)); reflexivity.
  - destruct (suppliedText (q_startDate r)); reflexivity.
Qed.

Lemma buildQuery_category (r : ReqQuery) :
  f_category (buildQuery r) = suppliedText (q_category r).
Proof. unfold buildQuery; simpl. apply suppliedText_truthy. Qed.

(** The listing, once both date parameters are readable and the store
    accepts the sort key. *)
Lemma getExpenses_readable (r : ReqQuery) (coll : Collection) :
  readable (q_startDate r) -> readable (q_endDate r) ->
  acceptsSortKey (fst (buildSort (q_sort r))) = true ->
  let data := sortBy (docLeb (buildSort (q_sort r)))
                (filter (matches (suppliedText (q_category r))
                           (suppliedDate (q_startDate r))
                           (suppliedDate (q_endDate r))) coll) in
  getExpenses r coll
    = {| status := 200; success := true;
         payload := ExpenseList (List.length data) (sumZ (map amount data)) data |}.
Proof.
  intros Hs He Hkey data. unfold getExpenses, findSorted.
  rewrite buildQuery_gte, buildQuery_lte, buildQuery_category.
  rewrite (castBound_readable _ Hs), (castBound_readable _ He), Hkey.
  fold data. rewrite fold_left_amount. reflexivity.
Qed.

(** With no sort parameter the key is [date], which every store accepts. *)
Lemma getExpenses_default_sort (r : ReqQuery) (coll : Collection) :
  readable (q_startDate r) -> readable (q_endDate r) ->
  suppliedText (q_sort r) = None ->
  let data := sortBy (docLeb ("date", Desc))
                (filter (matches (suppliedText (q_category r))
                           (suppliedDate (q_startDate r))
                           (suppliedDate (q_endDate r))) coll) in
  getExpenses r coll
    = {| status := 200; success := true;
         payload := ExpenseList (List.length data) (sumZ (map amount data)) data |}.
Proof.
  intros Hs He Hnone.
  pose proof (getExpenses_readable r coll Hs He) as Hresp.
  rewrite (buildSort_default _ Hnone) in Hresp. apply Hresp, accepts_date.
Qed.

(** The listing with readable dates and a sort key the store refuses. *)
Lemma getExpenses_refused (r : ReqQuery) (coll : Collection) :
  readable (q_startDate r) -> readable (q_endDate r) ->
  acceptsSortKey (fst (buildSort (q_sort r))) = false ->
  getExpenses r coll = errorHandler (BadSortKeyError (fst (buildSort (q_sort r)))).
Proof.
  intros Hs He Hkey. unfold getExpenses, findSorted.
  rewrite buildQuery_gte, buildQuery_lte.
  rewrite (castBound_readable _ Hs), (castBound_readable _ He), Hkey. reflexivity.
Qed.
End Listing.

Lemma readable_absent `{DateHost} (v : option string) : suppliedText v = None -> readable v.
Proof. intros Hnone s Hs. congruence. Qed.

Lemma errorHandler_badSortKey (key : string) :
  errorHandler (BadSortKeyError key)
  = {| status := 500; success := false;
       payload := ErrorText (message (BadSortKeyError key)) |}.
Proof. destruct key; reflexivity. Qed.

Lemma castBound_throw (b : option (option Z)) (e : JsError) :
  castBound b = Throw e -> e = CastError "date" "Invalid Date" "date".
Proof.
  destruct b as [[t|]|]; simpl; intros Heq; try discriminate Heq.
  injection Heq as <-. reflexivity.
Qed.

Lemma castBound_ok_readable `{DateHost} (v : option string) (t : option Z) :
  castBound (dateBound v) = Ok t -> readable v.
Proof.
  rewrite dateBound_supplied. intros Hok s Hs. rewrite Hs in Hok. simpl in Hok.
  destruct (Date_parse s); [discriminate | discriminate Hok].
Qed.

(** A request that is not answerable is answered with the generic failure. *)
Lemma getExpenses_not_answerable `{DateHost} `{Store} (r : ReqQuery) (coll : Collection) :
  ~ answerable r ->
  status (getExpenses r coll) = 500
  /\ success (getExpenses r coll) = false
  /\ exists msg, payload (getExpenses r coll) = ErrorText msg.
Proof.
  intros Hno. unfold getExpenses, findSorted.
  rewrite buildQuery_gte, buildQuery_lte.
  destruct (castBound (dateBound (q_startDate r))) as [lo|e1] eqn:H1.
  - destruct (castBound (dateBound (q_endDate r))) as [hi|e2] eqn:H2.
    + destruct (acceptsSortKey (fst (buildSort (q_sort r)))) eqn:Hkey.
      * exfalso. apply Hno. split; [exact (castBound_ok_readable _ _ H1)|].
        split; [exact (castBound_ok_readable _ _ H2) | exact Hkey].
      * rewrite errorHandler_badSortKey. repeat split. eexists. reflexivity.
    + apply castBound_throw in H2. subst e2. repeat split. eexists. reflexivity.
  - apply castBound_throw in H1. subst e1. repeat split. eexists. reflexivity.
Qed.

Lemma matches_satisfies (cat : option string) (lo hi : option Z) (e : Expense) :
  matches cat lo hi e = true <-> satisfies cat lo hi e.
Proof.
  unfold matches, satisfies. rewrite !andb_true_iff. split.
  - intros [[Hc Hlo] Hhi]. repeat split.
    + intros c ->. apply String.eqb_eq, Hc.
    + intros t ->. apply Z.leb_le, Hlo.
    + intros t ->. apply Z.leb_le, Hhi.
  - intros (Hc & Hlo & Hhi). repeat split.
    + destruct cat as [c|]; [apply String.eqb_eq, Hc; reflexivity | reflexivity].
    + destruct lo as [t|]; [apply Z.leb_le, Hlo; reflexivity | reflexivity].
    + destruct hi as [t|]; [apply Z.leb_le, Hhi; reflexivity | reflexivity].
Qed.

Lemma filter_all {A : Type} (f : A -> bool) (l : list A) :
  (forall x, f x = true) -> filter f l = l.
Proof.
  intros Hf. induction l as [|x r IH]; simpl; [reflexivity|].
  rewrite Hf, IH. reflexivity.
Qed.

Lemma filter_none {A : Type} (f : A -> bool) (l : list A) :
  (forall x, In x l -> f x <> true) -> filter f l = [].
Proof.
  induction l as [|x r IH]; intros Hf; simpl; [reflexivity|].
  destruct (f x) eqn:Hx.
  - exfalso. apply (Hf x); [left; reflexivity | exact Hx].
  - apply IH. intros y Hy. apply Hf. right. exact Hy.
Qed.

(** ** The sort parameter *)

Lemma split_noColon (s : string) : noColon s = true -> Js.split ":" s = [s].
Proof.
  induction s as [|c r IH]; simpl; [reflexivity|].
  intros Hc. apply andb_true_iff in Hc as [Hc Hr].
  apply negb_true_iff in Hc. rewrite Hc, (IH Hr). reflexivity.
Qed.

Lemma split_token (f d : string) :
  noColon f = true -> Js.split ":" (f ++ ":" ++ d) = f :: Js.split ":" d.
Proof.
  induction f as [|c r IH]; simpl; [reflexivity|].
  intros Hc. apply andb_true_iff in Hc as [Hc Hr].
  apply negb_true_iff in Hc. rewrite Hc.
  change (Js.split ":" (r ++ String ":" d)) with (Js.split ":" (r ++ ":" ++ d)).
  rewrite (IH Hr). reflexivity.
Qed.

Lemma truthy_token (f d : string) : Js.truthy (Some (f ++ ":" ++ d)) = true.
Proof. destruct f; reflexivity. Qed.

Lemma buildSort_token (f d : string) :
  noColon f = true -> noColon d = true ->
  buildSort (Some (f ++ ":" ++ d)) = (f, if String.eqb d "asc" then Asc else Desc).
Proof.
  intros Hf Hd. unfold buildSort. rewrite truthy_token.
  rewrite (split_token _ _ Hf), (split_noColon _ Hd). reflexivity.
Qed.

Lemma buildSort_bare (f : string) :
  noColon f = true -> f <> EmptyString -> buildSort (Some f) = (f, Desc).
Proof.
  intros Hf Hne. unfold buildSort.
  assert (Js.truthy (Some f) = true) as ->.
  { simpl. apply negb_true_iff, String.eqb_neq, Hne. }
  rewrite (split_noColon _ Hf). reflexivity.
Qed.

(** The order of a sort by a path of the schema, in plain terms. *)
Lemma ordered_inOrder (field : string) (key : Expense -> Z) (d : Direction)
  (l : list Expense) :
  ((forall e, getPath field e = BNumber (key e)) \/ (forall e, getPath field e = BDate (key e))) ->
  ordered (field, d) l -> inOrder key d l.
Proof.
  intros Hkey. apply Sorted_weaken. intros a b. unfold lebRel, docLeb. cbn [fst snd].
  destruct Hkey as [Hkey | Hkey]; rewrite !Hkey; destruct d; cbn [bsonLeb];
    apply Z.leb_le.
Qed.

Lemma ordered_inTextOrder (field : string) (key : Expense -> string) (d : Direction)
  (l : list Expense) :
  (forall e, getPath field e = BString (key e)) ->
  ordered (field, d) l -> inTextOrder key d l.
Proof.
  intros Hkey. apply Sorted_weaken. intros a b. unfold lebRel, docLeb. cbn [fst snd].
  rewrite !Hkey. destruct d; cbn [bsonLeb]; intros Hab; exact Hab.
Qed.

Lemma ordered_by_schema_path (o : SortOptions) (l : list Expense) :
  ordered o l ->
  (fst o = "amount" -> inOrder amount (snd o) l)
  /\ (fst o = "date" -> inOrder date (snd o) l)
  /\ (fst o = "createdAt" -> inOrder createdAt (snd o) l)
  /\ (fst o = "updatedAt" -> inOrder updatedAt (snd o) l)
  /\ (fst o = "title" -> inTextOrder title (snd o) l)
  /\ (fst o = "category" -> inTextOrder category (snd o) l).
Proof.
  destruct o as [field d]. cbn [fst snd]. intros Hord.
  repeat split; intros ->.
  - apply (ordered_inOrder "amount"); [left; reflexivity | exact Hord].
  - apply (ordered_inOrder "date"); [right; reflexivity | exact Hord].
  - apply (ordered_inOrder "createdAt"); [right; reflexivity | exact Hord].
  - apply (ordered_inOrder "updatedAt"); [right; reflexivity | exact Hord].
  - apply (ordered_inTextOrder "title"); [reflexivity | exact Hord].
  - apply (ordered_inTextOrder "category"); [reflexivity | exact Hord].
Qed.

(** C6, as amended: when the host reads a date from each date parameter
    that is supplied and the store accepts the sort key, the listing returns
    exactly the stored records that satisfy every supplied constraint
    (category equality, date at or after the start, date at or before the
    end; a parameter that is absent imposes nothing), each as often as it is
    stored, ordered by the requested field and direction and by date
    descending when no sort is given; nothing matching gives the empty list
    with status 200.  Any other request (a date the host cannot read, a sort
    key the store refuses) is answered with the generic failure, status
    500. *)
Theorem C6_listing_filters_and_orders :
  forall (host : DateHost) (store : Store) (r : ReqQuery) (coll : Collection),
    let cat := suppliedText (q_category r) in
    let lo := suppliedDate (q_startDate r) in
    let hi := suppliedDate (q_endDate r) in
    (answerable r ->
     exists data,
       getExpenses r coll
         = {| status := 200; success := true;
              payload := ExpenseList (List.length data) (addUp (map amount data)) data |}
       /\ Permutation data (filter (matches cat lo hi) coll)
       /\ (forall e, In e data <-> In e coll /\ satisfies cat lo hi e)
       /\ ordered (buildSort (q_sort r)) data
       /\ (suppliedText (q_sort r) = None ->
           ordered ("date", Desc) data /\ inOrder date Desc data)
       /\ (forall field, noColon field = true ->
             (q_sort r = Some (field ++ ":asc") -> ordered (field, Asc) data)
             /\ (q_sort r = Some (field ++ ":desc") -> ordered (field, Desc) data))
       /\ (forall d,
             (buildSort (q_sort r) = ("amount", d) -> inOrder amount d data)
             /\ (buildSort (q_sort r) = ("date", d) -> inOrder date d data)
             /\ (buildSort (q_sort r) = ("createdAt", d) -> inOrder createdAt d data)
             /\ (buildSort (q_sort r) = ("updatedAt", d) -> inOrder updatedAt d data)
             /\ (buildSort (q_sort r) = ("title", d) -> inTextOrder title d data)
             /\ (buildSort (q_sort r) = ("category", d) -> inTextOrder category d data))
       /\ ((forall e, In e coll -> ~ satisfies cat lo hi e) -> data = []))
    /\ (~ answerable r ->
        status (getExpenses r coll) = 500
        /\ success (getExpenses r coll) = false
        /\ exists msg, payload (getExpenses r coll) = ErrorText msg).
Proof.
  intros host store r coll cat lo hi.
  split; [|apply getExpenses_not_answerable].
  intros (Hs & He & Hkey).
  exists (sortBy (docLeb (buildSort (q_sort r))) (filter (matches cat lo hi) coll)).
  assert (Hord : ordered (buildSort (q_sort r))
                   (sortBy (docLeb (buildSort (q_sort r))) (filter (matches cat lo hi) coll))).
  { apply sortBy_sorted, docLeb_total. }
  split; [rewrite addUp_sum; apply (getExpenses_readable r coll Hs He Hkey)|].
  split; [apply sortBy_perm|].
  split.
  { intros e. rewrite <- matches_satisfies, <- filter_In. split; intros Hin.
    - eapply Permutation_in; [apply sortBy_perm | exact Hin].
    - eapply Permutation_in; [apply Permutation_sym, sortBy_perm | exact Hin]. }
  split; [exact Hord|].
  split.
  { intros Hnone.
    assert (Hdate : ordered ("date", Desc)
                      (sortBy (docLeb (buildSort (q_sort r))) (filter (matches cat lo hi) coll))).
    { rewrite <- (buildSort_default _ Hnone). exact Hord. }
    split; [exact Hdate|].
    apply (ordered_by_schema_path ("date", Desc)); [exact Hdate | reflexivity]. }
  split.
  { intros field Hf. split; intros Hq.
    - assert (Heq : buildSort (q_sort r) = (field, Asc)).
      { rewrite Hq. exact (buildSort_token field "asc" Hf eq_refl). }
      rewrite <- Heq. exact Hord.
    - assert (Heq : buildSort (q_sort r) = (field, Desc)).
      { rewrite Hq. exact (buildSort_token field "desc" Hf eq_refl). }
      rewrite <- Heq. exact Hord. }
  split.
  { intros d.
    destruct (ordered_by_schema_path _ _ Hord) as (Ha & Hd & Hc & Hu & Ht & Hg).
    repeat split; intros Heq; rewrite Heq in *; cbn [fst snd] in *;
      [apply Ha | apply Hd | apply Hc | apply Hu | apply Ht | apply Hg]; reflexivity. }
  intros Hnone. rewrite filter_none; [reflexivity|].
  intros e Hin Hm. apply (Hnone e Hin), matches_satisfies, Hm.
Qed.

Lemma C6_listing_witness :
  exists data,
    getExpenses firstHalf2024ByAmount [lunch; newYearsEve; bus]
      = {| status := 200; success := true;
           payload := ExpenseList (List.length data) (addUp (map amount data)) data |}
    /\ Permutation data [lunch; bus]
    /\ ordered ("amount", Asc) data
    /\ inOrder amount Asc data.
Proof.
  destruct (C6_listing_filters_and_orders isoHost dottedStore firstHalf2024ByAmount
              [lunch; newYearsEve; bus])
    as [Hlisting _].
  destruct Hlisting as (data & Hresp & Hperm & _ & Hord & _ & _ & Hplain & _).
  - split; [|split].
    + intros s Hs. injection Hs as <-. vm_compute. discriminate.
    + intros s Hs. injection Hs as <-. vm_compute. discriminate.
    + reflexivity.
  - exists data. split; [exact Hresp|]. split; [exact Hperm|]. split; [exact Hord|].
    apply (Hplain Asc). reflexivity.
Defined.

(** C6 as stated fails: not every combination of the parameters is answered
    with records.  A sort with a direction and no field names the empty key,
    which the store refuses, and a start date the host cannot read is no
    date: either request is answered with the generic failure, status 500,
    although records are stored. *)
Lemma C6_refused_requests_counterexample :
  buildSort (q_sort noFieldDesc) = (EmptyString, Desc)
  /\ getExpenses noFieldDesc sampleStore
     = {| status := 500; success := false;
          payload := ErrorText (message (BadSortKeyError EmptyString)) |}
  /\ Date_parse "yesterday" = None
  /\ status (getExpenses sinceYesterday sampleStore) = 500.
Proof. repeat split; reflexivity. Qed.

(** C8, as amended: when the host reads a date from each date parameter that
    is supplied and the store accepts the sort key, the listing answer
    carries [count], the number of records in [data], and [total], the
    amounts of the records in [data] added one after the other in the order
    of the listing, starting from 0; [data] holds exactly the stored records
    that pass the filter, so only those contribute.  When the amounts of
    those records are whole, none negative, and add up to less than 2^53,
    [total] is their arithmetic sum, also over binary64, where no addition
    rounds.  Any other request is answered with the generic failure, which
    carries neither [count] nor [total]. *)
Theorem C8_count_and_total_of_listing :
  forall (host : DateHost) (store : Store) (r : ReqQuery) (coll : Collection),
    let passing := filter (matches (suppliedText (q_category r))
                             (suppliedDate (q_startDate r))
                             (suppliedDate (q_endDate r))) coll in
    (answerable r ->
     exists (count : nat) (total : Z) (data : list Expense),
       getExpenses r coll
         = {| status := 200; success := true; payload := ExpenseList count total data |}
       /\ count = List.length data
       /\ total = addUp (map amount data)
       /\ Permutation data passing
       /\ (wholeAmounts passing ->
           total = sumZ (map amount passing)
           /\ Double.total (map Double.ofWhole (map amount data)) = Double.ofWhole total))
    /\ (~ answerable r ->
        status (getExpenses r coll) = 500
        /\ success (getExpenses r coll) = false
        /\ exists msg, payload (getExpenses r coll) = ErrorText msg).
Proof.
  intros host store r coll passing.
  split; [|apply getExpenses_not_answerable].
  intros (Hs & He & Hkey).
  pose proof (getExpenses_readable r coll Hs He Hkey) as Hresp. cbv zeta in Hresp.
  fold passing in Hresp.
  set (data := sortBy (docLeb (buildSort (q_sort r))) passing) in *.
  assert (Hperm : Permutation data passing) by apply sortBy_perm.
  exists (List.length data), (sumZ (map amount data)), data.
  split; [exact Hresp|].
  split; [reflexivity|]. split; [symmetry; apply addUp_sum|].
  split; [exact Hperm|].
  intros [Hpos Hsum].
  assert (Heq : sumZ (map amount data) = sumZ (map amount passing))
    by (apply sumZ_amount_perm, Hperm).
  split; [exact Heq|].
  rewrite double_total_whole.
  - rewrite addUp_sum. reflexivity.
  - apply Forall_map. eapply Permutation_Forall; [apply Permutation_sym, Hperm | exact Hpos].
  - lia.
Qed.

Lemma C8_count_and_total_witness :
  exists (count : nat) (total : Z) (data : list Expense),
    getExpenses firstHalf2024ByAmount [lunch; newYearsEve; bus]
      = {| status := 200; success := true; payload := ExpenseList count total data |}
    /\ count = List.length data
    /\ total = addUp (map amount data)
    /\ Permutation data [lunch; bus]
    /\ total = 150
    /\ Double.total (map Double.ofWhole (map amount data)) = 150%float.
Proof.
  destruct (C8_count_and_total_of_listing isoHost dottedStore firstHalf2024ByAmount
              [lunch; newYearsEve; bus])
    as [Hlisting _].
  destruct Hlisting as (c & t & d & Hresp & Hc & Ht & Hp & Hwhole).
  - split; [|split].
    + intros s Hs. injection Hs as <-. vm_compute. discriminate.
    + intros s Hs. injection Hs as <-. vm_compute. discriminate.
    + reflexivity.
  - destruct Hwhole as [Hsum Hdouble].
    + split; [repeat constructor; vm_compute; discriminate | vm_compute; reflexivity].
    + exists c, t, d. split; [exact Hresp|]. split; [exact Hc|]. split; [exact Ht|].
      split; [exact Hp|]. split; [exact Hsum|].
      rewrite Hdouble, Hsum. reflexivity.
Defined.

(** C8 as stated fails.  Not every filter is answered with a listing: the
    sort [:asc] names the empty key and the answer is the generic failure,
    with neither [count] nor [total].  And with amounts that have a
    fractional part the total is not a sum of the records alone: the same
    three amounts added in the two orders of a sort by amount give two
    totals. *)
#[warnings="-inexact-float"]
Lemma C8_listing_total_counterexample :
  getExpenses noFieldAsc sampleStore
  = {| status := 500; success := false;
       payload := ErrorText (message (BadSortKeyError EmptyString)) |}
  /\ Double.total [0.1; 0.2; 0.3]%float = 0.6000000000000001%float
  /\ Double.total [0.3; 0.2; 0.1]%float = 0.6%float
  /\ PrimFloat.eqb (Double.total [0.1; 0.2; 0.3]%float) (Double.total [0.3; 0.2; 0.1]%float)
     = false.
Proof. repeat split; reflexivity. Qed.

(** C9, as amended: in [sort=field:direction], a direction other than the
    exact text "asc" (for instance "desc", "ASC", a misspelling, the empty
    text, or no direction at all) orders descending, and "asc" orders
    ascending; the field text is not checked against the schema: whatever it
    is, it becomes the sort key.  When the store accepts the key, the listing
    is answered with status 200, ordered by that key; when the store refuses
    it, as every store refuses the empty key, the answer is the generic
    failure with status 500. *)
Theorem C9_sort_direction_and_field :
  forall (host : DateHost) (store : Store) (field order : string) (r : ReqQuery)
         (coll : Collection),
    noColon field = true -> noColon order = true -> order <> "asc" ->
    q_sort r = Some (field ++ ":" ++ order) ->
    readable (q_startDate r) -> readable (q_endDate r) ->
    buildSort (q_sort r) = (field, Desc)
    /\ buildSort (Some (field ++ ":" ++ "asc")) = (field, Asc)
    /\ (field <> EmptyString -> buildSort (Some field) = (field, Desc))
    /\ (acceptsSortKey field = true ->
        exists data,
          getExpenses r coll
            = {| status := 200; success := true;
                 payload := ExpenseList (List.length data) (addUp (map amount data)) data |}
          /\ Sorted (fun a b => bsonLeb (getPath field b) (getPath field a) = true) data
          /\ (field = "amount" -> inOrder amount Desc data)
          /\ (field = "date" -> inOrder date Desc data)
          /\ (field = "title" -> inTextOrder title Desc data))
    /\ (acceptsSortKey field = false ->
        getExpenses r coll
          = {| status := 500; success := false;
               payload := ErrorText (message (BadSortKeyError field)) |})
    /\ (field = EmptyString -> status (getExpenses r coll) = 500).
Proof.
  intros host store field order r coll Hf Ho Hne Hq Hs He.
  assert (Hdesc : buildSort (q_sort r) = (field, Desc)).
  { rewrite Hq, (buildSort_token _ _ Hf Ho).
    apply String.eqb_neq in Hne. rewrite Hne. reflexivity. }
  assert (Hrefused : acceptsSortKey field = false ->
            getExpenses r coll
            = {| status := 500; success := false;
                 payload := ErrorText (message (BadSortKeyError field)) |}).
  { intros Hkey. rewrite (getExpenses_refused r coll Hs He); rewrite Hdesc; [|exact Hkey].
    apply errorHandler_badSortKey. }
  split; [exact Hdesc|].
  split; [exact (buildSort_token field "asc" Hf eq_refl)|].
  split; [intros Hnonempty; apply (buildSort_bare _ Hf Hnonempty)|].
  split.
  { intros Hkey. eexists. split.
    - rewrite addUp_sum. apply (getExpenses_readable r coll Hs He).
      rewrite Hdesc. exact Hkey.
    - rewrite Hdesc.
      pose proof (sortBy_sorted (docLeb (field, Desc)) (docLeb_total (field, Desc))
                    (filter (matches (suppliedText (q_category r))
                               (suppliedDate (q_startDate r))
                               (suppliedDate (q_endDate r))) coll)) as Hord.
      split; [exact Hord|].
      destruct (ordered_by_schema_path (field, Desc) _ Hord) as (Ha & Hd & _ & _ & Ht & _).
      cbn [fst snd] in *. split; [exact Ha|]. split; [exact Hd | exact Ht]. }
  split; [exact Hrefused|].
  intros ->. rewrite Hrefused; [reflexivity | apply refusesEmptyKey].
Qed.

Lemma C9_sort_direction_witness :
  buildSort (q_sort byAmountUpperCase) = ("amount", Desc)
  /\ exists data,
       getExpenses byAmountUpperCase sampleStore
         = {| status := 200; success := true;
              payload := ExpenseList (List.length data) (addUp (map amount data)) data |}
       /\ inOrder amount Desc data.
Proof.
  destruct (C9_sort_direction_and_field isoHost dottedStore "amount" "ASC" byAmountUpperCase
              sampleStore)
    as (Hdir & _ & _ & Hdata & _).
  - reflexivity.
  - reflexivity.
  - discriminate.
  - reflexivity.
  - intros s Hs. discriminate.
  - intros s Hs. discriminate.
  - split; [exact Hdir|].
    destruct Hdata as (data & Hresp & _ & Hplain & _); [reflexivity|].
    exists data. split; [exact Hresp | apply Hplain; reflexivity].
Defined.

(** C9 as stated fails: not every field token is accepted.  In [sort=:desc]
    the field token is the empty text; it becomes the sort key as it is, the
    store refuses the query, and the answer is the generic failure with
    status 500 instead of a listing. *)
Lemma C9_empty_field_counterexample :
  q_sort noFieldDesc = Some (EmptyString ++ ":" ++ "desc")
  /\ buildSort (q_sort noFieldDesc) = (EmptyString, Desc)
  /\ status (getExpenses noFieldDesc sampleStore) = 500
  /\ success (getExpenses noFieldDesc sampleStore) = false.
Proof. repeat split; reflexivity. Qed.

(** C10: a query parameter given with the empty text is handled exactly as
    the same request without that parameter, for each of [category],
    [startDate], [endDate] and [sort]; in particular [?category=] alone
    lists every stored record. *)
Theorem C10_empty_parameter_is_absent :
  forall (host : DateHost) (store : Store) (c s e o : option string) (coll : Collection),
    getExpenses (mkQuery (Some EmptyString) s e o) coll = getExpenses (mkQuery None s e o) coll
    /\ getExpenses (mkQuery c (Some EmptyString) e o) coll = getExpenses (mkQuery c None e o) coll
    /\ getExpenses (mkQuery c s (Some EmptyString) o) coll = getExpenses (mkQuery c s None o) coll
    /\ getExpenses (mkQuery c s e (Some EmptyString)) coll = getExpenses (mkQuery c s e None) coll
    /\ exists data,
         getExpenses (mkQuery (Some EmptyString) None None None) coll
           = {| status := 200; success := true;
                payload := ExpenseList (List.length data) (sumZ (map amount data)) data |}
         /\ Permutation data coll.
Proof.
  intros host store c s e o coll.
  split; [reflexivity|].
  split; [reflexivity|].
  split.
  { unfold getExpenses, buildQuery, mkQuery; simpl.
    rewrite !orb_false_r. reflexivity. }
  split; [reflexivity|].
  eexists. split.
  - apply (getExpenses_default_sort (mkQuery (Some EmptyString) None None None) coll);
      try reflexivity; intros x Hx; discriminate.
  - simpl. eapply Permutation_trans; [apply sortBy_perm|].
    rewrite filter_all; [apply Permutation_refl | reflexivity].
Qed.

(** ** Totals by category *)

Section Groups.
Context {K : Type} (eqb : K -> K -> bool).

Lemma accumulate_sum (k : K) (v : Z) (g : list (K * Z)) :
  sumZ (map snd (accumulate eqb k v g)) = sumZ (map snd g) + v.
Proof.
  induction g as [|[k' t] r IH]; simpl; [lia|].
  destruct (eqb k' k); simpl; lia.
Qed.

Lemma groupSum_sum_from (key : Expense -> K) (docs : list Expense) (g : list (K * Z)) :
  sumZ (map snd (fold_left (fun groups e => accumulate eqb (key e) (amount e) groups) docs g))
  = sumZ (map snd g) + sumZ (map amount docs).
Proof.
  revert g. induction docs as [|e r IH]; intros g; simpl; [lia|].
  rewrite IH, accumulate_sum. lia.
Qed.

Lemma groupSum_sum (key : Expense -> K) (docs : list Expense) :
  sumZ (map snd (groupSum eqb key docs)) = sumZ (map amount docs).
Proof. unfold groupSum. rewrite groupSum_sum_from. reflexivity. Qed.

Hypothesis eqb_eq : forall a b, eqb a b = true <-> a = b.

Lemma accumulate_keys (k : K) (v : Z) (g : list (K * Z)) (x : K) :
  In x (map fst (accumulate eqb k v g)) <-> x = k \/ In x (map fst g).
Proof.
  induction g as [|[k' t] r IH]; simpl; [intuition congruence|].
  destruct (eqb k' k) eqn:Hk; simpl.
  - apply eqb_eq in Hk. subst k'. intuition congruence.
  - rewrite IH. intuition congruence.
Qed.

Lemma accumulate_nodup (k : K) (v : Z) (g : list (K * Z)) :
  NoDup (map fst g) -> NoDup (map fst (accumulate eqb k v g)).
Proof.
  induction g as [|[k' t] r IH]; simpl; intros Hnd.
  - constructor; [intros [] | constructor].
  - inversion Hnd as [|? ? Hnotin Hr]; subst.
    destruct (eqb k' k) eqn:Hk; simpl.
    + constructor; assumption.
    + constructor; [|apply IH, Hr].
      rewrite accumulate_keys. intros [-> | Hin]; [|contradiction].
      assert (eqb k k = true) by (apply eqb_eq; reflexivity). congruence.
Qed.

Local Abbreviation totalOf := (totalOf eqb).

Lemma totalOf_accumulate (c k : K) (v : Z) (g : list (K * Z)) :
  NoDup (map fst g) ->
  totalOf c (accumulate eqb k v g) = totalOf c g + (if eqb k c then v else 0).
Proof.
  unfold totalOf. induction g as [|[k' t] r IH]; simpl; intros Hnd.
  - destruct (eqb k c); simpl; lia.
  - inversion Hnd as [|? ? Hnotin Hr]; subst.
    destruct (eqb k' k) eqn:Hk; simpl.
    + apply eqb_eq in Hk. subst k'. destruct (eqb k c); simpl; lia.
    + specialize (IH Hr). destruct (eqb k' c); simpl; lia.
Qed.

Lemma fold_accumulate_nodup (key : Expense -> K) (docs : list Expense) (g : list (K * Z)) :
  NoDup (map fst g) ->
  NoDup (map fst (fold_left (fun groups e => accumulate eqb (key e) (amount e) groups) docs g)).
Proof.
  revert g. induction docs as [|e r IH]; intros g Hnd; simpl; [exact Hnd|].
  apply IH, accumulate_nodup, Hnd.
Qed.

Lemma totalOf_fold (key : Expense -> K) (c : K) (docs : list Expense) (g : list (K * Z)) :
  NoDup (map fst g) ->
  totalOf c (fold_left (fun groups e => accumulate eqb (key e) (amount e) groups) docs g)
  = totalOf c g + sumZ (map amount (filter (fun e => eqb (key e) c) docs)).
Proof.
  revert g. induction docs as [|e r IH]; intros g Hnd; simpl; [lia|].
  rewrite (IH _ (accumulate_nodup _ _ _ Hnd)), (totalOf_accumulate _ _ _ _ Hnd).
  destruct (eqb (key e) c); simpl; lia.
Qed.

Lemma totalOf_member (c : K) (t : Z) (g : list (K * Z)) :
  NoDup (map fst g) -> In (c, t) g -> totalOf c g = t.
Proof.
  unfold totalOf. induction g as [|[k' t'] r IH]; simpl; intros Hnd Hin; [contradiction|].
  inversion Hnd as [|? ? Hnotin Hr]; subst.
  destruct Hin as [Heq | Hin].
  - injection Heq as -> ->.
    assert (eqb c c = true) as -> by (apply eqb_eq; reflexivity). simpl.
    rewrite filter_none; [simpl; lia|].
    intros [k x] Hx Hk. simpl in Hk. apply eqb_eq in Hk. subst k.
    apply Hnotin. apply (in_map fst) in Hx. exact Hx.
  - destruct (eqb k' c) eqn:Hk.
    + apply eqb_eq in Hk. subst k'. exfalso. apply Hnotin.
      apply (in_map fst) in Hin. exact Hin.
    + apply IH; assumption.
Qed.

Lemma groupSum_keys (key : Expense -> K) (docs : list Expense) (g : list (K * Z)) (x : K) :
  In x (map fst (fold_left (fun groups e => accumulate eqb (key e) (amount e) groups) docs g))
  <-> In x (map fst g) \/ exists e, In e docs /\ key e = x.
Proof.
  revert g. induction docs as [|e r IH]; intros g; simpl.
  - split; [intros Hx; left; exact Hx | intros [Hx | (e & [] & _)]; exact Hx].
  - rewrite IH, accumulate_keys. split.
    + intros [[-> | Hx] | (e' & He' & Hk)].
      * right. exists e. split; [left; reflexivity | reflexivity].
      * left. exact Hx.
      * right. exists e'. split; [right; exact He' | exact Hk].
    + intros [Hx | (e' & [-> | He'] & Hk)].
      * left. right. exact Hx.
      * left. left. symmetry. exact Hk.
      * right. exists e'. split; assumption.
Qed.

(** What the group stage yields: one pair per key that occurs, holding the
    sum of the amounts of the documents with that key. *)
Lemma groupSum_spec (key : Expense -> K) (docs : list Expense) :
  NoDup (map fst (groupSum eqb key docs))
  /\ (forall x, In x (map fst (groupSum eqb key docs)) <-> exists e, In e docs /\ key e = x)
  /\ (forall c t, In (c, t) (groupSum eqb key docs) ->
        t = sumZ (map amount (filter (fun e => eqb (key e) c) docs))).
Proof.
  assert (Hnil : NoDup (map fst (@nil (K * Z)))) by constructor.
  unfold groupSum. split; [|split].
  - apply fold_accumulate_nodup, Hnil.
  - intros x. rewrite groupSum_keys. simpl. intuition.
  - intros c t Hin.
    rewrite <- (totalOf_member c t _ (fold_accumulate_nodup key docs [] Hnil) Hin).
    rewrite (totalOf_fold key c docs [] Hnil). reflexivity.
Qed.
End Groups.

Lemma grandTotal_sum (coll : Collection) : grandTotal coll = sumZ (map amount coll).
Proof.
  unfold grandTotal.
  pose proof (groupSum_sum (fun _ _ : unit => true) (fun _ => tt) coll) as Hsum.
  pose proof (groupSum_spec (fun _ _ : unit => true)
                (fun a b => conj (fun _ => match a, b with tt, tt => eq_refl end)
                                 (fun _ => eq_refl))
                (fun _ => tt) coll) as (Hnd & _ & _).
  destruct (groupSum (fun _ _ : unit => true) (fun _ => tt) coll) as [|[u t] [|[u' t'] r]];
    simpl in *.
  - lia.
  - lia.
  - exfalso. inversion Hnd as [|? ? Hnotin _]; subst. apply Hnotin.
    destruct u, u'. left. reflexivity.
Qed.

Lemma grandTotal_addUp (coll : Collection) : grandTotal coll = addUp (map amount coll).
Proof. rewrite addUp_sum. apply grandTotal_sum. Qed.

(** ** The sums over binary64, on whole amounts

    For records whose amounts are whole, none negative, and add up to less
    than 2^53, the sums the code takes over binary64 are the sums of the
    embedding: no addition rounds. *)

Section WholeGroups.
Context {K : Type} (eqb : K -> K -> bool).

Lemma accumulate_nonneg (k : K) (v : Z) (g : list (K * Z)) :
  0 <= v -> Forall (fun p => 0 <= snd p) g ->
  Forall (fun p => 0 <= snd p) (accumulate eqb k v g).
Proof.
  intros Hv. induction 1 as [|[k' t] r Ht Hr IH]; simpl.
  - repeat constructor. exact Hv.
  - simpl in Ht. destruct (eqb k' k); constructor; simpl; try assumption; lia.
Qed.

Lemma double_accumulate_whole (k : K) (v : Z) (g : list (K * Z)) :
  0 <= v -> Forall (fun p => 0 <= snd p) g -> sumZ (map snd g) + v < 2 ^ 53 ->
  Double.accumulate eqb k (Double.ofWhole v) (map Double.ofWholeGroup g) = map Double.ofWholeGroup (accumulate eqb k v g).
Proof.
  intros Hv. induction 1 as [|[k' t] r Ht Hr IH]; simpl; intros Hsum; [reflexivity|].
  simpl in Ht.
  assert (Hrest : 0 <= sumZ (map snd r)).
  { apply sumZ_nonneg. apply Forall_map. exact Hr. }
  destruct (eqb k' k); simpl.
  - unfold Double.ofWholeGroup at 2. simpl. rewrite ofWhole_add by lia. reflexivity.
  - rewrite IH by lia. reflexivity.
Qed.

Lemma double_groupSum_from (key : Expense -> K) (docs : list Expense) (g : list (K * Z)) :
  Forall (fun e => 0 <= amount e) docs -> Forall (fun p => 0 <= snd p) g ->
  sumZ (map snd g) + sumZ (map amount docs) < 2 ^ 53 ->
  fold_left (fun groups d => Double.accumulate eqb (fst d) (snd d) groups)
    (map (fun e => (key e, Double.ofWhole (amount e))) docs) (map Double.ofWholeGroup g)
  = map Double.ofWholeGroup (fold_left (fun groups e => accumulate eqb (key e) (amount e) groups) docs g).
Proof.
  intros Hdocs. revert g. induction Hdocs as [|e r He Hr IH]; intros g Hg Hsum; simpl.
  - reflexivity.
  - simpl in Hsum.
    assert (Hrest : 0 <= sumZ (map amount r)).
    { apply sumZ_nonneg. apply Forall_map. exact Hr. }
    rewrite double_accumulate_whole by (assumption || lia).
    apply IH.
    + apply accumulate_nonneg; assumption.
    + rewrite accumulate_sum. lia.
Qed.

(** The group stage. *)
Lemma double_groupSum_whole (key : Expense -> K) (docs : list Expense) :
  Forall (fun e => 0 <= amount e) docs -> sumZ (map amount docs) < 2 ^ 53 ->
  Double.groupSum eqb (map (fun e => (key e, Double.ofWhole (amount e))) docs)
  = map Double.ofWholeGroup (groupSum eqb key docs).
Proof.
  intros Hdocs Hsum. unfold Double.groupSum, groupSum.
  apply (double_groupSum_from key docs [] Hdocs); [constructor | simpl; lia].
Qed.

Lemma groupSum_nonneg (key : Expense -> K) (docs : list Expense) :
  Forall (fun e => 0 <= amount e) docs ->
  Forall (fun p => 0 <= snd p) (groupSum eqb key docs).
Proof.
  intros Hdocs. unfold groupSum.
  assert (Hgen : forall g, Forall (fun p : K * Z => 0 <= snd p) g ->
            Forall (fun p => 0 <= snd p)
              (fold_left (fun groups e => accumulate eqb (key e) (amount e) groups) docs g)).
  { induction Hdocs as [|e r He Hr IH]; intros g Hg; simpl; [exact Hg|].
    apply IH, accumulate_nonneg; assumption. }
  apply Hgen. constructor.
Qed.
End WholeGroups.

Lemma insertBy_map {A B : Type} (f : A -> B) (lebA : A -> A -> bool) (lebB : B -> B -> bool)
  (x : A) (l : list A) :
  (forall y, In y l -> lebB (f x) (f y) = lebA x y) ->
  insertBy lebB (f x) (map f l) = map f (insertBy lebA x l).
Proof.
  induction l as [|y r IH]; intros Hleb; simpl; [reflexivity|].
  rewrite (Hleb y (or_introl eq_refl)). destruct (lebA x y); simpl; [reflexivity|].
  rewrite IH; [reflexivity|]. intros z Hz. apply Hleb. right. exact Hz.
Qed.

Lemma sortBy_map {A B : Type} (f : A -> B) (lebA : A -> A -> bool) (lebB : B -> B -> bool)
  (l : list A) :
  (forall x y, In x l -> In y l -> lebB (f x) (f y) = lebA x y) ->
  sortBy lebB (map f l) = map f (sortBy lebA l).
Proof.
  induction l as [|x r IH]; intros Hleb; simpl; [reflexivity|].
  fold (sortBy lebB (map f r)). fold (sortBy lebA r).
  rewrite IH by (intros a b Ha Hb; apply Hleb; right; assumption).
  apply insertBy_map. intros y Hy. apply Hleb; [left; reflexivity|].
  right. eapply Permutation_in; [apply sortBy_perm | exact Hy].
Qed.

Lemma groups_in_range {K : Type} (g : list (K * Z)) (p : K * Z) :
  Forall (fun p => 0 <= snd p) g -> sumZ (map snd g) < 2 ^ 53 -> In p g ->
  0 <= snd p < 2 ^ 53.
Proof.
  intros Hg Hsum Hin.
  pose proof (sumZ_member (map snd g) (snd p)) as Hm.
  assert (Forall (fun x => 0 <= x) (map snd g)) as Hg' by (apply Forall_map; exact Hg).
  specialize (Hm Hg' (in_map snd _ _ Hin)). lia.
Qed.

Lemma double_getTotalByCategory_whole (coll : Collection) :
  wholeAmounts coll ->
  Double.getTotalByCategory (asDouble coll) = map Double.ofWholeGroup (getTotalByCategory coll).
Proof.
  intros [Hpos Hsum]. unfold Double.getTotalByCategory, getTotalByCategory, asDouble.
  rewrite (double_groupSum_whole String.eqb category coll Hpos Hsum).
  apply sortBy_map. intros x y Hx Hy. unfold Double.ofWholeGroup; simpl.
  pose proof (groupSum_nonneg String.eqb category coll Hpos) as Hg.
  pose proof (groupSum_sum String.eqb category coll) as Hs.
  apply ofWhole_leb; eapply groups_in_range; try eassumption; lia.
Qed.

Lemma double_grandTotal_whole (coll : Collection) :
  wholeAmounts coll ->
  Double.grandTotal (asDouble coll) = Double.ofWhole (grandTotal coll).
Proof.
  intros [Hpos Hsum]. unfold Double.grandTotal, grandTotal, asDouble.
  rewrite map_map. cbn [snd].
  rewrite (double_groupSum_whole (fun _ _ : unit => true) (fun _ => tt) coll Hpos Hsum).
  destruct (groupSum (fun _ _ : unit => true) (fun _ => tt) coll) as [|[u t] r]; reflexivity.
Qed.

(** In binary64, on whole amounts, the totals by category add up to the
    grand total. *)
Lemma double_totals_add_up (coll : Collection) :
  wholeAmounts coll ->
  Double.total (map snd (Double.getTotalByCategory (asDouble coll)))
  = Double.grandTotal (asDouble coll).
Proof.
  intros Hwhole. pose proof Hwhole as [Hpos Hsum].
  rewrite (double_getTotalByCategory_whole coll Hwhole), (double_grandTotal_whole coll Hwhole).
  rewrite map_map. unfold Double.ofWholeGroup. cbn [snd].
  rewrite <- (map_map snd Double.ofWhole).
  assert (Hperm : Permutation (getTotalByCategory coll) (groupSum String.eqb category coll))
    by apply sortBy_perm.
  assert (Hs : sumZ (map snd (getTotalByCategory coll)) = sumZ (map amount coll)).
  { rewrite (sumZ_perm _ _ (Permutation_map snd Hperm)). apply groupSum_sum. }
  rewrite double_total_whole.
  - rewrite addUp_sum, Hs, grandTotal_sum. reflexivity.
  - apply Forall_map. eapply Permutation_Forall; [apply Permutation_sym, Hperm|].
    apply groupSum_nonneg, Hpos.
  - lia.
Qed.

(** C7, as amended: for stored records whose amounts are whole numbers,
    none negative, adding up to less than 2^53, the totals by category,
    added up, equal the grand total of the statistics, which is the sum of
    [amount] over all records; the pairs come ordered by total, largest
    first; a category is listed exactly when some record has it (and then
    once, with the sum of the amounts of its records), so a category without
    records never appears.  The first three parts say it of the numbers the
    code adds: over binary64 the rows and the grand total are those of the
    embedding, and the totals of the rows add up to the grand total. *)
Theorem C7_totals_by_category :
  forall (coll : Collection),
    wholeAmounts coll ->
    Double.getTotalByCategory (asDouble coll)
      = map Double.ofWholeGroup (getTotalByCategory coll)
    /\ Double.grandTotal (asDouble coll) = Double.ofWhole (grandTotal coll)
    /\ Double.total (map snd (Double.getTotalByCategory (asDouble coll)))
       = Double.grandTotal (asDouble coll)
    /\ addUp (map snd (getTotalByCategory coll)) = grandTotal coll
    /\ grandTotal coll = addUp (map amount coll)
    /\ StronglySorted (fun a b : string * Z => snd b <= snd a) (getTotalByCategory coll)
    /\ NoDup (map fst (getTotalByCategory coll))
    /\ (forall c, In c (map fst (getTotalByCategory coll))
                  <-> exists e, In e coll /\ category e = c)
    /\ (forall c t, In (c, t) (getTotalByCategory coll) ->
          t = addUp (map amount (filter (fun e => String.eqb (category e) c) coll))).
Proof.
  intros coll Hwhole.
  split; [apply double_getTotalByCategory_whole, Hwhole|].
  split; [apply double_grandTotal_whole, Hwhole|].
  split; [apply double_totals_add_up, Hwhole|].
  unfold getTotalByCategory.
  set (groups := groupSum String.eqb category coll).
  set (leb := fun a b : string * Z => snd b <=? snd a).
  pose proof (sortBy_perm leb groups) as Hperm.
  destruct (groupSum_spec String.eqb String.eqb_eq category coll) as (Hnd & Hkeys & Htot).
  fold groups in Hnd, Hkeys, Htot.
  split.
  { rewrite grandTotal_sum, addUp_sum, (sumZ_perm _ _ (Permutation_map snd Hperm)).
    apply groupSum_sum. }
  split; [apply grandTotal_addUp|].
  split.
  { apply Sorted_StronglySorted.
    - intros a b c Hab Hbc. lia.
    - apply (Sorted_weaken (fun a b => leb a b = true)).
      + intros a b Hab. apply Z.leb_le. exact Hab.
      + apply sortBy_sorted. intros a b. unfold leb. rewrite !Z.leb_le. lia. }
  split.
  { eapply Permutation_NoDup; [apply Permutation_sym, Permutation_map, Hperm | exact Hnd]. }
  split.
  { intros c. rewrite <- Hkeys. split; intros Hin.
    - eapply Permutation_in; [apply Permutation_map, Hperm | exact Hin].
    - eapply Permutation_in; [apply Permutation_sym, Permutation_map, Hperm | exact Hin]. }
  intros c t Hin. rewrite addUp_sum. apply Htot.
  eapply Permutation_in; [apply Hperm | exact Hin].
Qed.

Lemma C7_totals_by_category_witness :
  Double.getTotalByCategory (asDouble [lunch; bus; newYearsEve; lunch])
  = [("Food", 200%float); ("Transportation", 50%float); ("Entertainment", 10%float)]
  /\ Double.grandTotal (asDouble [lunch; bus; newYearsEve; lunch]) = 260%float
  /\ Double.total (map snd (Double.getTotalByCategory (asDouble [lunch; bus; newYearsEve; lunch])))
     = Double.grandTotal (asDouble [lunch; bus; newYearsEve; lunch])
  /\ getTotalByCategory [lunch; bus; newYearsEve; lunch]
     = [("Food", 200); ("Transportation", 50); ("Entertainment", 10)]
  /\ grandTotal [lunch; bus; newYearsEve; lunch] = 260.
Proof.
  destruct (C7_totals_by_category [lunch; bus; newYearsEve; lunch])
    as (Hrows & Htotal & Hsum & _).
  - split; [repeat constructor; vm_compute; discriminate | vm_compute; reflexivity].
  - split; [rewrite Hrows; reflexivity|].
    split; [rewrite Htotal; reflexivity|].
    split; [exact Hsum|]. split; reflexivity.
Defined.

(** C7 as stated fails for amounts with a fractional part.  Of three
    expenses stored in this order, Food 0.1, Travel 0.2 and Food 2.2, the
    totals by category are 2.3000000000000003 for Food and 0.2 for Travel,
    which add up to 2.5000000000000004, while the grand total of the
    statistics is 2.5.  (No group holds more than two amounts, and 2.5 is
    also the exact sum of the three amounts rounded once, so the figures do
    not depend on how the server adds up a group.) *)
#[warnings="-inexact-float"]
Lemma C7_fractional_amounts_counterexample :
  Double.getTotalByCategory fractionalAmounts
  = [("Food", 2.3000000000000003%float); ("Travel", 0.2%float)]
  /\ Double.total (map snd (Double.getTotalByCategory fractionalAmounts))
     = 2.5000000000000004%float
  /\ Double.grandTotal fractionalAmounts = 2.5%float
  /\ PrimFloat.eqb (Double.total (map snd (Double.getTotalByCategory fractionalAmounts)))
       (Double.grandTotal fractionalAmounts) = false.
Proof. repeat split; reflexivity. Qed.

(** ** Updates *)

Lemma updateOne_length (oid : ObjectId) (f : Expense -> Expense) (coll : Collection) :
  List.length (updateOne oid f coll) = List.length coll.
Proof.
  induction coll as [|x r IH]; simpl; [reflexivity|].
  destruct (hasId oid x); simpl; [reflexivity | rewrite IH; reflexivity].
Qed.

Lemma updateOne_others (oid : ObjectId) (f : Expense -> Expense) (coll : Collection) :
  forall i x, nth_error coll i = Some x -> _id x <> oid ->
              nth_error (updateOne oid f coll) i = Some x.
Proof.
  induction coll as [|y r IH]; intros [|i] x Hnth Hne; simpl in *; try discriminate.
  - injection Hnth as ->. unfold hasId.
    apply String.eqb_neq in Hne. rewrite Hne. reflexivity.
  - destruct (hasId oid y); simpl; [exact Hnth | apply IH; assumption].
Qed.

Lemma updateOne_find (oid : ObjectId) (f : Expense -> Expense) (coll : Collection) (e : Expense) :
  (forall x, _id (f x) = _id x) ->
  find (hasId oid) coll = Some e ->
  find (hasId oid) (updateOne oid f coll) = Some (f e).
Proof.
  intros Hid. induction coll as [|y r IH]; simpl; [discriminate|].
  destruct (hasId oid y) eqn:Hy; simpl.
  - intros Heq. injection Heq as ->. unfold hasId in *. rewrite Hid, Hy. reflexivity.
  - rewrite Hy. exact IH.
Qed.

(** C3, as amended: for a well-formed id and a draft that passes the update
    validators, updating an existing record changes only the paths the draft
    supplies (title and description are stored trimmed); every path not
    supplied, the identifier and [createdAt] keep their values, and every
    other record is untouched; [updatedAt] becomes the clock reading of the
    update, so it advances strictly whenever that reading is later than the
    stored value; when no record has the id, the answer is not-found and
    nothing changes. *)
Theorem C3_partial_update :
  forall (now : Z) (id : string) (oid : ObjectId) (b : Body) (coll : Collection),
    castObjectId id = Some oid ->
    updateErrors b = [] ->
    (forall e, find (hasId oid) coll = Some e ->
       exists e' coll',
         updateExpense now id b coll
           = ({| status := 200; success := true; payload := ExpenseData e' |}, coll')
         /\ (b_title b = None -> title e' = title e)
         /\ (b_amount b = None -> amount e' = amount e)
         /\ (b_category b = None -> category e' = category e)
         /\ (b_date b = None -> date e' = date e)
         /\ (b_description b = None -> description e' = description e)
         /\ (forall t, b_title b = Some t -> title e' = Js.trim t)
         /\ (forall a, b_amount b = Some a -> amount e' = a)
         /\ (forall c, b_category b = Some c -> category e' = c)
         /\ (forall d, b_date b = Some d -> date e' = d)
         /\ (forall d, b_description b = Some d -> description e' = Some (Js.trim d))
         /\ _id e' = _id e
         /\ createdAt e' = createdAt e
         /\ updatedAt e' = now
         /\ (updatedAt e < now -> updatedAt e < updatedAt e')
         /\ find (hasId oid) coll' = Some e'
         /\ List.length coll' = List.length coll
         /\ (forall i x, nth_error coll i = Some x -> _id x <> oid ->
                         nth_error coll' i = Some x))
    /\ (find (hasId oid) coll = None -> updateExpense now id b coll = (notFound, coll)).
Proof.
  intros now id oid b coll Hcast Hvalid. split.
  - intros e Hfind.
    exists (applyUpdate b now e), (updateOne oid (applyUpdate b now) coll).
    split.
    { unfold updateExpense, findByIdAndUpdate. rewrite Hcast, Hvalid, Hfind. reflexivity. }
    unfold applyUpdate; simpl.
    repeat match goal with |- _ /\ _ => split end;
      try (intros Hb; rewrite Hb; reflexivity);
      try (intros v Hb; rewrite Hb; reflexivity);
      try reflexivity.
    + intros Hlt. exact Hlt.
    + apply (updateOne_find oid (applyUpdate b now) coll e); [reflexivity | exact Hfind].
    + apply updateOne_length.
    + apply updateOne_others.
  - intros Hnone. unfold updateExpense, findByIdAndUpdate.
    rewrite Hcast, Hvalid, Hnone. reflexivity.
Qed.

Lemma C3_partial_update_witness :
  exists e' coll',
    updateExpense (Calendar.utc 2024 4 2 0 0 0 0) busId tramUpdate sampleStore
      = ({| status := 200; success := true; payload := ExpenseData e' |}, coll')
    /\ title e' = "Tram"
    /\ amount e' = amount bus
    /\ updatedAt bus < updatedAt e'
    /\ nth_error coll' 0 = Some lunch.
Proof.
  destruct (C3_partial_update (Calendar.utc 2024 4 2 0 0 0 0) busId busId tramUpdate sampleStore)
    as [Hfound _].
  - reflexivity.
  - reflexivity.
  - destruct (Hfound bus) as (e' & coll' & Hresp & _ & Hamount & _ & _ & _ & Htitle & _ & _
                               & _ & _ & _ & _ & _ & Hadv & _ & _ & Hothers).
    + reflexivity.
    + exists e', coll'. split; [exact Hresp|].
      split; [apply (Htitle " Tram "); reflexivity|].
      split; [apply Hamount; reflexivity|].
      split; [apply Hadv; vm_compute; reflexivity|].
      apply (Hothers 0%nat lunch); [reflexivity | vm_compute; discriminate].
Defined.

(** C3 as stated fails in three places: an id that is no identifier at all
    resolves to no record, yet the answer is the generic failure 500, not
    not-found; an id that matches no record, sent with a draft the validators
    refuse, is answered 400, not not-found; and a successful update made at
    the very clock reading the record already carries leaves [updatedAt]
    where it was. *)
Lemma C3_update_counterexample :
  (castObjectId "abc" = None
   /\ status (fst (updateExpense 0 "abc" emptyBody sampleStore)) = 500)
  /\ (find (hasId freshId) sampleStore = None
      /\ status (fst (updateExpense 0 freshId negativeAmount sampleStore)) = 400)
  /\ (exists e',
        fst (updateExpense (updatedAt bus) busId tramUpdate sampleStore)
          = {| status := 200; success := true; payload := ExpenseData e' |}
        /\ ~ updatedAt bus < updatedAt e').
Proof.
  split; [split; reflexivity|].
  split; [split; reflexivity|].
  eexists. split; [vm_compute; reflexivity|].
  vm_compute. discriminate.
Qed.

(** ** Creation *)

Lemma trimStart_length (s : string) : (String.length (Js.trimStart s) <= String.length s)%nat.
Proof.
  induction s as [|c r IH]; simpl; [lia|].
  destruct (Js.isWhiteSpace c); simpl; lia.
Qed.

Lemma trimEnd_length (s : string) : (String.length (Js.trimEnd s) <= String.length s)%nat.
Proof.
  induction s as [|c r IH]; simpl; [lia|].
  destruct (Js.trimEnd r); [destruct (Js.isWhiteSpace c)|]; simpl in *; lia.
Qed.

Lemma trim_length (s : string) : (String.length (Js.trim s) <= String.length s)%nat.
Proof.
  unfold Js.trim. pose proof (trimEnd_length (Js.trimStart s)).
  pose proof (trimStart_length s). lia.
Qed.

Lemma inEnum_In (c : string) : inEnum c = true <-> In c categories.
Proof.
  unfold inEnum. rewrite existsb_exists. split.
  - intros (x & Hx & Heq). apply String.eqb_eq in Heq. subst x. exact Hx.
  - intros Hin. exists c. split; [exact Hin | apply String.eqb_refl].
Qed.

Lemma inEnum_nonempty (c : string) : inEnum c = true -> String.eqb c EmptyString = false.
Proof. intros Hc. destruct c; [discriminate Hc | reflexivity]. Qed.

Lemma find_app_fresh (oid : ObjectId) (coll : Collection) (e : Expense) :
  (forall x, In x coll -> _id x <> oid) -> _id e = oid ->
  find (hasId oid) (coll ++ [e]) = Some e.
Proof.
  intros Hfresh Hid. induction coll as [|y r IH]; simpl.
  - unfold hasId. rewrite Hid, String.eqb_refl. reflexivity.
  - unfold hasId at 1. destruct (String.eqb_spec (_id y) oid) as [Heq|_].
    + exfalso. apply (Hfresh y); [left; reflexivity | exact Heq].
    + apply IH. intros x Hx. apply Hfresh. right. exact Hx.
Qed.

Lemma existsb_fresh (oid : ObjectId) (coll : Collection) :
  (forall x, In x coll -> _id x <> oid) -> existsb (hasId oid) coll = false.
Proof.
  intros Hfresh. destruct (existsb (hasId oid) coll) eqn:Hex; [|reflexivity].
  apply existsb_exists in Hex as (x & Hx & Hid). unfold hasId in Hid.
  apply String.eqb_eq in Hid. exfalso. apply (Hfresh x Hx Hid).
Qed.

(** The outcome of the validators of each path, against the violation the
    path's constraint describes. *)
Lemma title_checked (b : Body) :
  if titleViolated b
  then exists m, validateTitle (option_map Js.trim (b_title b)) = Invalid m /\ m <> EmptyString
  else exists t, b_title b = Some t
                 /\ validateTitle (option_map Js.trim (b_title b)) = Valid (Js.trim t).
Proof.
  unfold titleViolated, validateTitle. destruct (b_title b) as [t|]; simpl.
  - destruct (String.eqb (Js.trim t) EmptyString); simpl.
    + eexists. split; [reflexivity | discriminate].
    + destruct (100 <? String.length (Js.trim t))%nat.
      * eexists. split; [reflexivity | discriminate].
      * exists t. split; reflexivity.
  - eexists. split; [reflexivity | discriminate].
Qed.

Lemma amount_checked (b : Body) :
  if amountViolated b
  then exists m, validateAmount (b_amount b) = Invalid m /\ m <> EmptyString
  else exists a, b_amount b = Some a /\ validateAmount (b_amount b) = Valid a.
Proof.
  unfold amountViolated, validateAmount. destruct (b_amount b) as [a|]; simpl.
  - destruct (a <? 0).
    + eexists. split; [reflexivity | discriminate].
    + exists a. split; reflexivity.
  - eexists. split; [reflexivity | discriminate].
Qed.

Lemma category_checked (b : Body) :
  if categoryViolated b
  then exists m, validateCategory (Some (orElse (b_category b) "Other")) = Invalid m
                 /\ m <> EmptyString
  else validateCategory (Some (orElse (b_category b) "Other"))
       = Valid (orElse (b_category b) "Other").
Proof.
  unfold categoryViolated, validateCategory. destruct (b_category b) as [c|]; simpl.
  - destruct (inEnum c) eqn:Hc; simpl.
    + rewrite (inEnum_nonempty c Hc). reflexivity.
    + destruct (String.eqb c EmptyString); eexists; (split; [reflexivity | discriminate]).
  - reflexivity.
Qed.

Lemma description_checked (b : Body) :
  if descriptionViolated b
  then exists m, validateDescription (option_map Js.trim (b_description b)) = Invalid m
                 /\ m <> EmptyString
  else validateDescription (option_map Js.trim (b_description b))
       = Valid (option_map Js.trim (b_description b)).
Proof.
  unfold descriptionViolated, validateDescription. destruct (b_description b) as [d|]; simpl.
  - destruct (500 <? String.length (Js.trim d))%nat.
    + eexists. split; [reflexivity | discriminate].
    + reflexivity.
  - reflexivity.
Qed.

Lemma create_unfold (oid : ObjectId) (tDefault tSave : Z) (b : Body) (coll : Collection) :
  create oid tDefault tSave b coll
  = match validateTitle (option_map Js.trim (b_title b)), validateAmount (b_amount b),
          validateCategory (Some (orElse (b_category b) "Other")),
          validateDescription (option_map Js.trim (b_description b)) with
    | Valid t, Valid a, Valid c, Valid d =>
        if existsb (hasId oid) coll then (Throw (DuplicateKeyError oid), coll)
        else
          let e := {| _id := oid; title := t; amount := a; category := c;
                      date := orElse (b_date b) tDefault;
                      description := d; createdAt := tSave; updatedAt := tSave |} in
          (Ok e, (coll ++ [e])%list)
    | vt, va, vc, vd =>
        (Throw (ValidationError (failure "title" vt ++ failure "amount" va
                                 ++ failure "category" vc ++ failure "description" vd)%list),
         coll)
    end.
Proof.
  unfold create, orElse.
  destruct (validateTitle _), (validateAmount _), (validateCategory _),
    (validateDescription _); reflexivity.
Qed.

(** C4, as amended: a draft that violates a constraint of the data model,
    the lengths of title and description being taken after trimming (title
    missing or blank or longer than 100, amount missing or negative, category
    outside the enumeration, description longer than 500), is refused with a
    ValidationError that names exactly the violated paths, one non-empty
    message for each; the controller answers 400 with that list of messages,
    and the collection is left as it was. *)
Theorem C4_invalid_draft_is_refused :
  forall (oid : ObjectId) (tDefault tSave : Z) (b : Body) (coll : Collection),
    violatedPaths b <> [] ->
    exists errs,
      create oid tDefault tSave b coll = (Throw (ValidationError errs), coll)
      /\ map fst errs = violatedPaths b
      /\ Forall (fun m => m <> EmptyString) (map snd errs)
      /\ createExpense oid tDefault tSave b coll
         = ({| status := 400; success := false; payload := ErrorMessages (map snd errs) |},
            coll).
Proof.
  intros oid tDefault tSave b coll Hviol.
  unfold createExpense. rewrite create_unfold.
  unfold violatedPaths in *.
  pose proof (title_checked b) as Ht. pose proof (amount_checked b) as Ha.
  pose proof (category_checked b) as Hc. pose proof (description_checked b) as Hd.
  destruct (titleViolated b), (amountViolated b), (categoryViolated b),
    (descriptionViolated b);
    repeat match goal with
      | H : exists _, _ |- _ => destruct H as (? & H)
      | H : _ /\ _ |- _ => destruct H as [? ?]
      end;
    repeat match goal with
      | H : validateTitle _ = _ |- _ => rewrite H; clear H
      | H : validateAmount _ = _ |- _ => rewrite H; clear H
      | H : validateCategory _ = _ |- _ => rewrite H; clear H
      | H : validateDescription _ = _ |- _ => rewrite H; clear H
      end;
    try (exfalso; apply Hviol; reflexivity);
    (eexists; split; [reflexivity|]; split; [reflexivity|];
     split; [simpl; repeat constructor; assumption | reflexivity]).
Qed.

Lemma C4_invalid_draft_witness :
  exists errs,
    create freshId 7 8 negativeAmount sampleStore = (Throw (ValidationError errs), sampleStore)
    /\ map fst errs = ["title"; "amount"]
    /\ Forall (fun m => m <> EmptyString) (map snd errs)
    /\ createExpense freshId 7 8 negativeAmount sampleStore
       = ({| status := 400; success := false; payload := ErrorMessages (map snd errs) |},
          sampleStore).
Proof.
  apply (C4_invalid_draft_is_refused freshId 7 8 negativeAmount sampleStore).
  vm_compute. discriminate.
Defined.

(** C4 as stated fails: a description of 501 characters as sent, the last of
    them a space, breaks the limit of 500 on the text as sent, yet the draft
    is accepted and stored, since the limit is checked on the trimmed text. *)
Lemma C4_padded_description_counterexample :
  violatesAsSent paddedDraft
  /\ status (fst (createExpense freshId 7 8 paddedDraft sampleStore)) = 201
  /\ List.length (snd (createExpense freshId 7 8 paddedDraft sampleStore)) = 3%nat.
Proof.
  split.
  - do 5 right. exists paddedText. split; [reflexivity|].
    apply Nat.ltb_lt. vm_compute. reflexivity.
  - split; vm_compute; reflexivity.
Qed.

(** A violation measured after trimming is a violation of the text as sent. *)
Lemma violatedPaths_asSent (b : Body) : violatedPaths b <> [] -> violatesAsSent b.
Proof.
  unfold violatedPaths, violatesAsSent, titleViolated, amountViolated,
    categoryViolated, descriptionViolated.
  intros Hv.
  destruct (b_title b) as [t|]; [|left; reflexivity].
  destruct (String.eqb_spec (Js.trim t) EmptyString) as [Hblank|_].
  { right; left. exists t. split; [reflexivity | left; exact Hblank]. }
  destruct (Nat.ltb_spec 100 (String.length (Js.trim t))) as [Hlong|_].
  { right; left. exists t. split; [reflexivity|]. right.
    pose proof (trim_length t). lia. }
  destruct (b_amount b) as [a|]; [|do 2 right; left; reflexivity].
  destruct (Z.ltb_spec a 0) as [Hneg|_].
  { do 3 right; left. exists a. split; [reflexivity | exact Hneg]. }
  destruct (b_category b) as [c|].
  - destruct (inEnum c) eqn:Hc.
    + destruct (b_description b) as [d|]; [|exfalso; apply Hv; reflexivity].
      destruct (Nat.ltb_spec 500 (String.length (Js.trim d))) as [Hlong|_];
        [|exfalso; apply Hv; reflexivity].
      do 5 right. exists d. split; [reflexivity|]. pose proof (trim_length d). lia.
    + do 4 right; left. exists c. split; [reflexivity|].
      intros Hin. apply inEnum_In in Hin. congruence.
  - destruct (b_description b) as [d|]; [|exfalso; apply Hv; reflexivity].
    destruct (Nat.ltb_spec 500 (String.length (Js.trim d))) as [Hlong|_];
      [|exfalso; apply Hv; reflexivity].
    do 5 right. exists d. split; [reflexivity|]. pose proof (trim_length d). lia.
Qed.

Lemma validDraft_checked (b : Body) :
  validDraft b ->
  exists t a,
    b_title b = Some t /\ b_amount b = Some a
    /\ validateTitle (option_map Js.trim (b_title b)) = Valid (Js.trim t)
    /\ validateAmount (b_amount b) = Valid a
    /\ validateCategory (Some (orElse (b_category b) "Other"))
       = Valid (orElse (b_category b) "Other")
    /\ validateDescription (option_map Js.trim (b_description b))
       = Valid (option_map Js.trim (b_description b)).
Proof.
  intros ((t & Ht & Hblank & Hlen) & (a & Ha & Hpos) & Hcat & Hdesc).
  exists t, a. split; [exact Ht|]. split; [exact Ha|].
  pose proof (title_checked b) as Hvt. pose proof (amount_checked b) as Hva.
  pose proof (category_checked b) as Hvc. pose proof (description_checked b) as Hvd.
  unfold titleViolated, amountViolated, categoryViolated, descriptionViolated in *.
  rewrite Ht in Hvt. rewrite Ha in Hva.
  apply String.eqb_neq in Hblank. rewrite Hblank in Hvt.
  apply Nat.ltb_ge in Hlen. rewrite Hlen in Hvt.
  apply Z.ltb_ge in Hpos. rewrite Hpos in Hva.
  simpl in Hvt, Hva.
  destruct Hvt as (t' & Ht' & Hvt). destruct Hva as (a' & Ha' & Hva).
  injection Ht' as <-. injection Ha' as <-.
  rewrite Ht, Ha in *.
  split; [exact Hvt|]. split; [exact Hva|].
  split.
  - destruct (b_category b) as [c|]; [|exact Hvc].
    assert (Hin : inEnum c = true) by (apply inEnum_In, Hcat; reflexivity).
    rewrite Hin in Hvc. exact Hvc.
  - destruct (b_description b) as [d|]; [|exact Hvd].
    assert (Hshort : (500 <? String.length (Js.trim d))%nat = false).
    { apply Nat.ltb_ge. pose proof (trim_length d). pose proof (Hdesc d eq_refl). lia. }
    rewrite Hshort in Hvd. exact Hvd.
Qed.

Lemma existsb_hasId_iff (oid : ObjectId) (coll : Collection) :
  existsb (hasId oid) coll = false <-> forall x, In x coll -> _id x <> oid.
Proof.
  split; [|apply existsb_fresh].
  intros Hex x Hx Hid.
  assert (Htrue : existsb (hasId oid) coll = true).
  { apply existsb_exists. exists x. split; [exact Hx|].
    unfold hasId. rewrite Hid. apply String.eqb_refl. }
  congruence.
Qed.

(** C5, as amended: for every valid draft, the insert is answered 201
    exactly when no stored record carries the identifier of the new record,
    and is otherwise refused as a duplicate key, answered 500, with nothing
    stored.  When it is answered 201, one record is appended: the draft with
    title and description trimmed of surrounding white space, category
    "Other" when omitted, date the clock reading taken for the default when
    omitted, [createdAt] equal to [updatedAt], under an identifier that no
    record stored before carries and that no other record carries
    afterwards; looking the identifier up afterwards returns that same
    record. *)
Theorem C5_insert_then_find :
  forall (oid : ObjectId) (tDefault tSave : Z) (b : Body) (coll : Collection),
    validDraft b ->
    castObjectId oid = Some oid ->
    let e := storedOfDraft oid tDefault tSave b in
    let answer := createExpense oid tDefault tSave b coll in
    (status (fst answer) = 201 <-> forall x, In x coll -> _id x <> oid)
    /\ (status (fst answer) = 201 ->
        answer = ({| status := 201; success := true; payload := ExpenseData e |},
                  (coll ++ [e])%list)
        /\ getExpense oid (snd answer)
           = {| status := 200; success := true; payload := ExpenseData e |}
        /\ (forall x, In x coll -> _id x <> _id e)
        /\ (forall x, In x (snd answer) -> _id x = _id e -> x = e))
    /\ (status (fst answer) <> 201 ->
        answer = ({| status := 500; success := false;
                     payload := ErrorText (message (DuplicateKeyError oid)) |}, coll)
        /\ exists x, In x coll /\ _id x = oid)
    /\ _id e = oid
    /\ createdAt e = updatedAt e
    /\ (forall t, b_title b = Some t -> title e = Js.trim t)
    /\ (forall a, b_amount b = Some a -> amount e = a)
    /\ (forall c, b_category b = Some c -> category e = c)
    /\ (b_category b = None -> category e = "Other")
    /\ (forall d, b_date b = Some d -> date e = d)
    /\ (b_date b = None -> date e = tDefault)
    /\ description e = option_map Js.trim (b_description b).
Proof.
  intros oid tDefault tSave b coll Hvalid Hcast e answer.
  destruct (validDraft_checked b Hvalid) as (t & a & Ht & Ha & Hvt & Hva & Hvc & Hvd).
  assert (Hanswer : answer
                    = if existsb (hasId oid) coll
                      then ({| status := 500; success := false;
                               payload := ErrorText (message (DuplicateKeyError oid)) |}, coll)
                      else ({| status := 201; success := true; payload := ExpenseData e |},
                            (coll ++ [e])%list)).
  { unfold answer, createExpense. rewrite create_unfold, Hvt, Hva, Hvc, Hvd.
    destruct (existsb (hasId oid) coll); [reflexivity|].
    cbv zeta. unfold e, storedOfDraft. rewrite Ht, Ha. reflexivity. }
  clearbody answer.
  destruct (existsb (hasId oid) coll) eqn:Hex; subst answer; cbn [fst snd status].
  - assert (Hheld : exists x, In x coll /\ _id x = oid).
    { apply existsb_exists in Hex as (x & Hx & Hid). exists x. split; [exact Hx|].
      unfold hasId in Hid. apply String.eqb_eq, Hid. }
    split.
    { split; [discriminate|]. intros Hfresh. destruct Hheld as (x & Hx & Hid).
      exfalso. apply (Hfresh x Hx Hid). }
    split; [discriminate|].
    split; [intros _; split; [reflexivity | exact Hheld]|].
    unfold e, storedOfDraft; simpl.
    repeat match goal with |- _ /\ _ => split end;
      try reflexivity;
      try (intros v Hb; rewrite Hb; reflexivity);
      try (intros Hb; rewrite Hb; reflexivity).
  - assert (Hfresh : forall x, In x coll -> _id x <> oid) by (apply existsb_hasId_iff, Hex).
    split; [split; [intros _; exact Hfresh | reflexivity]|].
    split.
    { intros _. split; [reflexivity|].
      split.
      { unfold getExpense, findById. rewrite Hcast.
        rewrite (find_app_fresh oid coll e Hfresh eq_refl). reflexivity. }
      split; [exact Hfresh|].
      intros x Hx Hid. apply in_app_or in Hx as [Hx | [Hx | []]].
      - exfalso. apply (Hfresh x Hx Hid).
      - symmetry. exact Hx. }
    split; [intros Hne; exfalso; apply Hne; reflexivity|].
    unfold e, storedOfDraft; simpl.
    repeat match goal with |- _ /\ _ => split end;
      try reflexivity;
      try (intros v Hb; rewrite Hb; reflexivity);
      try (intros Hb; rewrite Hb; reflexivity).
Qed.

Lemma C5_insert_then_find_witness :
  createExpense freshId 7 8 lunchDraft sampleStore
    = ({| status := 201; success := true;
          payload := ExpenseData (storedOfDraft freshId 7 8 lunchDraft) |},
       (sampleStore ++ [storedOfDraft freshId 7 8 lunchDraft])%list)
  /\ getExpense freshId (snd (createExpense freshId 7 8 lunchDraft sampleStore))
     = {| status := 200; success := true;
          payload := ExpenseData (storedOfDraft freshId 7 8 lunchDraft) |}
  /\ (forall x, In x sampleStore -> _id x <> freshId).
Proof.
  destruct (C5_insert_then_find freshId 7 8 lunchDraft sampleStore)
    as (_ & Hdone & _).
  - repeat split.
    + exists "Lunch". split; [reflexivity|]. split; [discriminate|].
      apply Nat.leb_le. reflexivity.
    + exists 100. split; [reflexivity | lia].
    + intros c Hc. injection Hc as <-. left. reflexivity.
    + intros d Hd. injection Hd as <-. apply Nat.leb_le. reflexivity.
  - reflexivity.
  - destruct Hdone as (Hcreate & Hfind & Hfresh & _); [reflexivity|].
    split; [exact Hcreate|]. split; [exact Hfind | exact Hfresh].
Defined.

(** C5 as stated fails on two counts.  The draft below is valid, but its
    description is sent with a space on either side and is stored without
    them, so the record found afterwards is not the draft as sent plus
    identifier and timestamps.  And the insert of a valid draft does not
    always succeed: under an identifier that a stored record carries it is
    refused, answered 500, and the collection stays as it was. *)
Lemma C5_insert_counterexample :
  validDraft lunchDraft
  /\ fst (createExpense freshId 7 8 lunchDraft sampleStore)
     = {| status := 201; success := true;
          payload := ExpenseData (storedOfDraft freshId 7 8 lunchDraft) |}
  /\ getExpense freshId (snd (createExpense freshId 7 8 lunchDraft sampleStore))
     <> {| status := 200; success := true;
           payload := ExpenseData (recordOfDraft freshId 7 8 lunchDraft) |}
  /\ status (fst (createExpense lunchId 7 8 lunchDraft sampleStore)) = 500
  /\ snd (createExpense lunchId 7 8 lunchDraft sampleStore) = sampleStore.
Proof.
  split.
  - repeat split.
    + exists "Lunch". split; [reflexivity|]. split; [discriminate|].
      apply Nat.leb_le. reflexivity.
    + exists 100. split; [reflexivity | lia].
    + intros c Hc. injection Hc as <-. left. reflexivity.
    + intros d Hd. injection Hd as <-. apply Nat.leb_le. reflexivity.
  - split; [vm_compute; reflexivity|].
    split; [vm_compute; intros Heq; discriminate Heq|].
    split; vm_compute; reflexivity.
Qed.

(** ** Monthly totals, between the bounds the match really uses *)

(** Whatever the two bounds the host reads from the year are, the monthly
    totals list, by ascending month, the months of the records dated between
    them (both ends included), each once with the sum of the amounts of its
    records; a month without such a record is not listed. *)
Lemma monthly_totals_between_bounds (host : DateHost) (year : Z) (coll : Collection)
  (lo hi : Z) :
  Date_parse (Js.numberToString year ++ "-01-01") = Some lo ->
  Date_parse (Js.numberToString year ++ "-12-31") = Some hi ->
  exists rows,
    getMonthlyExpenses year coll = Some rows
    /\ StronglySorted (fun a b : Z * Z => fst a <= fst b) rows
    /\ NoDup (map fst rows)
    /\ (forall m, In m (map fst rows)
                  <-> exists e, In e coll /\ lo <= date e <= hi /\ Calendar.month (date e) = m)
    /\ (forall m t, In (m, t) rows ->
          t = sumZ (map amount
                 (filter (fun e => Calendar.month (date e) =? m)
                    (filter (fun e => (lo <=? date e) && (date e <=? hi)) coll)))).
Proof.
  intros Hlo Hhi. unfold getMonthlyExpenses. rewrite Hlo, Hhi.
  set (inYear := filter (fun e => (lo <=? date e) && (date e <=? hi)) coll).
  set (groups := groupSum Z.eqb (fun e => Calendar.month (date e)) inYear).
  set (leb := fun a b : Z * Z => fst a <=? fst b).
  pose proof (sortBy_perm leb groups) as Hperm.
  destruct (groupSum_spec Z.eqb Z.eqb_eq (fun e => Calendar.month (date e)) inYear)
    as (Hnd & Hkeys & Htot).
  fold groups in Hnd, Hkeys, Htot.
  eexists. split; [reflexivity|].
  split.
  { apply Sorted_StronglySorted.
    - intros a b c Hab Hbc. lia.
    - apply (Sorted_weaken (lebRel leb)).
      + intros a b Hab. apply Z.leb_le. exact Hab.
      + apply sortBy_sorted. intros a b. unfold leb. rewrite !Z.leb_le. lia. }
  split.
  { eapply Permutation_NoDup; [apply Permutation_sym, Permutation_map, Hperm | exact Hnd]. }
  split.
  { intros m. transitivity (In m (map fst groups)).
    - split; intros Hin.
      + eapply Permutation_in; [apply Permutation_map, Hperm | exact Hin].
      + eapply Permutation_in; [apply Permutation_sym, Permutation_map, Hperm | exact Hin].
    - rewrite Hkeys. unfold inYear. split.
      + intros (e & Hin & Hm). apply filter_In in Hin as [Hin Hrange].
        apply andb_true_iff in Hrange as [H1 H2]. apply Z.leb_le in H1, H2.
        exists e. repeat split; assumption.
      + intros (e & Hin & [H1 H2] & Hm). exists e. split; [|exact Hm].
        apply filter_In. split; [exact Hin|].
        apply andb_true_iff. split; apply Z.leb_le; assumption. }
  intros m t Hin. apply Htot.
  eapply Permutation_in; [apply Hperm | exact Hin].
Qed.

(* ================================================================== *)
(** * Further properties of the controller *)

(** ** What each write does to the collection *)

Lemma create_invalid (oid : ObjectId) (tDefault tSave : Z) (b : Body) (coll : Collection) :
  violatedPaths b <> [] ->
  exists errs,
    createExpense oid tDefault tSave b coll
    = ({| status := 400; success := false; payload := ErrorMessages (map snd errs) |}, coll)
    /\ map fst errs = violatedPaths b.
Proof.
  intros Hviol. unfold createExpense. rewrite create_unfold.
  unfold violatedPaths in *.
  pose proof (title_checked b) as Ht. pose proof (amount_checked b) as Ha.
  pose proof (category_checked b) as Hc. pose proof (description_checked b) as Hd.
  destruct (titleViolated b), (amountViolated b), (categoryViolated b),
    (descriptionViolated b);
    repeat match goal with
      | H : exists _, _ |- _ => destruct H as (? & H)
      | H : _ /\ _ |- _ => destruct H as [? ?]
      end;
    repeat match goal with
      | H : validateTitle _ = _ |- _ => rewrite H; clear H
      | H : validateAmount _ = _ |- _ => rewrite H; clear H
      | H : validateCategory _ = _ |- _ => rewrite H; clear H
      | H : validateDescription _ = _ |- _ => rewrite H; clear H
      end;
    try (exfalso; apply Hviol; reflexivity);
    (eexists; split; reflexivity).
Qed.

Lemma create_outcome (oid : ObjectId) (tDefault tSave : Z) (b : Body) (coll : Collection) :
  (exists e,
     createExpense oid tDefault tSave b coll
       = ({| status := 201; success := true; payload := ExpenseData e |}, (coll ++ [e])%list)
     /\ e = storedOfDraft oid tDefault tSave b
     /\ violatedPaths b = []
     /\ existsb (hasId oid) coll = false)
  \/ (status (fst (createExpense oid tDefault tSave b coll)) = 400
      /\ snd (createExpense oid tDefault tSave b coll) = coll)
  \/ (status (fst (createExpense oid tDefault tSave b coll)) = 500
      /\ snd (createExpense oid tDefault tSave b coll) = coll).
Proof.
  destruct (violatedPaths b) as [|p ps] eqn:Hv.
  - unfold violatedPaths in Hv.
    pose proof (title_checked b) as Ht. pose proof (amount_checked b) as Ha.
    pose proof (category_checked b) as Hc. pose proof (description_checked b) as Hd.
    destruct (titleViolated b); [discriminate Hv|].
    destruct (amountViolated b); [discriminate Hv|].
    destruct (categoryViolated b); [discriminate Hv|].
    destruct (descriptionViolated b); [discriminate Hv|].
    destruct Ht as (t & Ht & Hvt). destruct Ha as (a & Ha & Hva).
    unfold createExpense. rewrite create_unfold, Hvt, Hva, Hc, Hd.
    destruct (existsb (hasId oid) coll) eqn:Hex.
    + right; right. split; reflexivity.
    + left. eexists. split; [reflexivity|].
      split; [|split; reflexivity].
      unfold storedOfDraft. rewrite Ht, Ha. reflexivity.
  - right; left.
    destruct (create_invalid oid tDefault tSave b coll) as (errs & Hr & _).
    + rewrite Hv. discriminate.
    + rewrite Hr. split; reflexivity.
Qed.

Lemma updateErrors_paths (b : Body) :
  map fst (updateErrors b) = updateViolatedPaths b
  /\ Forall (fun m => m <> EmptyString) (map snd (updateErrors b)).
Proof.
  unfold updateErrors, updateViolatedPaths.
  rewrite !map_app, !Forall_app.
  assert (Ht : forall v : option string,
             map fst (match v with
                      | Some s => failure "title" (validateTitle (Some (Js.trim s)))
                      | None => []
                      end)
             = match v with
               | Some t => if String.eqb (Js.trim t) EmptyString
                              || (100 <? String.length (Js.trim t))%nat then ["title"] else []
               | None => []
               end
             /\ Forall (fun m => m <> EmptyString)
                  (map snd (match v with
                            | Some s => failure "title" (validateTitle (Some (Js.trim s)))
                            | None => []
                            end))).
  { intros [t|]; simpl; [|split; [reflexivity | constructor]].
    destruct (String.eqb (Js.trim t) EmptyString); simpl.
    - split; [reflexivity | repeat constructor; discriminate].
    - destruct (100 <? String.length (Js.trim t))%nat; simpl;
        split; try reflexivity; repeat constructor; discriminate. }
  assert (Ha : forall v : option Z,
             map fst (match v with
                      | Some a => failure "amount" (validateAmount (Some a))
                      | None => []
                      end)
             = match v with
               | Some a => if a <? 0 then ["amount"] else []
               | None => []
               end
             /\ Forall (fun m => m <> EmptyString)
                  (map snd (match v with
                            | Some a => failure "amount" (validateAmount (Some a))
                            | None => []
                            end))).
  { intros [a|]; simpl; [|split; [reflexivity | constructor]].
    destruct (a <? 0); simpl; split; try reflexivity; repeat constructor; discriminate. }
  assert (Hc : forall v : option string,
             map fst (match v with
                      | Some c => failure "category" (validateCategory (Some c))
                      | None => []
                      end)
             = match v with
               | Some c => if inEnum c then [] else ["category"]
               | None => []
               end
             /\ Forall (fun m => m <> EmptyString)
                  (map snd (match v with
                            | Some c => failure "category" (validateCategory (Some c))
                            | None => []
                            end))).
  { intros [c|]; simpl; [|split; [reflexivity | constructor]].
    destruct (inEnum c) eqn:Hin.
    - rewrite (inEnum_nonempty c Hin). simpl. split; [reflexivity | constructor].
    - destruct (String.eqb c EmptyString); simpl;
        split; try reflexivity; repeat constructor; discriminate. }
  assert (Hd : forall v : option string,
             map fst (match v with
                      | Some s => failure "description"
                                    (validateDescription (Some (Js.trim s)))
                      | None => []
                      end)
             = match v with
               | Some d => if (500 <? String.length (Js.trim d))%nat
                           then ["description"] else []
               | None => []
               end
             /\ Forall (fun m => m <> EmptyString)
                  (map snd (match v with
                            | Some s => failure "description"
                                          (validateDescription (Some (Js.trim s)))
                            | None => []
                            end))).
  { intros [d|]; simpl; [|split; [reflexivity | constructor]].
    destruct (500 <? String.length (Js.trim d))%nat; simpl;
      split; try reflexivity; repeat constructor; discriminate. }
  destruct (Ht (b_title b)) as [-> Ht']. destruct (Ha (b_amount b)) as [-> Ha'].
  destruct (Hc (b_category b)) as [-> Hc']. destruct (Hd (b_description b)) as [-> Hd'].
  repeat split; assumption.
Qed.

Lemma updateErrors_nil (b : Body) : updateErrors b = [] <-> updateViolatedPaths b = [].
Proof.
  destruct (updateErrors_paths b) as [Hp _]. rewrite <- Hp. split.
  - intros ->. reflexivity.
  - destruct (updateErrors b); [reflexivity | discriminate].
Qed.

(** The four ways an update request can go. *)
Lemma update_outcome (now : Z) (id : string) (b : Body) (coll : Collection) :
  (castObjectId id = None
   /\ updateExpense now id b coll = (errorHandler (CastError "ObjectId" id "_id"), coll))
  \/ (exists oid, castObjectId id = Some oid /\ updateViolatedPaths b <> []
       /\ updateExpense now id b coll
          = ({| status := 400; success := false;
                payload := ErrorMessages (map snd (updateErrors b)) |}, coll))
  \/ (exists oid, castObjectId id = Some oid /\ updateViolatedPaths b = []
       /\ find (hasId oid) coll = None
       /\ updateExpense now id b coll = (notFound, coll))
  \/ (exists oid e, castObjectId id = Some oid /\ updateViolatedPaths b = []
       /\ find (hasId oid) coll = Some e
       /\ updateExpense now id b coll
          = ({| status := 200; success := true; payload := ExpenseData (applyUpdate b now e) |},
             updateOne oid (applyUpdate b now) coll)).
Proof.
  unfold updateExpense, findByIdAndUpdate.
  destruct (castObjectId id) as [oid|]; [|left; split; reflexivity].
  right. destruct (updateErrors b) as [|p ps] eqn:He.
  - right. apply updateErrors_nil in He.
    destruct (find (hasId oid) coll) as [e|] eqn:Hf.
    + right. exists oid, e. repeat split; assumption.
    + left. exists oid. repeat split; assumption.
  - left. exists oid. split; [reflexivity|]. split; [|reflexivity].
    intros Hnil. apply updateErrors_nil in Hnil. congruence.
Qed.

(** The three ways a delete request can go. *)
Lemma delete_outcome (id : string) (coll : Collection) :
  (castObjectId id = None
   /\ deleteExpense id coll = (errorHandler (CastError "ObjectId" id "_id"), coll))
  \/ (exists oid, castObjectId id = Some oid /\ find (hasId oid) coll = None
       /\ deleteExpense id coll = (notFound, coll))
  \/ (exists oid e, castObjectId id = Some oid /\ find (hasId oid) coll = Some e
       /\ deleteExpense id coll
          = ({| status := 200; success := true; payload := EmptyData |}, deleteOne oid coll)).
Proof.
  unfold deleteExpense, findByIdAndDelete.
  destruct (castObjectId id) as [oid|]; [|left; split; reflexivity].
  right. destruct (find (hasId oid) coll) as [e|] eqn:Hf.
  - right. exists oid, e. split; [reflexivity|]. split; [exact Hf | reflexivity].
  - left. exists oid. split; [reflexivity|]. split; [exact Hf | reflexivity].
Qed.

Lemma errorHandler_cast_status (kind value path : string) :
  status (errorHandler (CastError kind value path)) = 500.
Proof. reflexivity. Qed.

Lemma updateOne_ids (oid : ObjectId) (f : Expense -> Expense) (coll : Collection) :
  (forall x, _id (f x) = _id x) -> map _id (updateOne oid f coll) = map _id coll.
Proof.
  intros Hf. induction coll as [|x r IH]; simpl; [reflexivity|].
  destruct (hasId oid x); simpl; [rewrite Hf; reflexivity | rewrite IH; reflexivity].
Qed.

Lemma deleteOne_in (oid : ObjectId) (coll : Collection) (x : Expense) :
  In x (deleteOne oid coll) -> In x coll.
Proof.
  induction coll as [|y r IH]; simpl; [tauto|].
  destruct (hasId oid y); simpl; [tauto|]. intros [H | H]; [left; exact H | right; apply IH, H].
Qed.

Lemma deleteOne_unique (oid : ObjectId) (coll : Collection) :
  uniqueIds coll -> uniqueIds (deleteOne oid coll).
Proof.
  unfold uniqueIds. induction coll as [|y r IH]; simpl; intros Hnd; [exact Hnd|].
  inversion Hnd as [|? ? Hnotin Hr]; subst.
  destruct (hasId oid y); simpl; [exact Hr|].
  constructor; [|apply IH, Hr].
  intros Hin. apply Hnotin. apply in_map_iff in Hin as (x & Hx & Hin).
  apply in_map_iff. exists x. split; [exact Hx | apply (deleteOne_in oid), Hin].
Qed.

Lemma deleteOne_gone (oid : ObjectId) (coll : Collection) :
  uniqueIds coll -> find (hasId oid) (deleteOne oid coll) = None.
Proof.
  unfold uniqueIds. induction coll as [|y r IH]; simpl; intros Hnd; [reflexivity|].
  inversion Hnd as [|? ? Hnotin Hr]; subst.
  destruct (hasId oid y) eqn:Hy; simpl.
  - apply find_none_iff. intros x Hx Heq. apply Hnotin.
    unfold hasId in Hy. apply String.eqb_eq in Hy. rewrite Hy, <- Heq.
    apply in_map, Hx.
  - rewrite Hy. apply IH, Hr.
Qed.

Lemma deleteOne_perm (oid : ObjectId) (coll : Collection) (e : Expense) :
  find (hasId oid) coll = Some e -> Permutation coll (e :: deleteOne oid coll).
Proof.
  induction coll as [|y r IH]; simpl; [discriminate|].
  destruct (hasId oid y).
  - intros Heq. injection Heq as ->. apply Permutation_refl.
  - intros Hf. eapply Permutation_trans; [apply perm_skip, IH, Hf | apply perm_swap].
Qed.

Lemma existsb_hasId_false (oid : ObjectId) (coll : Collection) :
  existsb (hasId oid) coll = false -> ~ In oid (map _id coll).
Proof.
  intros Hex Hin. apply in_map_iff in Hin as (x & Hx & Hin).
  assert (existsb (hasId oid) coll = true); [|congruence].
  apply existsb_exists. exists x. split; [exact Hin|].
  unfold hasId. rewrite Hx. apply String.eqb_refl.
Qed.

Lemma create_keeps_unique (oid : ObjectId) (tDefault tSave : Z) (b : Body) (coll : Collection) :
  uniqueIds coll -> uniqueIds (snd (createExpense oid tDefault tSave b coll)).
Proof.
  intros Hu.
  destruct (create_outcome oid tDefault tSave b coll)
    as [(e & Hr & He & _ & Hex) | [[_ Hr] | [_ Hr]]]; rewrite Hr; try exact Hu.
  simpl. unfold uniqueIds. rewrite map_app. simpl.
  apply NoDup_app; [exact Hu | repeat constructor; intros [] |].
  intros x Hx [Hin | []]. subst x.
  rewrite He in Hx. simpl in Hx. apply (existsb_hasId_false oid coll Hex Hx).
Qed.

Lemma update_keeps_unique (now : Z) (id : string) (b : Body) (coll : Collection) :
  uniqueIds coll -> uniqueIds (snd (updateExpense now id b coll)).
Proof.
  intros Hu.
  destruct (update_outcome now id b coll)
    as [[_ Hr] | [(oid & _ & _ & Hr) | [(oid & _ & _ & _ & Hr) | (oid & e & _ & _ & _ & Hr)]]];
    rewrite Hr; try exact Hu.
  simpl. unfold uniqueIds. rewrite updateOne_ids; [exact Hu | reflexivity].
Qed.

Lemma delete_keeps_unique (id : string) (coll : Collection) :
  uniqueIds coll -> uniqueIds (snd (deleteExpense id coll)).
Proof.
  intros Hu.
  destruct (delete_outcome id coll) as [[_ Hr] | [(oid & _ & _ & Hr) | (oid & e & _ & _ & Hr)]];
    rewrite Hr; try exact Hu.
  simpl. apply deleteOne_unique, Hu.
Qed.

(** X1: the controller keeps identifiers unique.  If no two stored records
    share an identifier, that is still so after any create, update or delete
    request, whatever its arguments and outcome. *)
Theorem X1_writes_keep_ids_unique :
  forall (coll : Collection),
    uniqueIds coll ->
    (forall oid tDefault tSave b, uniqueIds (snd (createExpense oid tDefault tSave b coll)))
    /\ (forall now id b, uniqueIds (snd (updateExpense now id b coll)))
    /\ (forall id, uniqueIds (snd (deleteExpense id coll))).
Proof.
  intros coll Hu. split; [|split].
  - intros oid tDefault tSave b. apply create_keeps_unique, Hu.
  - intros now id b. apply update_keeps_unique, Hu.
  - intros id. apply delete_keeps_unique, Hu.
Qed.

Lemma X1_writes_keep_ids_unique_witness :
  uniqueIds (snd (createExpense freshId 7 8 lunchDraft sampleStore))
  /\ uniqueIds (snd (updateExpense 9 busId tramUpdate sampleStore))
  /\ uniqueIds (snd (deleteExpense lunchId sampleStore)).
Proof.
  destruct (X1_writes_keep_ids_unique sampleStore) as (Hc & Hu & Hd).
  - unfold uniqueIds. simpl. repeat constructor; simpl; intuition discriminate.
  - split; [apply Hc|]. split; [apply Hu | apply Hd].
Defined.

(** X2: only a successful request writes.  A create that is not answered
    201, an update or a delete that is not answered 200, leaves the
    collection exactly as it was; a create answered 201 appends exactly the
    record it returns, and an update never changes the number of records. *)
Theorem X2_only_success_writes :
  forall (coll : Collection),
    (forall oid tDefault tSave b,
        status (fst (createExpense oid tDefault tSave b coll)) <> 201 ->
        snd (createExpense oid tDefault tSave b coll) = coll)
    /\ (forall oid tDefault tSave b,
          status (fst (createExpense oid tDefault tSave b coll)) = 201 ->
          exists e,
            createExpense oid tDefault tSave b coll
            = ({| status := 201; success := true; payload := ExpenseData e |},
               (coll ++ [e])%list))
    /\ (forall now id b,
          status (fst (updateExpense now id b coll)) <> 200 ->
          snd (updateExpense now id b coll) = coll)
    /\ (forall now id b,
          List.length (snd (updateExpense now id b coll)) = List.length coll)
    /\ (forall id,
          status (fst (deleteExpense id coll)) <> 200 ->
          snd (deleteExpense id coll) = coll).
Proof.
  intros coll. repeat split.
  - intros oid tDefault tSave b Hne.
    destruct (create_outcome oid tDefault tSave b coll)
      as [(e & Hr & _) | [[_ Hr] | [_ Hr]]]; try exact Hr.
    rewrite Hr in Hne. exfalso. apply Hne. reflexivity.
  - intros oid tDefault tSave b Hst.
    destruct (create_outcome oid tDefault tSave b coll)
      as [(e & Hr & _) | [[Hs _] | [Hs _]]].
    + exists e. exact Hr.
    + rewrite Hs in Hst. discriminate.
    + rewrite Hs in Hst. discriminate.
  - intros now id b Hne.
    destruct (update_outcome now id b coll)
      as [[_ Hr] | [(oid & _ & _ & Hr) | [(oid & _ & _ & _ & Hr) | (oid & e & _ & _ & _ & Hr)]]];
      rewrite Hr in *; try reflexivity.
    exfalso. apply Hne. reflexivity.
  - intros now id b.
    destruct (update_outcome now id b coll)
      as [[_ Hr] | [(oid & _ & _ & Hr) | [(oid & _ & _ & _ & Hr) | (oid & e & _ & _ & _ & Hr)]]];
      rewrite Hr; try reflexivity.
    apply updateOne_length.
  - intros id Hne.
    destruct (delete_outcome id coll) as [[_ Hr] | [(oid & _ & _ & Hr) | (oid & e & _ & _ & Hr)]];
      rewrite Hr in *; try reflexivity.
    exfalso. apply Hne. reflexivity.
Qed.

(** ** Delete *)

(** X3: deleting an existing record, in a collection with unique
    identifiers, is answered 200 with an empty object and removes that
    record and no other; afterwards a lookup of the same id is answered 404,
    and so is a second delete, which changes nothing. *)
Theorem X3_delete_then_gone :
  forall (id : string) (oid : ObjectId) (coll : Collection) (e : Expense),
    castObjectId id = Some oid ->
    uniqueIds coll ->
    find (hasId oid) coll = Some e ->
    exists coll',
      deleteExpense id coll = ({| status := 200; success := true; payload := EmptyData |}, coll')
      /\ Permutation coll (e :: coll')
      /\ S (List.length coll') = List.length coll
      /\ getExpense id coll' = notFound
      /\ deleteExpense id coll' = (notFound, coll').
Proof.
  intros id oid coll e Hcast Hu Hf.
  exists (deleteOne oid coll).
  pose proof (deleteOne_gone oid coll Hu) as Hgone.
  pose proof (deleteOne_perm oid coll e Hf) as Hperm.
  split.
  { unfold deleteExpense, findByIdAndDelete. rewrite Hcast, Hf. reflexivity. }
  split; [exact Hperm|].
  split; [apply Permutation_length in Hperm; simpl in Hperm; symmetry; exact Hperm|].
  split.
  - unfold getExpense, findById. rewrite Hcast, Hgone. reflexivity.
  - unfold deleteExpense, findByIdAndDelete. rewrite Hcast, Hgone. reflexivity.
Qed.

Lemma X3_delete_then_gone_witness :
  exists coll',
    deleteExpense lunchId sampleStore
      = ({| status := 200; success := true; payload := EmptyData |}, coll')
    /\ Permutation sampleStore (lunch :: coll')
    /\ S (List.length coll') = List.length sampleStore
    /\ getExpense lunchId coll' = notFound
    /\ deleteExpense lunchId coll' = (notFound, coll').
Proof.
  apply (X3_delete_then_gone lunchId lunchId sampleStore lunch).
  - reflexivity.
  - unfold uniqueIds. simpl. repeat constructor; simpl; intuition discriminate.
  - reflexivity.
Defined.

(** ** Update *)

Lemma applyUpdate_idem (b : Body) (now : Z) (e : Expense) :
  applyUpdate b now (applyUpdate b now e) = applyUpdate b now e.
Proof.
  unfold applyUpdate; simpl.
  destruct (b_title b), (b_amount b), (b_category b), (b_date b), (b_description b);
    reflexivity.
Qed.

Lemma updateOne_idem (oid : ObjectId) (f : Expense -> Expense) (coll : Collection) :
  (forall x, _id (f x) = _id x) -> (forall x, f (f x) = f x) ->
  updateOne oid f (updateOne oid f coll) = updateOne oid f coll.
Proof.
  intros Hid Hff. induction coll as [|y r IH]; simpl; [reflexivity|].
  destruct (hasId oid y) eqn:Hy; simpl.
  - unfold hasId in *. rewrite Hid, Hy, Hff. reflexivity.
  - rewrite Hy, IH. reflexivity.
Qed.

(** X4: after a successful update, a lookup of the same id returns exactly
    the record the update answered with; the identifiers in the collection
    and their order are unchanged; and sending the same update again at the
    same clock reading changes nothing more. *)
Theorem X4_update_then_find :
  forall (now : Z) (id : string) (oid : ObjectId) (b : Body) (coll : Collection) (e : Expense),
    castObjectId id = Some oid ->
    updateErrors b = [] ->
    find (hasId oid) coll = Some e ->
    exists e' coll',
      updateExpense now id b coll
        = ({| status := 200; success := true; payload := ExpenseData e' |}, coll')
      /\ getExpense id coll' = {| status := 200; success := true; payload := ExpenseData e' |}
      /\ map _id coll' = map _id coll
      /\ updateExpense now id b coll'
         = ({| status := 200; success := true; payload := ExpenseData e' |}, coll').
Proof.
  intros now id oid b coll e Hcast Hvalid Hf.
  exists (applyUpdate b now e), (updateOne oid (applyUpdate b now) coll).
  assert (Hf' : find (hasId oid) (updateOne oid (applyUpdate b now) coll)
                = Some (applyUpdate b now e)).
  { apply updateOne_find; [reflexivity | exact Hf]. }
  split.
  { unfold updateExpense, findByIdAndUpdate. rewrite Hcast, Hvalid, Hf. reflexivity. }
  split.
  { unfold getExpense, findById. rewrite Hcast, Hf'. reflexivity. }
  split; [apply updateOne_ids; reflexivity|].
  unfold updateExpense, findByIdAndUpdate. rewrite Hcast, Hvalid, Hf'.
  rewrite applyUpdate_idem, updateOne_idem;
    [reflexivity | reflexivity | intros x; apply applyUpdate_idem].
Qed.

Lemma X4_update_then_find_witness :
  exists e' coll',
    updateExpense 9 busId tramUpdate sampleStore
      = ({| status := 200; success := true; payload := ExpenseData e' |}, coll')
    /\ getExpense busId coll' = {| status := 200; success := true; payload := ExpenseData e' |}
    /\ map _id coll' = map _id sampleStore
    /\ updateExpense 9 busId tramUpdate coll'
       = ({| status := 200; success := true; payload := ExpenseData e' |}, coll').
Proof.
  apply (X4_update_then_find 9 busId busId tramUpdate sampleStore bus); reflexivity.
Defined.

(** X5: an update that supplies a value its validators refuse (a blank or
    over-long title, a negative amount, a category outside the enumeration,
    an over-long description, lengths taken after trimming) is answered 400
    with one non-empty message for each refused path and changes nothing,
    whether or not a record with the id exists. *)
Theorem X5_invalid_update_is_refused :
  forall (now : Z) (id : string) (oid : ObjectId) (b : Body) (coll : Collection),
    castObjectId id = Some oid ->
    updateViolatedPaths b <> [] ->
    exists errs,
      updateExpense now id b coll
        = ({| status := 400; success := false; payload := ErrorMessages (map snd errs) |},
           coll)
      /\ map fst errs = updateViolatedPaths b
      /\ Forall (fun m => m <> EmptyString) (map snd errs).
Proof.
  intros now id oid b coll Hcast Hviol.
  exists (updateErrors b). destruct (updateErrors_paths b) as [Hp Hm].
  split; [|split; assumption].
  destruct (update_outcome now id b coll)
    as [[Hc _] | [(o & _ & _ & Hr) | [(o & _ & Hn & _) | (o & e & _ & Hn & _)]]];
    [congruence | exact Hr | contradiction | contradiction].
Qed.

Lemma X5_invalid_update_witness :
  exists errs,
    updateExpense 9 busId negativeAmount sampleStore
      = ({| status := 400; success := false; payload := ErrorMessages (map snd errs) |},
         sampleStore)
    /\ map fst errs = ["amount"]
    /\ Forall (fun m => m <> EmptyString) (map snd errs).
Proof.
  apply (X5_invalid_update_is_refused 9 busId busId negativeAmount sampleStore).
  - reflexivity.
  - vm_compute. discriminate.
Defined.

(** ** Stored records stay within the schema *)

Lemma violatedPaths_nil (b : Body) :
  violatedPaths b = [] ->
  titleViolated b = false /\ amountViolated b = false
  /\ categoryViolated b = false /\ descriptionViolated b = false.
Proof.
  unfold violatedPaths.
  destruct (titleViolated b), (amountViolated b), (categoryViolated b),
    (descriptionViolated b); simpl; intros H; try discriminate H; repeat split.
Qed.

Lemma stored_valid (oid : ObjectId) (tDefault tSave : Z) (b : Body) :
  violatedPaths b = [] -> validRecord (storedOfDraft oid tDefault tSave b).
Proof.
  intros Hv. apply violatedPaths_nil in Hv as (Ht & Ha & Hc & Hd).
  unfold titleViolated, amountViolated, categoryViolated, descriptionViolated in *.
  unfold validRecord, storedOfDraft; simpl.
  destruct (b_title b) as [t|]; [|discriminate Ht].
  apply orb_false_iff in Ht as [Hblank Hlong].
  destruct (b_amount b) as [a|]; [|discriminate Ha].
  simpl. repeat split.
  - apply String.eqb_neq, Hblank.
  - apply Nat.ltb_ge, Hlong.
  - apply Z.ltb_ge, Ha.
  - destruct (b_category b) as [c|]; simpl.
    + apply inEnum_In. apply negb_false_iff, Hc.
    + apply inEnum_In. reflexivity.
  - intros d Heq. destruct (b_description b) as [d'|]; simpl in Heq; [|discriminate].
    injection Heq as <-. apply Nat.ltb_ge, Hd.
Qed.

Lemma applyUpdate_valid (b : Body) (now : Z) (e : Expense) :
  updateViolatedPaths b = [] -> validRecord e -> validRecord (applyUpdate b now e).
Proof.
  unfold updateViolatedPaths, validRecord, applyUpdate; simpl.
  intros Hv (Ht & Hl & Ha & Hc & Hd).
  apply app_eq_nil in Hv as [Hvt Hv]. apply app_eq_nil in Hv as [Hva Hv].
  apply app_eq_nil in Hv as [Hvc Hvd].
  repeat split.
  - destruct (b_title b) as [t|]; simpl; [|exact Ht].
    destruct (String.eqb_spec (Js.trim t) EmptyString) as [_|Hne]; [discriminate Hvt | exact Hne].
  - destruct (b_title b) as [t|]; simpl; [|exact Hl].
    destruct (String.eqb (Js.trim t) EmptyString); [discriminate Hvt|]. simpl in Hvt.
    destruct (Nat.ltb_spec 100 (String.length (Js.trim t))); [discriminate Hvt | assumption].
  - destruct (b_amount b) as [a|]; simpl; [|exact Ha].
    destruct (Z.ltb_spec a 0); [discriminate Hva | assumption].
  - destruct (b_category b) as [c|]; simpl; [|exact Hc].
    destruct (inEnum c) eqn:Hin; [apply inEnum_In, Hin | discriminate Hvc].
  - intros d Heq. destruct (b_description b) as [d'|]; [|apply Hd, Heq].
    injection Heq as <-.
    destruct (Nat.ltb_spec 500 (String.length (Js.trim d'))); [discriminate Hvd | assumption].
Qed.

Lemma updateOne_Forall (P : Expense -> Prop) (oid : ObjectId) (f : Expense -> Expense)
  (coll : Collection) :
  (forall x, P x -> P (f x)) -> Forall P coll -> Forall P (updateOne oid f coll).
Proof.
  intros Hf. induction 1 as [|y r Hy Hr IH]; simpl; [constructor|].
  destruct (hasId oid y); constructor; auto.
Qed.

(** X6: every stored record stays within the schema.  If each record of the
    collection has a non-empty title of at most 100 characters, an amount of
    at least 0, a category of the enumeration and a description of at most
    500 characters, the same holds after any create, update or delete
    request, whatever its arguments and outcome. *)
Theorem X6_writes_keep_records_valid :
  forall (coll : Collection),
    Forall validRecord coll ->
    (forall oid tDefault tSave b,
        Forall validRecord (snd (createExpense oid tDefault tSave b coll)))
    /\ (forall now id b, Forall validRecord (snd (updateExpense now id b coll)))
    /\ (forall id, Forall validRecord (snd (deleteExpense id coll))).
Proof.
  intros coll Hall. split; [|split].
  - intros oid tDefault tSave b.
    destruct (create_outcome oid tDefault tSave b coll)
      as [(e & Hr & He & Hv & _) | [[_ Hr] | [_ Hr]]]; rewrite Hr; try exact Hall.
    simpl. apply Forall_app. split; [exact Hall|].
    constructor; [|constructor]. rewrite He. apply stored_valid, Hv.
  - intros now id b.
    destruct (update_outcome now id b coll)
      as [[_ Hr] | [(oid & _ & _ & Hr) | [(oid & _ & _ & _ & Hr) | (oid & e & _ & Hv & _ & Hr)]]];
      rewrite Hr; try exact Hall.
    simpl. apply updateOne_Forall; [|exact Hall].
    intros x Hx. apply applyUpdate_valid; assumption.
  - intros id.
    destruct (delete_outcome id coll) as [[_ Hr] | [(oid & _ & _ & Hr) | (oid & e & _ & _ & Hr)]];
      rewrite Hr; try exact Hall.
    simpl. apply Forall_forall. intros x Hx.
    apply (proj1 (Forall_forall _ _) Hall), (deleteOne_in oid), Hx.
Qed.

Lemma X6_writes_keep_records_valid_witness :
  Forall validRecord (snd (createExpense freshId 7 8 lunchDraft sampleStore))
  /\ Forall validRecord (snd (updateExpense 9 busId tramUpdate sampleStore))
  /\ Forall validRecord (snd (deleteExpense lunchId sampleStore)).
Proof.
  destruct (X6_writes_keep_records_valid sampleStore) as (Hc & Hu & Hd).
  - apply Forall_cons; [|apply Forall_cons; [|apply Forall_nil]];
      (split; [discriminate|]; split; [apply Nat.leb_le; reflexivity|];
       split; [vm_compute; discriminate|]; split; [apply inEnum_In; reflexivity|];
       intros d Hd; try discriminate Hd; injection Hd as <-; apply Nat.leb_le; reflexivity).
  - split; [apply Hc|]. split; [apply Hu | apply Hd].
Defined.

(** ** Create, then list *)

(** X7: once a create has been answered 201, the unfiltered listing is
    answered 200 with one record more than were stored before: the new
    record and the records stored before, each as often as it was stored. *)
Theorem X7_created_record_is_listed :
  forall (host : DateHost) (store : Store) (oid : ObjectId) (tDefault tSave : Z) (b : Body)
         (coll coll' : Collection) (e : Expense),
    createExpense oid tDefault tSave b coll
      = ({| status := 201; success := true; payload := ExpenseData e |}, coll') ->
    exists total data,
      getExpenses noQuery coll'
        = {| status := 200; success := true;
             payload := ExpenseList (S (List.length coll)) total data |}
      /\ In e data
      /\ Permutation data (e :: coll).
Proof.
  intros host store oid tDefault tSave b coll coll' e Hcreate.
  assert (Hcoll : coll' = (coll ++ [e])%list).
  { destruct (create_outcome oid tDefault tSave b coll)
      as [(e0 & Hr & _) | [[Hs _] | [Hs _]]]; rewrite Hcreate in *.
    - injection Hr as -> ->. reflexivity.
    - discriminate Hs.
    - discriminate Hs. }
  subst coll'.
  pose proof (getExpenses_default_sort noQuery (coll ++ [e])%list) as Hresp.
  cbv zeta in Hresp. simpl suppliedText in Hresp. simpl suppliedDate in Hresp.
  rewrite filter_all in Hresp by reflexivity.
  set (data := sortBy (docLeb ("date", Desc)) (coll ++ [e])%list) in *.
  assert (Hperm : Permutation data (e :: coll)).
  { eapply Permutation_trans; [apply sortBy_perm|].
    apply Permutation_sym, Permutation_cons_append. }
  exists (sumZ (map amount data)), data. split.
  - rewrite Hresp; try reflexivity; try (intros s Hs; discriminate).
    rewrite (Permutation_length Hperm). reflexivity.
  - split; [|exact Hperm].
    eapply Permutation_in; [apply Permutation_sym, Hperm | left; reflexivity].
Qed.

Lemma X7_created_record_is_listed_witness :
  exists total data,
    getExpenses noQuery (sampleStore ++ [storedOfDraft freshId 7 8 lunchDraft])%list
      = {| status := 200; success := true; payload := ExpenseList 3 total data |}
    /\ In (storedOfDraft freshId 7 8 lunchDraft) data
    /\ Permutation data (storedOfDraft freshId 7 8 lunchDraft :: sampleStore).
Proof.
  apply (X7_created_record_is_listed isoHost dottedStore freshId 7 8 lunchDraft sampleStore
           (sampleStore ++ [storedOfDraft freshId 7 8 lunchDraft])%list
           (storedOfDraft freshId 7 8 lunchDraft)).
  vm_compute. reflexivity.
Defined.

(** ** Statistics *)

Lemma civil_ranges (z : Z) :
  let '(y, m, d) := Calendar.civilFromDays z in 1 <= m <= 12 /\ 1 <= d <= 31.
Proof.
  unfold Calendar.civilFromDays. cbv zeta.
  set (z' := z + 719468).
  set (doe := z' - z' / 146097 * 146097).
  assert (Hdoe : 0 <= doe <= 146096) by (subst doe; Z.div_mod_to_equations; lia).
  clearbody doe. clear z'.
  set (yoe := (doe - doe / 1460 + doe / 36524 - doe / 146096) / 365).
  set (doy := doe - (365 * yoe + yoe / 4 - yoe / 100)).
  assert (Hdoy : 0 <= doy <= 365) by (subst doy yoe; Z.div_mod_to_equations; lia).
  clearbody doy.
  destruct (Z.ltb_spec ((5 * doy + 2) / 153) 10); Z.div_mod_to_equations; lia.
Qed.

Lemma month_range (t : Z) : 1 <= Calendar.month t <= 12.
Proof.
  unfold Calendar.month. pose proof (civil_ranges (t / Calendar.msPerDay)) as H.
  destruct (Calendar.civilFromDays (t / Calendar.msPerDay)) as [[y m] d]. tauto.
Qed.

Lemma civil_round_trip (z : Z) :
  let '(y, m, d) := Calendar.civilFromDays z in Calendar.daysFromCivil y m d = z.
Proof.
  unfold Calendar.civilFromDays, Calendar.daysFromCivil. cbv zeta.
  set (z' := z + 719468).
  set (era := z' / 146097).
  set (doe := z' - era * 146097).
  assert (Hdoe : 0 <= doe <= 146096) by (subst doe era; Z.div_mod_to_equations; lia).
  assert (Hz : z = era * 146097 + doe - 719468) by (subst doe z'; lia).
  clearbody doe. clearbody era. clear z'. subst z.
  set (yoe := (doe - doe / 1460 + doe / 36524 - doe / 146096) / 365).
  set (doy := doe - (365 * yoe + yoe / 4 - yoe / 100)).
  assert (Hy : 0 <= yoe <= 399 /\ 0 <= doy <= 365)
    by (subst doy yoe; Z.div_mod_to_equations; lia).
  assert (Hsplit : doe = yoe * 365 + yoe / 4 - yoe / 100 + doy) by (subst doy; lia).
  clearbody doy. clearbody yoe.
  set (mp := (5 * doy + 2) / 153).
  assert (Hmp : 0 <= mp <= 11) by (subst mp; Z.div_mod_to_equations; lia).
  assert (Hera : (yoe + era * 400) / 400 = era) by (Z.div_mod_to_equations; lia).
  destruct (Z.ltb_spec mp 10) as [Hlt|Hge].
  - destruct (Z.leb_spec (mp + 3) 2); [lia|].
    destruct (Z.ltb_spec 2 (mp + 3)); [|lia].
    replace (mp + 3 - 3) with mp by lia.
    rewrite Hera. subst mp. Z.div_mod_to_equations. lia.
  - destruct (Z.leb_spec (mp - 9) 2); [|lia].
    destruct (Z.ltb_spec 2 (mp - 9)); [lia|].
    replace (yoe + era * 400 + 1 - 1) with (yoe + era * 400) by lia.
    replace (mp - 9 + 9) with mp by lia.
    rewrite Hera. subst mp. Z.div_mod_to_equations. lia.
Qed.

Lemma arrayGet_monthNames (m : Z) :
  1 <= m <= 12 -> exists label, arrayGet monthNames (m - 1) = Some label.
Proof.
  intros Hm.
  assert (Hcases : m = 1 \/ m = 2 \/ m = 3 \/ m = 4 \/ m = 5 \/ m = 6 \/ m = 7 \/ m = 8
                   \/ m = 9 \/ m = 10 \/ m = 11 \/ m = 12) by lia.
  repeat (destruct Hcases as [-> | Hcases]; [eexists; reflexivity|]).
  subst m. eexists. reflexivity.
Qed.

(** X8: the monthly totals only ever name months 1 to 12, each at most once
    and in increasing order, so every row has a label in the dashboard's bar
    chart: [monthNames[month._id - 1]] is never undefined. *)
Theorem X8_monthly_rows_have_labels :
  forall (host : DateHost) (year : Z) (coll : Collection) (rows : list (Z * Z)),
    getMonthlyExpenses year coll = Some rows ->
    Forall (fun row => 1 <= fst row <= 12) rows
    /\ NoDup (map fst rows)
    /\ (List.length rows <= 12)%nat
    /\ exists labels, barChartLabels rows = map Some labels.
Proof.
  intros host year coll rows Hrows.
  unfold getMonthlyExpenses in Hrows.
  destruct (Date_parse (Js.numberToString year ++ "-01-01")) as [lo|] eqn:Hlo; [|discriminate].
  destruct (Date_parse (Js.numberToString year ++ "-12-31")) as [hi|] eqn:Hhi; [|discriminate].
  destruct (monthly_totals_between_bounds host year coll lo hi Hlo Hhi)
    as (rows' & Hr & _ & Hnd & Hkeys & _).
  unfold getMonthlyExpenses in Hr. rewrite Hlo, Hhi in Hr. rewrite Hr in Hrows.
  injection Hrows as <-.
  assert (Hrange : Forall (fun row : Z * Z => 1 <= fst row <= 12) rows').
  { apply Forall_forall. intros [m t] Hin. simpl.
    destruct (proj1 (Hkeys m)) as (e & _ & _ & <-); [|apply month_range].
    apply in_map_iff. exists (m, t). split; [reflexivity | exact Hin]. }
  split; [exact Hrange|]. split; [exact Hnd|]. split.
  - rewrite <- (length_map fst).
    change 12%nat with (List.length (map Z.of_nat (seq 1 12))).
    apply NoDup_incl_length; [exact Hnd|].
    intros m Hm. apply in_map_iff in Hm as ([m' t] & <- & Hin).
    apply (proj1 (Forall_forall _ _) Hrange) in Hin. simpl in Hin. simpl fst.
    apply in_map_iff. exists (Z.to_nat m'). split; [lia|].
    apply in_seq. lia.
  - unfold barChartLabels. clear Hr Hnd Hkeys.
    induction Hrange as [|[m t] r Hm _ IH]; simpl.
    + exists []. reflexivity.
    + destruct IH as (labels & ->).
      destruct (arrayGet_monthNames m Hm) as (label & ->).
      exists (label :: labels). reflexivity.
Qed.

Lemma X8_monthly_rows_witness :
  Forall (fun row => 1 <= fst row <= 12) [(3, 100); (4, 50)]
  /\ NoDup (map fst [(3, 100); (4, 50)])
  /\ (List.length [(3, 100); (4, 50)] <= 12)%nat
  /\ exists labels, barChartLabels [(3, 100); (4, 50)] = map Some labels.
Proof.
  apply (X8_monthly_rows_have_labels isoHost 2024 sampleStore).
  vm_compute. reflexivity.
Defined.

(** X9: the statistics answer is 200 and puts the three aggregates side by
    side.  The breakdown by category has one row for each category that some
    record has, so no more rows than there are records, by total with the
    largest first; the breakdown by month has one row for each month in
    which a record of the year's window falls, by ascending month.  An empty
    collection gives a total of 0 and two empty breakdowns; a collection that
    is not empty gives at least one category. *)
Theorem X9_statistics :
  forall (host : DateHost) (currentYear : Z) (coll : Collection) (lo hi : Z),
    Date_parse (Js.numberToString currentYear ++ "-01-01") = Some lo ->
    Date_parse (Js.numberToString currentYear ++ "-12-31") = Some hi ->
    exists total byCategory byMonth,
      getExpenseStats currentYear coll
        = Some {| status := 200; success := true;
                  payload := StatsData total byCategory byMonth |}
      /\ NoDup (map fst byCategory)
      /\ (forall c, In c (map fst byCategory) <-> exists e, In e coll /\ category e = c)
      /\ (List.length byCategory <= List.length coll)%nat
      /\ StronglySorted (fun a b : string * Z => snd b <= snd a) byCategory
      /\ NoDup (map fst byMonth)
      /\ (forall m, In m (map fst byMonth)
                    <-> exists e, In e coll /\ lo <= date e <= hi
                                  /\ Calendar.month (date e) = m)
      /\ StronglySorted (fun a b : Z * Z => fst a <= fst b) byMonth
      /\ (coll = [] -> total = 0 /\ byCategory = [] /\ byMonth = [])
      /\ (coll <> [] -> byCategory <> []).
Proof.
  intros host currentYear coll lo hi Hlo Hhi.
  destruct (monthly_totals_between_bounds host currentYear coll lo hi Hlo Hhi)
    as (rows & Hrows & Hmsorted & Hmnd & Hmkeys & _).
  set (groups := groupSum String.eqb category coll).
  set (leb := fun a b : string * Z => snd b <=? snd a).
  pose proof (sortBy_perm leb groups) as Hperm.
  destruct (groupSum_spec String.eqb String.eqb_eq category coll) as (Hnd & Hkeys & _).
  fold groups in Hnd, Hkeys.
  assert (Hcnd : NoDup (map fst (getTotalByCategory coll))).
  { eapply Permutation_NoDup; [apply Permutation_sym, Permutation_map, Hperm | exact Hnd]. }
  assert (Hckeys : forall c, In c (map fst (getTotalByCategory coll))
                             <-> exists e, In e coll /\ category e = c).
  { intros c. rewrite <- Hkeys. split; intros Hin.
    - eapply Permutation_in; [apply Permutation_map, Hperm | exact Hin].
    - eapply Permutation_in; [apply Permutation_sym, Permutation_map, Hperm | exact Hin]. }
  exists (grandTotal coll), (getTotalByCategory coll), rows.
  split; [unfold getExpenseStats; rewrite Hrows; reflexivity|].
  split; [exact Hcnd|]. split; [exact Hckeys|].
  split.
  { rewrite <- (length_map fst), <- (length_map category coll).
    apply NoDup_incl_length; [exact Hcnd|].
    intros c Hc. apply Hckeys in Hc as (e & He & <-). apply in_map, He. }
  split.
  { apply Sorted_StronglySorted.
    - intros a b c Hab Hbc. lia.
    - apply (Sorted_weaken (fun a b => leb a b = true)).
      + intros a b Hab. apply Z.leb_le. exact Hab.
      + apply sortBy_sorted. intros a b. unfold leb. rewrite !Z.leb_le. lia. }
  split; [exact Hmnd|]. split; [exact Hmkeys|]. split; [exact Hmsorted|].
  split.
  { intros ->. split; [reflexivity|]. split; [reflexivity|].
    unfold getMonthlyExpenses in Hrows. rewrite Hlo, Hhi in Hrows.
    injection Hrows as <-. reflexivity. }
  intros Hne Hnil. destruct coll as [|e r]; [apply Hne; reflexivity|].
  assert (Hin : In (category e) (map fst (getTotalByCategory (e :: r)))).
  { apply Hckeys. exists e. split; [left; reflexivity | reflexivity]. }
  rewrite Hnil in Hin. exact Hin.
Qed.

Lemma X9_statistics_witness :
  exists total byCategory byMonth,
    getExpenseStats 2024 sampleStore
      = Some {| status := 200; success := true;
                payload := StatsData total byCategory byMonth |}
    /\ NoDup (map fst byCategory)
    /\ (List.length byCategory <= List.length sampleStore)%nat
    /\ (sampleStore <> [] -> byCategory <> []).
Proof.
  destruct (X9_statistics isoHost 2024 sampleStore
              (Calendar.utc 2024 1 1 0 0 0 0) (Calendar.utc 2024 12 31 0 0 0 0))
    as (total & byCategory & byMonth & Hresp & Hnd & _ & Hlen & _ & _ & _ & _ & _ & Hne).
  - vm_compute. reflexivity.
  - vm_compute. reflexivity.
  - exists total, byCategory, byMonth.
    split; [exact Hresp|]. split; [exact Hnd|]. split; [exact Hlen | exact Hne].
Defined.

(** ** Listing: a date that cannot be read, and what a filter leaves out *)

(** X10: when a start or end date is supplied and the host reads no valid
    date from it, the listing is not answered with records: the query is
    refused, and the answer is the generic failure with status 500. *)
Theorem X10_unreadable_date_fails :
  forall (host : DateHost) (store : Store) (r : ReqQuery) (coll : Collection) (text : string),
    (suppliedText (q_startDate r) = Some text \/ suppliedText (q_endDate r) = Some text) ->
    Date_parse text = None ->
    status (getExpenses r coll) = 500
    /\ success (getExpenses r coll) = false
    /\ exists msg, payload (getExpenses r coll) = ErrorText msg.
Proof.
  intros host store r coll text Hsup Hbad.
  unfold getExpenses, findSorted.
  rewrite buildQuery_gte, buildQuery_lte, !dateBound_supplied.
  destruct Hsup as [Hs | He].
  - rewrite Hs. simpl. rewrite Hbad. simpl. repeat split. eexists. reflexivity.
  - rewrite He. simpl. rewrite Hbad. simpl.
    destruct (castBound (option_map Date_parse (suppliedText (q_startDate r)))) as [lo|err] eqn:Hc.
    + simpl. repeat split. eexists. reflexivity.
    + assert (err = CastError "date" "Invalid Date" "date") as ->.
      { destruct (suppliedText (q_startDate r)) as [s|]; simpl in Hc; [|discriminate].
        destruct (Date_parse s); [discriminate | injection Hc as <-; reflexivity]. }
      simpl. repeat split. eexists. reflexivity.
Qed.

Lemma X10_unreadable_date_witness :
  status (getExpenses (mkQuery None (Some "yesterday") None None) sampleStore) = 500
  /\ success (getExpenses (mkQuery None (Some "yesterday") None None) sampleStore) = false
  /\ exists msg,
       payload (getExpenses (mkQuery None (Some "yesterday") None None) sampleStore)
       = ErrorText msg.
Proof.
  apply (X10_unreadable_date_fails isoHost dottedStore
           (mkQuery None (Some "yesterday") None None) sampleStore "yesterday").
  - left. reflexivity.
  - reflexivity.
Defined.

(** X11: a filter only ever leaves records out.  Whenever a request is
    answered with a listing (its dates readable, its sort key accepted), the
    records listed are stored records, no more of them than are stored, and
    each of them is also listed by the request without any parameter, which
    lists as many records as are stored. *)
Theorem X11_filter_only_narrows :
  forall (host : DateHost) (store : Store) (r : ReqQuery) (coll : Collection),
    readable (q_startDate r) -> readable (q_endDate r) ->
    acceptsSortKey (fst (buildSort (q_sort r))) = true ->
    exists count total data,
      getExpenses r coll
        = {| status := 200; success := true; payload := ExpenseList count total data |}
      /\ incl data coll
      /\ (count <= List.length coll)%nat
      /\ exists totalOfAll all,
           getExpenses noQuery coll
             = {| status := 200; success := true;
                  payload := ExpenseList (List.length coll) totalOfAll all |}
           /\ incl data all.
Proof.
  intros host store r coll Hs He Hkey.
  pose proof (getExpenses_readable r coll Hs He Hkey) as Hresp. cbv zeta in Hresp.
  set (keep := matches (suppliedText (q_category r)) (suppliedDate (q_startDate r))
                 (suppliedDate (q_endDate r))) in *.
  set (data := sortBy (docLeb (buildSort (q_sort r))) (filter keep coll)) in *.
  assert (Hperm : Permutation data (filter keep coll)) by apply sortBy_perm.
  assert (Hincl : incl data coll).
  { intros e Hin. apply (Permutation_in _ Hperm) in Hin. apply filter_In in Hin. tauto. }
  exists (List.length data), (sumZ (map amount data)), data.
  split; [exact Hresp|]. split; [exact Hincl|].
  split.
  { rewrite (Permutation_length Hperm). apply filter_length_le. }
  pose proof (getExpenses_default_sort noQuery coll) as Hall. cbv zeta in Hall.
  simpl suppliedText in Hall. simpl suppliedDate in Hall.
  rewrite filter_all in Hall by reflexivity.
  set (all := sortBy (docLeb ("date", Desc)) coll) in *.
  assert (Hpall : Permutation all coll) by apply sortBy_perm.
  exists (sumZ (map amount all)), all. split.
  - rewrite Hall; try reflexivity; try (intros s Hs'; discriminate).
    rewrite (Permutation_length Hpall). reflexivity.
  - intros e Hin. apply Hincl in Hin.
    apply (Permutation_in _ (Permutation_sym Hpall)), Hin.
Qed.

Lemma X11_filter_only_narrows_witness :
  exists count total data,
    getExpenses foodSince2024 sampleStore
      = {| status := 200; success := true; payload := ExpenseList count total data |}
    /\ incl data sampleStore
    /\ (count <= List.length sampleStore)%nat.
Proof.
  destruct (X11_filter_only_narrows isoHost dottedStore foodSince2024 sampleStore)
    as (count & total & data & Hresp & Hincl & Hcount & _).
  - intros s Hs. injection Hs as <-. vm_compute. discriminate.
  - intros s Hs. discriminate.
  - reflexivity.
  - exists count, total, data. repeat split; assumption.
Defined.

(* ================================================================== *)
(** * Properties of the client *)

(** ** The pages of the expense list *)

Lemma pageOf_window {A : Type} (p : nat) (l : list A) :
  (1 <= p)%nat -> pageOf p l = firstn itemsPerPage (skipn ((p - 1) * itemsPerPage) l).
Proof.
  intros Hp. unfold pageOf, slice, itemsPerPage. f_equal; [lia|]. f_equal. lia.
Qed.

Lemma firstn_add {A : Type} (a b : nat) (l : list A) :
  firstn (a + b) l = (firstn a l ++ firstn b (skipn a l))%list.
Proof.
  revert l. induction a as [|a IH]; intros l; simpl; [reflexivity|].
  destruct l as [|x r]; simpl.
  - rewrite firstn_nil. reflexivity.
  - rewrite IH. reflexivity.
Qed.

Lemma pages_concat {A : Type} (k : nat) (l : list A) :
  List.concat (map (fun p => pageOf p l) (seq 1 k)) = firstn (k * itemsPerPage) l.
Proof.
  induction k as [|k IH]; [reflexivity|].
  rewrite seq_S, map_app, concat_app, IH. cbn [map List.concat].
  rewrite app_nil_r, pageOf_window by lia.
  replace (1 + k - 1)%nat with k by lia.
  replace (S k * itemsPerPage)%nat with (k * itemsPerPage + itemsPerPage)%nat by lia.
  symmetry. apply firstn_add.
Qed.

Lemma totalPages_bounds {A : Type} (l : list A) :
  (List.length l <= totalPages l * itemsPerPage
   /\ totalPages l * itemsPerPage < List.length l + itemsPerPage)%nat.
Proof.
  unfold totalPages, itemsPerPage. simpl Nat.sub.
  pose proof (Nat.div_mod_eq (List.length l + 9) 10).
  pose proof (Nat.mod_upper_bound (List.length l + 9) 10). lia.
Qed.

(** X12: the pages of the expense list cut the sorted list into consecutive
    runs: pages 1 to [totalPages], put end to end, give back the whole list,
    so every expense is on exactly one page; no page shows more than 10
    rows; each of those pages shows at least one row and every later page
    none; an empty list has no page. *)
Theorem X12_pages_partition_the_list :
  forall (s : ListState) (expenses : list Expense),
    List.concat (map (fun p => currentExpenses (handlePageChange p s) expenses)
              (seq 1 (totalPages expenses)))
      = sortedExpenses s expenses
    /\ (forall p, (List.length (currentExpenses (handlePageChange p s) expenses) <= 10)%nat)
    /\ (forall p, (1 <= p <= totalPages expenses)%nat ->
                  currentExpenses (handlePageChange p s) expenses <> [])
    /\ (forall p, (totalPages expenses < p)%nat ->
                  currentExpenses (handlePageChange p s) expenses = [])
    /\ (totalPages expenses = 0%nat <-> expenses = []).
Proof.
  intros s expenses.
  assert (Hlen : List.length (sortedExpenses s expenses) = List.length expenses).
  { apply Permutation_length, sortBy_perm. }
  assert (Hsame : forall p, currentExpenses (handlePageChange p s) expenses
                            = pageOf p (sortedExpenses s expenses)) by reflexivity.
  pose proof (totalPages_bounds expenses) as [Hlo Hhi]. unfold itemsPerPage in *.
  split.
  { erewrite map_ext by (intros p; apply Hsame).
    rewrite pages_concat. apply firstn_all2. rewrite Hlen. exact Hlo. }
  split.
  { intros p. rewrite Hsame. unfold pageOf, slice, itemsPerPage.
    etransitivity; [apply firstn_le_length | lia]. }
  split.
  { intros p [Hp1 Hp2] Hnil. rewrite Hsame, pageOf_window in Hnil by exact Hp1.
    apply (f_equal (@List.length Expense)) in Hnil.
    rewrite length_firstn, length_skipn, Hlen in Hnil. unfold itemsPerPage in *.
    change (List.length (@nil Expense)) with 0%nat in Hnil. lia. }
  split.
  { intros p Hp. rewrite Hsame, pageOf_window by lia.
    rewrite skipn_all2; [apply firstn_nil|]. rewrite Hlen. unfold itemsPerPage. lia. }
  split.
  - intros Hz. rewrite Hz in Hlo. destruct expenses; [reflexivity | simpl in Hlo; lia].
  - intros ->. reflexivity.
Qed.

(** ** The order of the expense list *)

Lemma clientLeb_total (s : ListState) (a b : Expense) :
  clientLeb s a b = true \/ clientLeb s b a = true.
Proof. unfold clientLeb. destruct (sortDirection s); apply bsonLeb_total. Qed.

(** X13: the list shows exactly the expenses it was given, each as often as
    given, ordered by the chosen column in the chosen direction (texts
    compared without regard to case); a first click on another column orders
    ascending by it, a second click descending, and a third click brings
    back the state of the first. *)
Theorem X13_list_is_sorted_by_the_chosen_column :
  forall (s : ListState) (field : Column) (expenses : list Expense),
    Permutation (sortedExpenses s expenses) expenses
    /\ Sorted (lebRel (clientLeb s)) (sortedExpenses s expenses)
    /\ (sortField s <> field ->
        Sorted (fun a b => bsonLeb (clientKey field a) (clientKey field b) = true)
          (sortedExpenses (handleSort field s) expenses)
        /\ Sorted (fun a b => bsonLeb (clientKey field b) (clientKey field a) = true)
             (sortedExpenses (handleSort field (handleSort field s)) expenses))
    /\ handleSort field (handleSort field (handleSort field s)) = handleSort field s.
Proof.
  intros s field expenses.
  assert (Hsorted : forall st, Sorted (lebRel (clientLeb st)) (sortedExpenses st expenses)).
  { intros st. apply sortBy_sorted, clientLeb_total. }
  split; [apply sortBy_perm|]. split; [apply Hsorted|]. split.
  - intros Hne.
    assert (Hfirst : handleSort field s
                     = {| sortField := field; sortDirection := Asc;
                          currentPage := currentPage s |}).
    { unfold handleSort. destruct (sortField s), field; simpl; congruence. }
    assert (Hsecond : handleSort field (handleSort field s)
                      = {| sortField := field; sortDirection := Desc;
                           currentPage := currentPage s |}).
    { rewrite Hfirst. unfold handleSort. simpl. destruct field; reflexivity. }
    split.
    + pose proof (Hsorted (handleSort field s)) as H. rewrite Hfirst in H |- *. exact H.
    + pose proof (Hsorted (handleSort field (handleSort field s))) as H.
      rewrite Hsecond in H |- *. exact H.
  - unfold handleSort.
    destruct s as [f d p]; simpl. destruct f, field, d; reflexivity.
Qed.

(** ** The list held by the expense context *)

Lemma filter_respects_perm {A : Type} (keep : A -> bool) (xs ys : list A)
  (Hp : Permutation xs ys) : Permutation (filter keep xs) (filter keep ys).
Proof.
  induction Hp as [|x xs ys _ IH|x y xs|xs ys zs _ IH1 _ IH2]; simpl.
  - constructor.
  - destruct (keep x); [apply perm_skip, IH | exact IH].
  - destruct (keep x), (keep y); try apply Permutation_refl. apply perm_swap.
  - eapply Permutation_trans; eassumption.
Qed.

Lemma filter_all_in {A : Type} (f : A -> bool) (l : list A) :
  (forall x, In x l -> f x = true) -> filter f l = l.
Proof.
  induction l as [|x r IH]; intros Hf; simpl; [reflexivity|].
  rewrite (Hf x (or_introl eq_refl)), IH; [reflexivity|].
  intros y Hy. apply Hf. right. exact Hy.
Qed.

Lemma filter_others_deleteOne (oid : ObjectId) (coll : Collection) :
  uniqueIds coll ->
  filter (fun expense => negb (String.eqb (_id expense) oid)) coll = deleteOne oid coll.
Proof.
  unfold uniqueIds. induction coll as [|y r IH]; simpl; intros Hnd; [reflexivity|].
  inversion Hnd as [|? ? Hnotin Hr]; subst. unfold hasId at 1.
  destruct (String.eqb_spec (_id y) oid) as [Heq|Hne]; simpl.
  - apply filter_all_in. intros x Hx.
    destruct (String.eqb_spec (_id x) oid) as [Hx'|_]; [|reflexivity].
    exfalso. apply Hnotin. rewrite Heq, <- Hx'. apply in_map, Hx.
  - rewrite (IH Hr). reflexivity.
Qed.

Lemma map_replace_updateOne (oid : ObjectId) (f : Expense -> Expense) (coll : Collection)
  (e : Expense) :
  uniqueIds coll -> find (hasId oid) coll = Some e ->
  map (fun expense => if String.eqb (_id expense) oid then f e else expense) coll
  = updateOne oid f coll.
Proof.
  unfold uniqueIds. induction coll as [|y r IH]; simpl; intros Hnd Hf; [discriminate|].
  inversion Hnd as [|? ? Hnotin Hr]; subst. unfold hasId in *.
  destruct (String.eqb_spec (_id y) oid) as [Heq|Hne].
  - injection Hf as ->. f_equal.
    rewrite <- (map_id r) at 2. apply map_ext_in. intros x Hx.
    destruct (String.eqb_spec (_id x) oid) as [Hx'|_]; [|reflexivity].
    exfalso. apply Hnotin. rewrite Heq, <- Hx'. apply in_map, Hx.
  - f_equal. apply IH; assumption.
Qed.

Lemma updateOne_first (oid : ObjectId) (f : Expense -> Expense) (coll : Collection)
  (e : Expense) :
  find (hasId oid) coll = Some e ->
  updateOne oid f coll = updateOne oid (fun _ => f e) coll.
Proof.
  induction coll as [|y r IH]; simpl; [discriminate|].
  destruct (hasId oid y).
  - intros Heq. injection Heq as ->. reflexivity.
  - intros Hf. rewrite (IH Hf). reflexivity.
Qed.

Lemma buildSort_kept (sort : option string) :
  buildSort (if Js.truthy sort then sort else None) = buildSort sort.
Proof.
  unfold buildSort. destruct sort as [s|]; [|reflexivity].
  destruct (Js.truthy (Some s)) eqn:Ht; [rewrite Ht|]; reflexivity.
Qed.

(** X14: the list the expense context holds keeps in step with the server.
    Fetching with no category and no dates makes it hold the stored records,
    each once, when the store accepts the sort key of the request (as it
    does when no sort is asked for); when the store refuses the key the
    request fails and the context is left as it was.  Once the list is in
    step, adding an expense, and updating or deleting one under its
    identifier as the server prints it, leave it holding exactly the stored
    records again, whether the server accepted the request or not. *)
Theorem X14_context_keeps_in_step :
  forall (host : DateHost) (store : Store) (w : World),
    uniqueIds (server w) ->
    (forall sort,
        (acceptsSortKey (fst (buildSort sort)) = true ->
         inStep (fetchExpenses (mkQuery (Some EmptyString) (Some EmptyString)
                                  (Some EmptyString) sort) w))
        /\ (acceptsSortKey (fst (buildSort sort)) = false ->
            fetchExpenses (mkQuery (Some EmptyString) (Some EmptyString)
                             (Some EmptyString) sort) w = w))
    /\ inStep (fetchExpenses noQuery w)
    /\ (inStep w ->
        (forall oid tDefault tSave expenseData,
            inStep (addExpense oid tDefault tSave expenseData w))
        /\ (forall now id expenseData,
              castObjectId id = Some id ->
              inStep (updateExpenseInContext now id expenseData w))
        /\ (forall id,
              castObjectId id = Some id -> inStep (deleteExpenseInContext id w))).
Proof.
  intros host store w Hu.
  assert (Hlist : forall sort,
             acceptsSortKey (fst (buildSort sort)) = true ->
             exists count total data,
               getExpenses (queryOfFilters (mkQuery None None None sort)) (server w)
               = {| status := 200; success := true;
                    payload := ExpenseList count total data |}
               /\ Permutation data (server w)).
  { intros sort Hkey.
    pose proof (getExpenses_readable (queryOfFilters (mkQuery None None None sort))
                  (server w)) as Hresp.
    cbv zeta in Hresp. simpl suppliedText in Hresp. simpl suppliedDate in Hresp.
    rewrite filter_all in Hresp by reflexivity.
    eexists _, _, _. split.
    - apply Hresp; try (intros s Hs; discriminate).
      cbn [queryOfFilters mkQuery q_sort]. rewrite buildSort_kept. exact Hkey.
    - apply sortBy_perm. }
  assert (Hfetch : forall sort,
             acceptsSortKey (fst (buildSort sort)) = true ->
             inStep (fetchExpenses (mkQuery None None None sort) w)).
  { intros sort Hkey. destruct (Hlist sort Hkey) as (count & total & data & Hresp & Hp).
    unfold fetchExpenses, inStep. rewrite Hresp. simpl. split; assumption. }
  split; [|split].
  - intros sort. split.
    + exact (Hfetch sort).
    + intros Hkey.
      change (fetchExpenses (mkQuery None None None sort) w = w).
      unfold fetchExpenses.
      rewrite (getExpenses_refused (queryOfFilters (mkQuery None None None sort)) (server w));
        try (intros s Hs; discriminate).
      * destruct w; reflexivity.
      * cbn [queryOfFilters mkQuery q_sort]. rewrite buildSort_kept. exact Hkey.
  - apply (Hfetch None). apply accepts_date.
  - intros [_ Hperm]. split; [|split].
    + intros oid tDefault tSave expenseData. unfold addExpense, inStep.
      pose proof (create_keeps_unique oid tDefault tSave expenseData (server w) Hu) as Hu'.
      destruct (create_outcome oid tDefault tSave expenseData (server w))
        as [(e & Hr & _) | [[Hs Hc] | [Hs Hc]]].
      * rewrite Hr in *. simpl in *. split; [exact Hu'|].
        eapply Permutation_trans; [apply perm_skip, Hperm | apply Permutation_cons_append].
      * destruct (createExpense oid tDefault tSave expenseData (server w)) as [resp coll].
        simpl in *. subst coll. split; [exact Hu|].
        unfold resolved. rewrite Hs. simpl. exact Hperm.
      * destruct (createExpense oid tDefault tSave expenseData (server w)) as [resp coll].
        simpl in *. subst coll. split; [exact Hu|].
        unfold resolved. rewrite Hs. simpl. exact Hperm.
    + intros now id expenseData Hid. unfold updateExpenseInContext, inStep.
      pose proof (update_keeps_unique now id expenseData (server w) Hu) as Hu'.
      destruct (update_outcome now id expenseData (server w))
        as [[Hc _] | [(oid & _ & _ & Hr) | [(oid & _ & _ & _ & Hr)
                                           | (oid & e & Hc & _ & Hf & Hr)]]].
      * congruence.
      * rewrite Hr. simpl. split; [exact Hu | exact Hperm].
      * rewrite Hr. simpl. split; [exact Hu | exact Hperm].
      * rewrite Hr in *. simpl in *. split; [exact Hu'|].
        assert (oid = id) by congruence. subst oid.
        rewrite <- (map_replace_updateOne id (applyUpdate expenseData now) (server w) e Hu Hf).
        apply Permutation_map, Hperm.
    + intros id Hid. unfold deleteExpenseInContext, inStep.
      pose proof (delete_keeps_unique id (server w) Hu) as Hu'.
      destruct (delete_outcome id (server w))
        as [[Hc _] | [(oid & _ & _ & Hr) | (oid & e & Hc & Hf & Hr)]].
      * congruence.
      * rewrite Hr. simpl. split; [exact Hu | exact Hperm].
      * rewrite Hr in *. simpl in *. split; [exact Hu'|].
        assert (oid = id) by congruence. subst oid.
        rewrite <- (filter_others_deleteOne id (server w) Hu).
        apply filter_respects_perm, Hperm.
Qed.

Lemma X14_context_keeps_in_step_witness :
  inStep (fetchExpenses noQuery {| server := sampleStore; expenses := [] |})
  /\ fetchExpenses noFieldDesc {| server := sampleStore; expenses := [lunch] |}
     = {| server := sampleStore; expenses := [lunch] |}
  /\ inStep (deleteExpenseInContext lunchId
               {| server := sampleStore; expenses := [bus; lunch] |}).
Proof.
  assert (Hu : uniqueIds sampleStore).
  { unfold uniqueIds. simpl. repeat constructor; simpl; intuition discriminate. }
  split; [|split].
  - destruct (X14_context_keeps_in_step isoHost dottedStore
                {| server := sampleStore; expenses := [] |} Hu)
      as (_ & Hfetch & _).
    exact Hfetch.
  - reflexivity.
  - destruct (X14_context_keeps_in_step isoHost dottedStore
                {| server := sampleStore; expenses := [bus; lunch] |} Hu) as (_ & _ & Hstep).
    destruct Hstep as (_ & _ & Hdelete).
    + split; [exact Hu | apply perm_swap].
    + apply Hdelete. reflexivity.
Defined.

(** ** The forms against the schema *)

Lemma validateForm_nil `{NumberHost} (formData : FormData) :
  validateForm formData = [] ->
  Js.trim (fd_title formData) <> EmptyString
  /\ (String.length (fd_title formData) <= 100)%nat
  /\ isFalsy (fd_amount formData) = false
  /\ (exists n, toNumber (fd_amount formData) = Some n /\ 0 < n)
  /\ fd_category formData <> EmptyString
  /\ fd_date formData <> EmptyString
  /\ (String.length (fd_description formData) <= 500)%nat.
Proof.
  unfold validateForm. intros Hv.
  apply app_eq_nil in Hv as [Ht Hv]. apply app_eq_nil in Hv as [Ha Hv].
  apply app_eq_nil in Hv as [Hc Hv]. apply app_eq_nil in Hv as [Hd Hdesc].
  destruct (String.eqb_spec (Js.trim (fd_title formData)) EmptyString) as [|Hblank];
    [discriminate Ht|].
  destruct (Nat.ltb_spec 100 (String.length (fd_title formData))) as [|Hlen];
    [discriminate Ht|].
  destruct (isFalsy (fd_amount formData)); [discriminate Ha|].
  destruct (toNumber (fd_amount formData)) as [n|]; [|discriminate Ha].
  destruct (Z.leb_spec n 0) as [|Hpos]; [discriminate Ha|].
  destruct (String.eqb_spec (fd_category formData) EmptyString) as [|Hcat]; [discriminate Hc|].
  destruct (String.eqb_spec (fd_date formData) EmptyString) as [|Hdate]; [discriminate Hd|].
  repeat split; try assumption.
  - exists n. split; [reflexivity | exact Hpos].
  - destruct (String.eqb_spec (fd_description formData) EmptyString) as [->|_];
      [simpl; lia|].
    simpl in Hdesc.
    destruct (Nat.ltb_spec 500 (String.length (fd_description formData)));
      [discriminate Hdesc | assumption].
Qed.

(** X15: what a form lets through, the schema accepts, up to the category
    and the date.  When [validateForm] finds no error, [handleSubmit] hands
    on the form's texts with the amount as a number above 0, and in the body
    made of them the only path the schema can still refuse is a category
    outside the enumeration. *)
Theorem X15_form_is_stricter_than_schema :
  forall (numbers : NumberHost) (formData : FormData) (d : Z),
    validateForm formData = [] ->
    exists n,
      handleSubmit formData
        = Some {| s_title := fd_title formData; s_amount := Some n;
                  s_category := fd_category formData; s_date := fd_date formData;
                  s_description := fd_description formData |}
      /\ 0 < n
      /\ violatedPaths {| b_title := Some (fd_title formData); b_amount := Some n;
                          b_category := Some (fd_category formData); b_date := Some d;
                          b_description := Some (fd_description formData) |}
         = (if inEnum (fd_category formData) then [] else ["category"]).
Proof.
  intros numbers formData d Hv.
  destruct (validateForm_nil formData Hv)
    as (Hblank & Hlen & _ & (n & Hn & Hpos) & _ & _ & Hdesc).
  exists n. split; [|split; [exact Hpos|]].
  - unfold handleSubmit. rewrite Hv, Hn. reflexivity.
  - unfold violatedPaths, titleViolated, amountViolated, categoryViolated,
      descriptionViolated; simpl.
    apply String.eqb_neq in Hblank. rewrite Hblank.
    assert ((100 <? String.length (Js.trim (fd_title formData)))%nat = false) as ->.
    { apply Nat.ltb_ge. pose proof (trim_length (fd_title formData)). lia. }
    assert ((n <? 0) = false) as -> by (apply Z.ltb_ge; lia).
    assert ((500 <? String.length (Js.trim (fd_description formData)))%nat = false) as ->.
    { apply Nat.ltb_ge. pose proof (trim_length (fd_description formData)). lia. }
    simpl. destruct (inEnum (fd_category formData)); reflexivity.
Qed.

Lemma X15_form_is_stricter_witness :
  exists n,
    handleSubmit {| fd_title := "Lunch"; fd_amount := Text "250"; fd_category := "Food";
                    fd_date := "2024-03-05"; fd_description := EmptyString |}
      = Some {| s_title := "Lunch"; s_amount := Some n; s_category := "Food";
                s_date := "2024-03-05"; s_description := EmptyString |}
    /\ 0 < n
    /\ violatedPaths {| b_title := Some "Lunch"; b_amount := Some n;
                        b_category := Some "Food"; b_date := Some 0;
                        b_description := Some EmptyString |}
       = [].
Proof.
  apply (X15_form_is_stricter_than_schema decimalHost
           {| fd_title := "Lunch"; fd_amount := Text "250"; fd_category := "Food";
              fd_date := "2024-03-05"; fd_description := EmptyString |} 0).
  reflexivity.
Defined.

Lemma amount_error_iff `{NumberHost} (formData : FormData) :
  (exists msg, In ("amount", msg) (validateForm formData))
  <-> (isFalsy (fd_amount formData) = true
       \/ match toNumber (fd_amount formData) with
          | Some n => n <= 0
          | None => True
          end).
Proof.
  unfold validateForm. split.
  - intros (msg & Hin).
    apply in_app_or in Hin as [Hin | Hin].
    { destruct (String.eqb (Js.trim (fd_title formData)) EmptyString);
        [|destruct (100 <? String.length (fd_title formData))%nat];
        simpl in Hin; intuition discriminate. }
    apply in_app_or in Hin as [Hin | Hin].
    { destruct (isFalsy (fd_amount formData)); [left; reflexivity|]. right.
      destruct (toNumber (fd_amount formData)) as [n|]; [|exact I].
      destruct (Z.leb_spec n 0); [assumption | destruct Hin]. }
    apply in_app_or in Hin as [Hin | Hin].
    { destruct (String.eqb (fd_category formData) EmptyString);
        simpl in Hin; intuition discriminate. }
    apply in_app_or in Hin as [Hin | Hin].
    { destruct (String.eqb (fd_date formData) EmptyString);
        simpl in Hin; intuition discriminate. }
    destruct (negb (String.eqb (fd_description formData) EmptyString)
              && (500 <? String.length (fd_description formData))%nat)%bool;
      simpl in Hin; intuition discriminate.
  - intros Hbad.
    assert (Hpart : exists msg,
               In ("amount", msg)
                 (if isFalsy (fd_amount formData)
                  then [("amount", "Amount is required")]
                  else match toNumber (fd_amount formData) with
                       | None => [("amount", "Amount must be a positive number")]
                       | Some n => if n <=? 0
                                   then [("amount", "Amount must be a positive number")]
                                   else []
                       end)).
    { destruct (isFalsy (fd_amount formData)).
      - eexists. left. reflexivity.
      - destruct Hbad as [Hf | Hn]; [discriminate Hf|].
        destruct (toNumber (fd_amount formData)) as [n|].
        + destruct (Z.leb_spec n 0); [eexists; left; reflexivity | lia].
        + eexists. left. reflexivity. }
    destruct Hpart as (msg & Hin). exists msg.
    apply in_or_app. right. apply in_or_app. left. exact Hin.
Qed.

(** X16: the amount 0 is stored by the API but cannot be entered.  The
    schema accepts an amount exactly when it is at least 0; a form shows no
    amount error exactly when the amount is above 0, so with an amount of 0
    or less nothing is submitted. *)
Theorem X16_forms_refuse_amount_zero :
  forall (numbers : NumberHost) (formData : FormData) (n : Z),
    Number_parse EmptyString = Some 0 ->
    toNumber (fd_amount formData) = Some n ->
    (validateAmount (Some n) = Valid n <-> 0 <= n)
    /\ ((forall msg, ~ In ("amount", msg) (validateForm formData)) <-> 0 < n)
    /\ (n <= 0 -> handleSubmit formData = None)
    /\ validateAmount (Some 0) = Valid 0.
Proof.
  intros numbers formData n Hempty Hn.
  assert (Hfalsy : isFalsy (fd_amount formData) = true -> n = 0).
  { destruct (fd_amount formData) as [s|m]; simpl in *.
    - intros Hs. apply String.eqb_eq in Hs. subst s. congruence.
    - intros Hm. apply Z.eqb_eq in Hm. congruence. }
  pose proof (amount_error_iff formData) as Herr. rewrite Hn in Herr.
  split; [|split; [|split]].
  - unfold validateAmount. destruct (Z.ltb_spec n 0); split; intros; try lia; try reflexivity.
    discriminate.
  - split.
    + intros Hnone. destruct (Z.lt_ge_cases 0 n) as [|Hle]; [assumption|].
      exfalso. destruct (proj2 Herr) as (msg & Hin); [right; lia|].
      apply (Hnone msg Hin).
    + intros Hpos msg Hin.
      destruct (proj1 Herr (ex_intro _ msg Hin)) as [Hf | Hle]; [|lia].
      apply Hfalsy in Hf. lia.
  - intros Hle. unfold handleSubmit.
    destruct (validateForm formData) as [|x r] eqn:Hv; [|reflexivity].
    exfalso. destruct (proj2 Herr) as (msg & Hin); [right; exact Hle|].
    destruct Hin.
  - reflexivity.
Qed.

Lemma X16_forms_refuse_amount_zero_witness :
  (validateAmount (Some 0) = Valid 0 <-> 0 <= 0)
  /\ handleSubmit {| fd_title := "Water"; fd_amount := Text "0"; fd_category := "Food";
                     fd_date := "2024-03-05"; fd_description := EmptyString |}
     = None.
Proof.
  destruct (X16_forms_refuse_amount_zero decimalHost
              {| fd_title := "Water"; fd_amount := Text "0"; fd_category := "Food";
                 fd_date := "2024-03-05"; fd_description := EmptyString |} 0)
    as (Hschema & _ & Hform & _).
  - reflexivity.
  - reflexivity.
  - split; [exact Hschema | apply Hform; lia].
Defined.

(** ** Saving the edit page *)

Lemma mod10_range (x : Z) : 0 <= x mod 10 <= 9.
Proof. pose proof (Z.mod_pos_bound x 10). lia. Qed.

Lemma digitChar_cases (k : Z) :
  0 <= k <= 9 ->
  Calendar.digit (digitChar k) = Some k /\ Ascii.eqb (digitChar k) "T" = false.
Proof.
  intros Hk.
  assert (Hc : k = 0 \/ k = 1 \/ k = 2 \/ k = 3 \/ k = 4 \/ k = 5 \/ k = 6 \/ k = 7
               \/ k = 8 \/ k = 9) by lia.
  repeat (destruct Hc as [-> | Hc]; [split; reflexivity|]). subst k. split; reflexivity.
Qed.

Lemma digit_mod10 (x : Z) : Calendar.digit (digitChar (x mod 10)) = Some (x mod 10).
Proof. apply digitChar_cases, mod10_range. Qed.

Lemma notT_mod10 (x : Z) : Ascii.eqb (digitChar (x mod 10)) "T" = false.
Proof. apply digitChar_cases, mod10_range. Qed.

Lemma split_T_step (c : ascii) (r : string) :
  Ascii.eqb c "T" = false ->
  nth 0 (Js.split "T" (String c r)) EmptyString
  = String c (nth 0 (Js.split "T" r) EmptyString).
Proof.
  intros Hc. simpl. rewrite Hc. destruct (Js.split "T" r); reflexivity.
Qed.

Lemma datePart_of_iso (y m d : Z) (rest : string) :
  nth 0 (Js.split "T" (fourDigits y ++ "-" ++ twoDigits m ++ "-" ++ twoDigits d
                       ++ "T" ++ rest)) EmptyString
  = fourDigits y ++ "-" ++ twoDigits m ++ "-" ++ twoDigits d.
Proof.
  unfold fourDigits, threeDigits, twoDigits. cbn [append].
  repeat (rewrite split_T_step by (apply notT_mod10 || reflexivity)).
  reflexivity.
Qed.

Lemma parse_datePart (y m d : Z) :
  0 <= y <= 9999 -> 1 <= m <= 12 -> 1 <= d <= 31 ->
  Calendar.parseIsoDate (fourDigits y ++ "-" ++ twoDigits m ++ "-" ++ twoDigits d)
  = Some (Calendar.utc y m d 0 0 0 0).
Proof.
  intros Hy Hm Hd. unfold fourDigits, threeDigits, twoDigits, Calendar.parseIsoDate.
  cbn [append list_ascii_of_string Calendar.digits].
  rewrite !digit_mod10.
  assert (10 * (10 * (10 * (10 * 0 + y / 1000 mod 10) + y / 100 mod 10) + y / 10 mod 10)
          + y mod 10 = y) as -> by (Z.div_mod_to_equations; lia).
  assert (10 * (10 * 0 + m / 10 mod 10) + m mod 10 = m) as -> by (Z.div_mod_to_equations; lia).
  assert (10 * (10 * 0 + d / 10 mod 10) + d mod 10 = d) as -> by (Z.div_mod_to_equations; lia).
  assert ((1 <=? m) && (m <=? 12) && (1 <=? d) && (d <=? 31) = true) as ->.
  { rewrite !andb_true_iff, !Z.leb_le. lia. }
  reflexivity.
Qed.

(** The date text the edit page shows reads back as midnight UTC of the
    day of the instant. *)
Lemma formattedDate_reads_as_midnight (t : Z) :
  0 <= Calendar.year t <= 9999 ->
  exists text,
    formattedDate t = Some text
    /\ text <> EmptyString
    /\ Calendar.parseIsoDate text = Some (Calendar.msPerDay * (t / Calendar.msPerDay)).
Proof.
  unfold Calendar.year, formattedDate, toISOString.
  pose proof (civil_ranges (t / Calendar.msPerDay)) as Hr.
  pose proof (civil_round_trip (t / Calendar.msPerDay)) as Hrt.
  destruct (Calendar.civilFromDays (t / Calendar.msPerDay)) as [[y m] d].
  intros Hy. destruct Hr as [Hm Hd].
  assert ((0 <=? y) && (y <=? 9999) = true) as ->.
  { apply andb_true_iff. split; apply Z.leb_le; lia. }
  eexists. split; [reflexivity|].
  rewrite datePart_of_iso. split.
  - unfold fourDigits. discriminate.
  - rewrite (parse_datePart y m d Hy Hm Hd). unfold Calendar.utc. rewrite Hrt.
    f_equal. lia.
Qed.

(** X17: saving the edit page without touching a field still changes the
    record.  For a stored record with an amount above 0 and a four-digit
    year, the page loads, validates and submits, the update is answered 200,
    and the stored date becomes midnight UTC of the same day (the time of
    day is lost) and a missing description becomes the empty text; title,
    amount, category, identifier and [createdAt] keep their values and
    [updatedAt] is the clock reading of the update. *)
Theorem X17_saving_the_edit_page_unchanged :
  forall (numbers : NumberHost) (host : DateHost) (now : Z) (id : string) (oid : ObjectId)
         (coll : Collection) (e : Expense),
    (forall text t, Calendar.parseIsoDate text = Some t -> Date_parse text = Some t) ->
    castObjectId id = Some oid ->
    find (hasId oid) coll = Some e ->
    validRecord e ->
    Js.trim (title e) <> EmptyString ->
    0 < amount e ->
    0 <= Calendar.year (date e) <= 9999 ->
    exists formData p body e' coll',
      editFormData e = Some formData
      /\ handleSubmit formData = Some p
      /\ bodyOfSubmitted p = Some body
      /\ updateExpense now id body coll
         = ({| status := 200; success := true; payload := ExpenseData e' |}, coll')
      /\ date e' = Calendar.msPerDay * (date e / Calendar.msPerDay)
      /\ date e - Calendar.msPerDay < date e' <= date e
      /\ description e' = Some (Js.trim (orElse (description e) EmptyString))
      /\ title e' = Js.trim (title e)
      /\ amount e' = amount e
      /\ category e' = category e
      /\ _id e' = _id e
      /\ createdAt e' = createdAt e
      /\ updatedAt e' = now.
Proof.
  intros numbers host now id oid coll e Hiso Hcast Hfind (Ht & Hl & Ha & Hc & Hd) Hblank Hpos Hy.
  destruct (formattedDate_reads_as_midnight (date e) Hy) as (text & Htext & Hne & Hparse).
  set (formData := {| fd_title := title e; fd_amount := Num (amount e);
                      fd_category := category e; fd_date := text;
                      fd_description := orElse (description e) EmptyString |}).
  assert (Hdesc : (String.length (orElse (description e) EmptyString) <= 500)%nat).
  { destruct (description e) as [d|]; simpl; [apply Hd; reflexivity | lia]. }
  assert (Hcat : inEnum (category e) = true) by (apply inEnum_In, Hc).
  assert (Hform : validateForm formData = []).
  { unfold validateForm, formData; simpl.
    apply String.eqb_neq in Hblank. rewrite Hblank.
    assert ((100 <? String.length (title e))%nat = false) as -> by (apply Nat.ltb_ge, Hl).
    assert ((amount e =? 0) = false) as -> by (apply Z.eqb_neq; lia).
    assert ((amount e <=? 0) = false) as -> by (apply Z.leb_gt; lia).
    rewrite (inEnum_nonempty _ Hcat).
    apply String.eqb_neq in Hne. rewrite Hne.
    assert ((500 <? String.length (orElse (description e) EmptyString))%nat = false) as ->
      by (apply Nat.ltb_ge, Hdesc).
    rewrite andb_false_r. reflexivity. }
  set (p := {| s_title := title e; s_amount := Some (amount e); s_category := category e;
               s_date := text; s_description := orElse (description e) EmptyString |}).
  set (body := {| b_title := Some (title e); b_amount := Some (amount e);
                  b_category := Some (category e);
                  b_date := Some (Calendar.msPerDay * (date e / Calendar.msPerDay));
                  b_description := Some (orElse (description e) EmptyString) |}).
  assert (Hvalid : updateErrors body = []).
  { apply updateErrors_nil. unfold updateViolatedPaths, body; simpl.
    apply String.eqb_neq in Hblank. rewrite Hblank.
    assert ((100 <? String.length (Js.trim (title e)))%nat = false) as ->.
    { apply Nat.ltb_ge. pose proof (trim_length (title e)). lia. }
    assert ((amount e <? 0) = false) as -> by (apply Z.ltb_ge; lia).
    rewrite Hcat.
    assert ((500 <? String.length (Js.trim (orElse (description e) EmptyString)))%nat
            = false) as ->.
    { apply Nat.ltb_ge. pose proof (trim_length (orElse (description e) EmptyString)). lia. }
    reflexivity. }
  exists formData, p, body, (applyUpdate body now e),
    (updateOne oid (applyUpdate body now) coll).
  split; [unfold editFormData; rewrite Htext; reflexivity|].
  split; [unfold handleSubmit; rewrite Hform; reflexivity|].
  split; [unfold bodyOfSubmitted, p; simpl; rewrite (Hiso _ _ Hparse); reflexivity|].
  split.
  { unfold updateExpense, findByIdAndUpdate. rewrite Hcast, Hvalid, Hfind. reflexivity. }
  split; [reflexivity|].
  split.
  { change (date (applyUpdate body now e))
      with (Calendar.msPerDay * (date e / Calendar.msPerDay)).
    unfold Calendar.msPerDay. Z.div_mod_to_equations. lia. }
  repeat split.
Qed.

Lemma X17_saving_the_edit_page_witness :
  exists formData p body e' coll',
    editFormData lunch = Some formData
    /\ handleSubmit formData = Some p
    /\ bodyOfSubmitted p = Some body
    /\ updateExpense 9 lunchId body sampleStore
       = ({| status := 200; success := true; payload := ExpenseData e' |}, coll')
    /\ date e' = Calendar.msPerDay * (date lunch / Calendar.msPerDay)
    /\ date lunch - Calendar.msPerDay < date e' <= date lunch
    /\ description e' = Some (Js.trim (orElse (description lunch) EmptyString))
    /\ title e' = Js.trim (title lunch)
    /\ amount e' = amount lunch
    /\ category e' = category lunch
    /\ _id e' = _id lunch
    /\ createdAt e' = createdAt lunch
    /\ updatedAt e' = 9.
Proof.
  apply (X17_saving_the_edit_page_unchanged decimalHost isoHost 9 lunchId lunchId
           sampleStore lunch).
  - intros text t Ht. exact Ht.
  - reflexivity.
  - reflexivity.
  - split; [discriminate|]. split; [apply Nat.leb_le; reflexivity|].
    split; [vm_compute; discriminate|]. split; [apply inEnum_In; reflexivity|].
    intros d Hd. discriminate Hd.
  - discriminate.
  - reflexivity.
  - vm_compute. split; discriminate.
Defined.

(** ** Status codes *)

Lemma getExpenses_outcome `{DateHost} `{Store} (r : ReqQuery) (coll : Collection) :
  (exists count total data,
      getExpenses r coll
      = {| status := 200; success := true; payload := ExpenseList count total data |})
  \/ getExpenses r coll = errorHandler (CastError "date" "Invalid Date" "date")
  \/ getExpenses r coll = errorHandler (BadSortKeyError (fst (buildSort (q_sort r)))).
Proof.
  unfold getExpenses, findSorted.
  destruct (castBound (f_gte (buildQuery r))) as [lo|e1] eqn:H1.
  - destruct (castBound (f_lte (buildQuery r))) as [hi|e2] eqn:H2.
    + destruct (acceptsSortKey (fst (buildSort (q_sort r)))).
      * left. eexists _, _, _. reflexivity.
      * right. right. reflexivity.
    + right. left. apply castBound_throw in H2. subst e2. reflexivity.
  - right. left. apply castBound_throw in H1. subst e1. reflexivity.
Qed.

Lemma create_answer (oid : ObjectId) (tDefault tSave : Z) (b : Body) (coll : Collection) :
  In (status (fst (createExpense oid tDefault tSave b coll))) [201; 400; 500]
  /\ success (fst (createExpense oid tDefault tSave b coll))
     = (status (fst (createExpense oid tDefault tSave b coll)) <? 300).
Proof.
  unfold createExpense. rewrite create_unfold.
  destruct (validateTitle _), (validateAmount _), (validateCategory _),
    (validateDescription _); try (split; [simpl; tauto | reflexivity]);
    destruct (existsb (hasId oid) coll); split; simpl; tauto.
Qed.

(** X18: each endpoint answers with one of a few status codes, and the
    [success] flag of every answer says exactly whether the status is below
    300: 200 or 500 for the listing, 200, 404 or 500 for a lookup, 201, 400
    or 500 for a create, 200, 400, 404 or 500 for an update, 200, 404 or 500
    for a delete.  In particular a listing answer that the client's HTTP
    library hands over (it throws on a status outside 200 to 299) always
    has [success] set. *)
Theorem X18_status_codes :
  forall (host : DateHost) (store : Store) (coll : Collection),
    (forall r, answersWith [200; 500] (getExpenses r coll))
    /\ (forall id, answersWith [200; 404; 500] (getExpense id coll))
    /\ (forall oid tDefault tSave b,
          answersWith [201; 400; 500] (fst (createExpense oid tDefault tSave b coll)))
    /\ (forall now id b, answersWith [200; 400; 404; 500] (fst (updateExpense now id b coll)))
    /\ (forall id, answersWith [200; 404; 500] (fst (deleteExpense id coll)))
    /\ (forall r, resolved (getExpenses r coll) = success (getExpenses r coll)).
Proof.
  intros host store coll. unfold answersWith.
  split.
  { intros r. destruct (getExpenses_outcome r coll) as [(c & t & d & ->) | [-> | ->]];
      split; simpl; tauto. }
  split.
  { intros id. unfold getExpense, findById.
    destruct (castObjectId id); [destruct (find _ coll)|]; split; simpl; tauto. }
  split; [intros oid tDefault tSave b; apply create_answer|].
  split.
  { intros now id b.
    destruct (update_outcome now id b coll)
      as [[_ ->] | [(oid & _ & _ & ->) | [(oid & _ & _ & _ & ->) | (oid & e & _ & _ & _ & ->)]]];
      split; simpl; tauto. }
  split.
  { intros id.
    destruct (delete_outcome id coll) as [[_ ->] | [(oid & _ & _ & ->) | (oid & e & _ & _ & ->)]];
      split; simpl; tauto. }
  intros r.
  destruct (getExpenses_outcome r coll) as [(c & t & d & ->) | [-> | ->]]; reflexivity.
Qed.

(** ** The query the client sends *)

Lemma truthy_kept (v : option string) :
  Js.truthy (if Js.truthy v then v else None) = Js.truthy v.
Proof. destruct (Js.truthy v) eqn:Hv; [exact Hv | reflexivity]. Qed.

Lemma kept_twice (v : option string) :
  (if Js.truthy (if Js.truthy v then v else None)
   then (if Js.truthy v then v else None) else None)
  = (if Js.truthy v then v else None).
Proof. destruct (Js.truthy v) eqn:Hv; [rewrite Hv|]; reflexivity. Qed.

(** X19: the context leaves a filter with an empty value out of the query
    it sends, and this changes nothing: the server answers the query sent
    exactly as it would answer the filters themselves.  The dashboard's
    reset (no filters at all) and its default filters (all empty, sort
    'date:desc') are answered alike. *)
Theorem X19_dropping_empty_filters_is_harmless :
  forall (host : DateHost) (store : Store) (filters : ReqQuery) (coll : Collection),
    getExpenses (queryOfFilters filters) coll = getExpenses filters coll
    /\ getExpenses (queryOfFilters (mkQuery (Some EmptyString) (Some EmptyString)
                                      (Some EmptyString) (Some "date:desc"))) coll
       = getExpenses (queryOfFilters noQuery) coll.
Proof.
  intros host store filters coll. split; [|reflexivity].
  assert (Hq : buildQuery (queryOfFilters filters) = buildQuery filters).
  { assert (Hd : forall v, dateBound (if Js.truthy v then v else None) = dateBound v).
    { intros v. unfold dateBound. destruct v as [x|]; [|reflexivity].
      destruct (Js.truthy (Some x)) eqn:Hx; [rewrite Hx|]; reflexivity. }
    unfold buildQuery, queryOfFilters; cbn [q_category q_startDate q_endDate q_sort].
    rewrite kept_twice, !truthy_kept, !Hd. reflexivity. }
  assert (Hs : buildSort (q_sort (queryOfFilters filters)) = buildSort (q_sort filters)).
  { apply buildSort_kept. }
  unfold getExpenses. rewrite Hq, Hs. reflexivity.
Qed.

(** ** The window of the monthly totals *)

Lemma year_bounds_text (year : Z) :
  1000 <= year <= 9999 ->
  Calendar.parseIsoDate (Js.numberToString year ++ "-01-01")
    = Some (Calendar.utc year 1 1 0 0 0 0)
  /\ Calendar.parseIsoDate (Js.numberToString year ++ "-12-31")
     = Some (Calendar.utc year 12 31 0 0 0 0).
Proof.
  intros Hy.
  set (good := fun y : Z =>
         match Calendar.parseIsoDate (Js.numberToString y ++ "-01-01"),
               Calendar.parseIsoDate (Js.numberToString y ++ "-12-31") with
         | Some lo, Some hi =>
             (lo =? Calendar.utc y 1 1 0 0 0 0) && (hi =? Calendar.utc y 12 31 0 0 0 0)
         | _, _ => false
         end).
  assert (Hall : forallb good (map Z.of_nat (seq (Z.to_nat 1000) (Z.to_nat 9000))) = true)
    by (vm_compute; reflexivity).
  assert (Hgood : good year = true).
  { apply (proj1 (forallb_forall _ _) Hall). apply in_map_iff.
    exists (Z.to_nat year). split; [lia | apply in_seq; lia]. }
  unfold good in Hgood.
  destruct (Calendar.parseIsoDate (Js.numberToString year ++ "-01-01")) as [lo|];
    [|discriminate Hgood].
  destruct (Calendar.parseIsoDate (Js.numberToString year ++ "-12-31")) as [hi|];
    [|discriminate Hgood].
  apply andb_true_iff in Hgood as [Hlo Hhi].
  apply Z.eqb_eq in Hlo, Hhi. subst lo hi. split; reflexivity.
Qed.

(** X20: for a four-digit year, on a host that reads date-only ISO texts as
    the language fixes them, the monthly totals count exactly the records
    dated from 1 January 00:00 UTC to 31 December 00:00 UTC of that year,
    both instants included: a month is listed exactly when such a record
    falls in it, with the sum of the amounts of those records, and a record
    dated after the first instant of 31 December adds nothing. *)
Theorem X20_window_of_the_monthly_totals :
  forall (host : DateHost) (year : Z) (coll : Collection),
    (forall text t, Calendar.parseIsoDate text = Some t -> Date_parse text = Some t) ->
    1000 <= year <= 9999 ->
    let lo := Calendar.utc year 1 1 0 0 0 0 in
    let hi := Calendar.utc year 12 31 0 0 0 0 in
    exists rows,
      getMonthlyExpenses year coll = Some rows
      /\ StronglySorted (fun a b : Z * Z => fst a <= fst b) rows
      /\ (forall m, In m (map fst rows)
                    <-> exists e, In e coll /\ lo <= date e <= hi
                                  /\ Calendar.month (date e) = m)
      /\ (forall m t, In (m, t) rows ->
            t = sumZ (map amount
                   (filter (fun e => Calendar.month (date e) =? m)
                      (filter (fun e => (lo <=? date e) && (date e <=? hi)) coll))))
      /\ (forall e, hi < date e -> getMonthlyExpenses year (e :: coll) = Some rows).
Proof.
  intros host year coll Hiso Hy lo hi.
  destruct (year_bounds_text year Hy) as [Hlo Hhi].
  apply Hiso in Hlo, Hhi.
  destruct (monthly_totals_between_bounds host year coll lo hi Hlo Hhi)
    as (rows & Hr & Hs & _ & Hkeys & Htot).
  exists rows. split; [exact Hr|]. split; [exact Hs|]. split; [exact Hkeys|].
  split; [exact Htot|].
  intros e Hlate. rewrite <- Hr. unfold getMonthlyExpenses. rewrite Hlo, Hhi.
  cbn [filter]. apply Z.leb_gt in Hlate. fold hi. rewrite Hlate, andb_false_r.
  reflexivity.
Qed.

Lemma X20_window_witness :
  exists rows,
    getMonthlyExpenses 2024 sampleStore = Some rows
    /\ getMonthlyExpenses 2024 (newYearsEve :: sampleStore) = Some rows.
Proof.
  destruct (X20_window_of_the_monthly_totals isoHost 2024 sampleStore)
    as (rows & Hr & _ & _ & _ & Hlate).
  - intros text t Ht. exact Ht.
  - lia.
  - exists rows. split; [exact Hr|]. apply Hlate. vm_compute. reflexivity.
Defined.

(** ** The list as first shown *)

Lemma sortBy_sorted_id {A : Type} (leb : A -> A -> bool) (l : list A) :
  Sorted (lebRel leb) l -> sortBy leb l = l.
Proof.
  induction 1 as [|x l Hs IH Hhd]; simpl; [reflexivity|].
  fold (sortBy leb l). rewrite IH.
  destruct Hhd as [|y r Hxy]; simpl; [reflexivity|].
  unfold lebRel in Hxy. rewrite Hxy. reflexivity.
Qed.

(** X21: as first shown, the list does not reorder what the server sent.
    The records of a listing sorted by date descending (the server's default
    and the dashboard's 'date:desc') come out of the list's own sort, in its
    initial state, in the same order, and the first page shows the first 10
    of them. *)
Theorem X21_initial_list_keeps_server_order :
  forall (host : DateHost) (store : Store) (r : ReqQuery) (coll : Collection),
    readable (q_startDate r) -> readable (q_endDate r) ->
    q_sort r = None \/ q_sort r = Some "date:desc" ->
    exists count total data,
      getExpenses r coll
        = {| status := 200; success := true; payload := ExpenseList count total data |}
      /\ sortedExpenses initialListState data = data
      /\ currentExpenses initialListState data = firstn 10 data.
Proof.
  intros host store r coll Hs He Hsort.
  pose proof (getExpenses_readable r coll Hs He) as Hresp. cbv zeta in Hresp.
  assert (Hdesc : buildSort (q_sort r) = ("date", Desc)).
  { destruct Hsort as [-> | ->]; reflexivity. }
  rewrite Hdesc in Hresp. specialize (Hresp accepts_date).
  set (data := sortBy (docLeb ("date", Desc)) _) in *.
  assert (Hsorted : Sorted (lebRel (clientLeb initialListState)) data).
  { apply (Sorted_weaken (lebRel (docLeb ("date", Desc)))).
    - intros a b Hab. exact Hab.
    - apply sortBy_sorted, docLeb_total. }
  assert (Hid : sortedExpenses initialListState data = data).
  { apply sortBy_sorted_id, Hsorted. }
  eexists _, _, data. split; [exact Hresp|]. split; [exact Hid|].
  unfold currentExpenses. rewrite Hid. reflexivity.
Qed.

Lemma X21_initial_list_witness :
  exists count total data,
    getExpenses noQuery sampleStore
      = {| status := 200; success := true; payload := ExpenseList count total data |}
    /\ sortedExpenses initialListState data = data
    /\ currentExpenses initialListState data = firstn 10 data.
Proof.
  apply (X21_initial_list_keeps_server_order isoHost dottedStore noQuery sampleStore).
  - intros s Hs. discriminate.
  - intros s Hs. discriminate.
  - left. reflexivity.
Defined.

(** X22: the page number is not brought back when the list shrinks.  When
    the last page held a single expense and that expense goes (so that a
    whole number of full pages remains), the list, still on that page, shows
    no row although expenses remain, and there is one page fewer than the
    page it is on. *)
Theorem X22_page_can_run_past_the_end :
  forall (s : ListState) (expenses : list Expense) (k : nat),
    (1 <= k)%nat ->
    List.length expenses = (10 * k)%nat ->
    currentPage s = S k ->
    currentExpenses s expenses = []
    /\ expenses <> []
    /\ totalPages expenses = k
    /\ forall e, totalPages (e :: expenses) = S k
                  /\ currentExpenses s (e :: expenses) <> [].
Proof.
  intros s expenses k Hk Hlen Hpage.
  assert (Hsorted : forall l, List.length (sortedExpenses s l) = List.length l).
  { intros l. apply Permutation_length, sortBy_perm. }
  assert (Htotal : forall l : list Expense, List.length l = (10 * k)%nat -> totalPages l = k).
  { intros l Hl. pose proof (totalPages_bounds l) as [H1 H2].
    unfold itemsPerPage in *. lia. }
  assert (Htotal' : forall l : list Expense,
             List.length l = S (10 * k) -> totalPages l = S k).
  { intros l Hl. pose proof (totalPages_bounds l) as [H1 H2].
    unfold itemsPerPage in *. lia. }
  split.
  { unfold currentExpenses. rewrite Hpage, pageOf_window by lia.
    rewrite skipn_all2; [apply firstn_nil|]. rewrite Hsorted, Hlen.
    unfold itemsPerPage. lia. }
  split; [intros ->; simpl in Hlen; lia|].
  split; [apply Htotal, Hlen|].
  intros e. split; [apply Htotal'; simpl; rewrite Hlen; reflexivity|].
  intros Hnil. unfold currentExpenses in Hnil. rewrite Hpage, pageOf_window in Hnil by lia.
  apply (f_equal (@List.length Expense)) in Hnil.
  rewrite length_firstn, length_skipn, Hsorted in Hnil. simpl List.length in Hnil.
  rewrite Hlen in Hnil. unfold itemsPerPage in Hnil. lia.
Qed.

Lemma X22_page_can_run_past_the_end_witness :
  currentExpenses (handlePageChange 2 initialListState) (repeat lunch 10) = []
  /\ repeat lunch 10 <> []
  /\ totalPages (repeat lunch 10) = 1%nat
  /\ forall e, totalPages (e :: repeat lunch 10) = 2%nat
                /\ currentExpenses (handlePageChange 2 initialListState)
                     (e :: repeat lunch 10) <> [].
Proof.
  apply (X22_page_can_run_past_the_end (handlePageChange 2 initialListState)
           (repeat lunch 10) 1); reflexivity || lia.
Defined.
